(** * WhatsApp / GoHighLevel gateway: a shallow embedding of the session
      fleet, the outbound queue and the webhook dispatcher.

    The JavaScript sources are embedded as pure functions over explicit
    states.  An [async] method that may reject becomes a function returning a
    [Completion] together with the new state; a [setTimeout] becomes an entry
    in a list of scheduled timers; the connection pool of the database is a
    table store together with the list of failures the environment is going
    to inject into the coming queries. *)

From Stdlib Require Import ZArith Lia.
From stdpp Require Import base option list gmap strings pretty.

Open Scope string_scope.
Open Scope list_scope.
Open Scope Z_scope.

(** ** JavaScript completions: a value or a thrown error *)

Module Js.

Inductive Completion (A : Type) : Type :=
| Normal (a : A)
| Throw (message : string).
Arguments Normal {A} a.
Arguments Throw {A} message.

(** An effectful computation over a state [S]. *)
Definition Eff (S A : Type) : Type := S -> Completion A * S.

Definition ret {S A} (a : A) : Eff S A := fun s => (Normal a, s).

Definition throw {S A} (message : string) : Eff S A :=
  fun s => (Throw message, s).

Definition bind {S A B} (m : Eff S A) (k : A -> Eff S B) : Eff S B :=
  fun s =>
    match m s with
    | (Normal a, s') => k a s'
    | (Throw e, s') => (Throw e, s')
    end.

(** [try { body } catch (error) { handler }] *)
Definition try_catch {S A} (body : Eff S A) (handler : string -> Eff S A)
  : Eff S A :=
  fun s =>
    match body s with
    | (Normal a, s') => (Normal a, s')
    | (Throw e, s') => handler e s'
    end.

Definition returns_normally {A} (c : Completion A) : bool :=
  match c with Normal _ => true | Throw _ => false end.

End Js.

Import Js.

Notation "'await' x ':=' m 'in' k" := (Js.bind m (fun x => k))
  (at level 10, x name, m at level 100, k at level 200).

(** ** The persistent store behind [pool.query] *)

Module Db.

(** [status TEXT CHECK (status IN
      ('connecting', 'connected', 'disconnected', 'error'))] *)
Inductive Status : Type := connecting | connected | disconnected | error.

Definition Status_eqb (a b : Status) : bool :=
  match a, b with
  | connecting, connecting | connected, connected
  | disconnected, disconnected | error, error => true
  | _, _ => false
  end.

(** A row of [whatsapp_sessions] (schema.sql); [None] is SQL NULL. *)
Record SessionRow : Type := mkSessionRow {
  session_id : string;
  organization_id : string;
  phone_number : option string;
  status : Status;
  qr_code : option string;
  auth_state : option string;
  last_seen_at : option Z;
  error_message : option string;
  reconnect_attempts : Z;
  updated_at : Z
}.

(** A row of [usage_tracking]. *)
Record UsageRow : Type := mkUsageRow {
  usage_organization_id : string;
  period_start : string;
  messages_sent : option Z;
  messages_received : option Z
}.

Record Tables : Type := mkTables {
  whatsapp_sessions : list SessionRow;
  usage_tracking : list UsageRow
}.

(** The pool: the tables, the server clock read by [NOW()], and the
    outcomes the environment has decided for the coming queries
    ([Some e]: the query rejects with [e]; [None], or nothing left: it is
    executed). *)
Record Pool : Type := mkPool {
  tables : Tables;
  now : Z;
  outcomes : list (option string)
}.

(** [await pool.query(sql, params)] where [sql] is given by its meaning on
    the tables.  A rejected statement leaves the tables as they were. *)
Definition query {A} (sql : Z -> Tables -> A * Tables) : Eff Pool A :=
  fun p =>
    match outcomes p with
    | Some e :: rest => (Throw e, mkPool (tables p) (now p) rest)
    | None :: rest =>
        let '(a, t) := sql (now p) (tables p) in
        (Normal a, mkPool t (now p) rest)
    | [] =>
        let '(a, t) := sql (now p) (tables p) in
        (Normal a, mkPool t (now p) [])
    end.

Definition on_sessions (f : list SessionRow -> list SessionRow)
  (t : Tables) : Tables :=
  mkTables (f (whatsapp_sessions t)) (usage_tracking t).

(** [COALESCE(a, b)] *)
Definition COALESCE {A} (a b : option A) : option A :=
  match a with Some _ => a | None => b end.

(** [SELECT auth_state FROM whatsapp_sessions WHERE session_id = $1] *)
Definition select_auth_state (sessionId : string)
  (_ : Z) (t : Tables) : list (option string) * Tables :=
  (map auth_state
     (List.filter (fun r => bool_decide (session_id r = sessionId))
        (whatsapp_sessions t)), t).

(** [UPDATE whatsapp_sessions
     SET status = $1, phone_number = COALESCE($2, phone_number),
         error_message = $3, last_seen_at = NOW(), updated_at = NOW()
     WHERE session_id = $4] *)
Definition set_status (st : Status) (phoneNumber errorMessage : option string)
  (t : Z) (r : SessionRow) : SessionRow :=
  mkSessionRow (session_id r) (organization_id r)
    (COALESCE phoneNumber (phone_number r))
    st (qr_code r) (auth_state r) (Some t) errorMessage
    (reconnect_attempts r) t.

Definition update_where (sessionId : string) (f : SessionRow -> SessionRow)
  (rows : list SessionRow) : list SessionRow :=
  map (fun r => if decide (session_id r = sessionId) then f r else r) rows.

Definition update_session_status (st : Status)
  (phoneNumber errorMessage : option string) (sessionId : string)
  (t : Z) (tb : Tables) : unit * Tables :=
  (tt, on_sessions
         (update_where sessionId (set_status st phoneNumber errorMessage t))
         tb).

(** [SELECT session_id, organization_id, auth_state, phone_number
     FROM whatsapp_sessions
     WHERE status IN ('connected', 'connecting') AND auth_state IS NOT NULL] *)
Definition is_active (r : SessionRow) : bool :=
  (Status_eqb (status r) connected || Status_eqb (status r) connecting)
  && bool_decide (is_Some (auth_state r)).

Definition select_active_sessions (_ : Z) (t : Tables)
  : list SessionRow * Tables :=
  (List.filter is_active (whatsapp_sessions t), t).

(** [UPDATE whatsapp_sessions SET reconnect_attempts = $1 WHERE session_id = $2] *)
Definition set_attempts (n : Z) (r : SessionRow) : SessionRow :=
  mkSessionRow (session_id r) (organization_id r) (phone_number r)
    (status r) (qr_code r) (auth_state r) (last_seen_at r)
    (error_message r) n (updated_at r).

Definition update_reconnect_attempts (n : Z) (sessionId : string)
  (_ : Z) (tb : Tables) : unit * Tables :=
  (tt, on_sessions (update_where sessionId (set_attempts n)) tb).

(** [UPDATE whatsapp_sessions SET auth_state = $1::jsonb, updated_at = NOW()
     WHERE session_id = $2] *)
Definition set_auth_state (blob : string) (t : Z) (r : SessionRow)
  : SessionRow :=
  mkSessionRow (session_id r) (organization_id r) (phone_number r)
    (status r) (qr_code r) (Some blob) (last_seen_at r)
    (error_message r) (reconnect_attempts r) t.

Definition update_auth_state (blob : string) (sessionId : string)
  (t : Z) (tb : Tables) : unit * Tables :=
  (tt, on_sessions (update_where sessionId (set_auth_state blob t)) tb).

(** [SELECT COUNT( * ) as count FROM whatsapp_sessions
     WHERE organization_id = $1 AND status != 'error'] *)
Definition counts_for (org : string) (r : SessionRow) : bool :=
  bool_decide (organization_id r = org) && negb (Status_eqb (status r) error).

Definition count_sessions (org : string) (_ : Z) (t : Tables)
  : Z * Tables :=
  (Z.of_nat (length (List.filter (counts_for org) (whatsapp_sessions t))), t).

(** [SELECT messages_sent, messages_received FROM usage_tracking
     WHERE organization_id = $1 AND period_start = $2::date] *)
Definition select_usage (org month : string) (_ : Z) (t : Tables)
  : list UsageRow * Tables :=
  (List.filter
     (fun u => bool_decide (usage_organization_id u = org)
               && bool_decide (period_start u = month))
     (usage_tracking t), t).

(** The next query is executed, not rejected. *)
Definition executes (p : Pool) : bool :=
  match outcomes p with
  | Some _ :: _ => false
  | _ => true
  end.

(** No query is going to be rejected. *)
Definition healthy (p : Pool) : bool :=
  forallb (fun o => match o with None => true | Some _ => false end)
    (outcomes p).

(** The row of a session ([session_id] is UNIQUE). *)
Definition find_session (sessionId : string) (p : Pool) : option SessionRow :=
  List.find (fun r => bool_decide (session_id r = sessionId))
    (whatsapp_sessions (tables p)).

(** [INSERT INTO whatsapp_sessions (session_id, organization_id, status)
     VALUES ($1, $2, 'connecting') RETURNING ...]: the other columns take
    their defaults; [session_id] is UNIQUE, and [None] is the violation of
    that constraint, which leaves the table as it was. *)
Definition new_session (sessionId organizationId : string) (t : Z)
  : SessionRow :=
  mkSessionRow sessionId organizationId None connecting None None None None
    0 t.

Definition insert_session (sessionId organizationId : string)
  (t : Z) (tb : Tables) : option SessionRow * Tables :=
  if existsb (fun r => bool_decide (session_id r = sessionId))
       (whatsapp_sessions tb)
  then (None, tb)
  else (Some (new_session sessionId organizationId t),
        on_sessions
          (fun rows => rows ++ [new_session sessionId organizationId t]) tb).

(** [DELETE FROM whatsapp_sessions WHERE session_id = $1] *)
Definition delete_session (sessionId : string) (_ : Z) (tb : Tables)
  : unit * Tables :=
  (tt, on_sessions
         (List.filter (fun r => negb (bool_decide (session_id r = sessionId))))
         tb).

(** A row of [organizations], as far as the limits go. *)
Record OrgRow : Type := mkOrgRow {
  org_row_id : string;
  org_max_accounts : Z
}.

(** [SELECT (SELECT COUNT( * ) FROM whatsapp_sessions
             WHERE organization_id = $1 AND status != 'error')
            as current_count,
            o.max_accounts as max_allowed
     FROM organizations o WHERE o.id = $1] *)
Definition select_account_limit (organizations : list OrgRow)
  (organizationId : string) (t : Z) (tb : Tables) : list (Z * Z) * Tables :=
  (map (fun o => (fst (count_sessions organizationId t tb), org_max_accounts o))
     (List.filter (fun o => bool_decide (org_row_id o = organizationId))
        organizations),
   tb).

End Db.

(** ** SessionPersistence *)

Module SessionPersistence.
Import Db.

(** [saveAuthState]: logs and rethrows. *)
Definition saveAuthState (sessionId authStateJson : string) : Eff Pool unit :=
  try_catch
    (query (update_auth_state authStateJson sessionId))
    (fun e => throw e).

(** [loadAuthState]: the blob of the first row when there is one and it is
    truthy (a stored auth state is a JSON object), [null] otherwise and on
    any error. *)
Definition loadAuthState (sessionId : string) : Eff Pool (option string) :=
  try_catch
    (await rows := query (select_auth_state sessionId) in
     match rows with
     | Some blob :: _ => ret (Some blob)
     | _ => ret None
     end)
    (fun _ => ret None).

(** [updateSessionStatus(sessionId, status, phoneNumber = null,
    errorMessage = null)]: errors are logged and swallowed. *)
Definition updateSessionStatus (sessionId : string) (st : Status)
  (phoneNumber errorMessage : option string) : Eff Pool unit :=
  try_catch
    (query (update_session_status st phoneNumber errorMessage sessionId))
    (fun _ => ret tt).

(** [getActiveSessions]: the rows, or the empty array on error. *)
Definition getActiveSessions : Eff Pool (list SessionRow) :=
  try_catch
    (query select_active_sessions)
    (fun _ => ret []).

Definition updateReconnectAttempts (sessionId : string) (attempts : Z)
  : Eff Pool unit :=
  try_catch
    (query (update_reconnect_attempts attempts sessionId))
    (fun _ => ret tt).

Definition resetReconnectAttempts (sessionId : string) : Eff Pool unit :=
  updateReconnectAttempts sessionId 0.

(** [saveQRCode]: errors are logged and swallowed. *)
Definition set_qr_code (qr : string) (t : Z) (r : SessionRow) : SessionRow :=
  mkSessionRow (session_id r) (organization_id r) (phone_number r)
    (status r) (Some qr) (auth_state r) (last_seen_at r)
    (error_message r) (reconnect_attempts r) t.

Definition saveQRCode (sessionId qrCode : string) : Eff Pool unit :=
  try_catch
    (query (fun t tb =>
              (tt, on_sessions
                     (update_where sessionId (set_qr_code qrCode t)) tb)))
    (fun _ => ret tt).

(** [createSessionRecord]: the new row, or the error of the store thrown
    on. *)
Definition createSessionRecord (sessionId organizationId : string)
  : Eff Pool SessionRow :=
  try_catch
    (await inserted := query (insert_session sessionId organizationId) in
     match inserted with
     | Some row => ret row
     | None =>
         throw "duplicate key value violates unique constraint"
     end)
    (fun e => throw e).

(** [deleteSession]: errors are logged and swallowed. *)
Definition deleteSession (sessionId : string) : Eff Pool unit :=
  try_catch (query (delete_session sessionId)) (fun _ => ret tt).

(** [{ count, limit, canAdd }] *)
Record AccountLimit : Type := mkAccountLimit {
  count : Z;
  limit : Z;
  canAdd : bool
}.

(** [checkAccountLimit(organizationId)]; [organizations] is the table it
    reads the cap from. *)
Definition checkAccountLimit (organizations : list OrgRow)
  (organizationId : string) : Eff Pool AccountLimit :=
  try_catch
    (await rows := query (select_account_limit organizations organizationId) in
     match rows with
     | [] => throw "Organization not found"
     | (current_count, max_allowed) :: _ =>
         ret (mkAccountLimit current_count max_allowed
                (current_count <? max_allowed))
     end)
    (fun e => throw e).

End SessionPersistence.

(** ** ReconnectionManager *)

Module ReconnectionManager.
Import Db.

Definition maxAttempts : nat := 5.
Definition baseDelay : Z := 5000.
Definition maxDelay : Z := 300000.

(** What a pending [setTimeout] is going to do when it fires. *)
Inductive Task : Type :=
| Reconnect (sessionId : string)
| RateLimitRecovery (sessionId : string).

Record Timer : Type := mkTimer { delay : Z; task : Task }.

(** [reconnectionAttempts] is the in-memory [Map] sessionId -> count. *)
Record State : Type := mkState {
  reconnectionAttempts : gmap string nat;
  persistence : Pool;
  timers : list Timer
}.

Definition with_pool {A} (m : Eff Pool A) : Eff State A :=
  fun s =>
    let '(c, p) := m (persistence s) in
    (c, mkState (reconnectionAttempts s) p (timers s)).

Definition set_attempts (f : gmap string nat -> gmap string nat)
  : Eff State unit :=
  fun s =>
    (Normal tt, mkState (f (reconnectionAttempts s)) (persistence s) (timers s)).

Definition setTimeout (t : Task) (ms : Z) : Eff State unit :=
  fun s =>
    (Normal tt,
     mkState (reconnectionAttempts s) (persistence s)
       (timers s ++ [mkTimer ms t])).

(** [this.reconnectionAttempts.get(sessionId) || 0] *)
Definition getAttempts (sessionId : string) (s : State) : nat :=
  default 0%nat (reconnectionAttempts s !! sessionId).

(** [Math.min(this.baseDelay * Math.pow(2, attempts), this.maxDelay)] *)
Definition backoff (attempts : nat) : Z :=
  Z.min (baseDelay * 2 ^ Z.of_nat attempts) maxDelay.

(** [`Max reconnection attempts exceeded (${this.maxAttempts})`] *)
Definition max_attempts_message : string :=
  "Max reconnection attempts exceeded (" +:+ pretty maxAttempts +:+ ")".

Definition handleDisconnection (sessionId : string) : Eff State unit :=
  fun s =>
    let attempts := getAttempts sessionId s in
    if (maxAttempts <=? attempts)%nat then
      (await _ := with_pool
         (SessionPersistence.updateSessionStatus sessionId error None
            (Some max_attempts_message)) in
       set_attempts (delete sessionId)) s
    else
      let delay := backoff attempts in
      (await _ := set_attempts (<[sessionId := S attempts]>) in
       await _ := with_pool
         (SessionPersistence.updateReconnectAttempts sessionId
            (Z.of_nat attempts + 1)) in
       await _ := with_pool
         (SessionPersistence.updateSessionStatus sessionId connecting
            None None) in
       setTimeout (Reconnect sessionId) delay) s.

(** [handleRateLimit]: wait 15 minutes, then go through
    [handleDisconnection]. *)
Definition handleRateLimit (sessionId : string) : Eff State unit :=
  await _ := with_pool
    (SessionPersistence.updateSessionStatus sessionId connecting None
       (Some "Rate limited by WhatsApp. Waiting 15 minutes...")) in
  setTimeout (RateLimitRecovery sessionId) (15 * 60 * 1000).

(** The body of a timer when it fires; [created] is the completion of
    [sessionManager.createSession(sessionId)]. *)
Definition fire (t : Task) (created : Completion unit) : Eff State unit :=
  match t with
  | Reconnect sessionId =>
      match created with
      | Normal _ =>
          await _ := set_attempts (delete sessionId) in
          with_pool (SessionPersistence.resetReconnectAttempts sessionId)
      | Throw _ => handleDisconnection sessionId
      end
  | RateLimitRecovery sessionId => handleDisconnection sessionId
  end.

Definition resetAttempts (sessionId : string) : Eff State unit :=
  set_attempts (delete sessionId).

Definition isReconnecting (sessionId : string) (s : State) : bool :=
  bool_decide (is_Some (reconnectionAttempts s !! sessionId)).

(** What happens to the controller, one thing after the other. *)
Inductive Event : Type :=
| Disconnected (sessionId : string)
| RateLimited (sessionId : string)
| TimerFired (t : Task) (created : Completion unit)
| AttemptsReset (sessionId : string).

Definition react (e : Event) : Eff State unit :=
  match e with
  | Disconnected sessionId => handleDisconnection sessionId
  | RateLimited sessionId => handleRateLimit sessionId
  | TimerFired t created => fire t created
  | AttemptsReset sessionId => resetAttempts sessionId
  end.

Definition replay (events : list Event) (s : State) : State :=
  fold_left (fun s e => snd (react e s)) events s.

(** The store after the two writes of a disconnect below the cap. *)
Definition store_after_attempt (sessionId : string) (n : nat) (p : Pool)
  : Pool :=
  snd (SessionPersistence.updateSessionStatus sessionId connecting None None
         (snd (SessionPersistence.updateReconnectAttempts sessionId
                 (Z.of_nat n + 1) p))).

End ReconnectionManager.

(** ** SessionManager, the copy with persistence: the [connection.update]
       handler installed by [createSession], for [connection === 'close'] *)

Module SessionManager.
Import Db.

(** An entry of the registry [this.sessions] (the socket is left out). *)
Record Handle : Type := mkHandle {
  handle_status : Status;
  phoneNumber : option string;
  createdAt : Z
}.

(** Which members of the [callbacks] bag are present. *)
Record Callbacks : Type := mkCallbacks {
  onQR : bool;
  onConnected : bool;
  onMessage : bool;
  onDisconnect : bool
}.

(** [lastDisconnect?.error?.output?.statusCode] and
    [lastDisconnect?.error?.message]; [None] is [undefined]. *)
Record LastDisconnect : Type := mkLastDisconnect {
  statusCode : option Z;
  message : option string
}.

Inductive Task : Type :=
| CreateSession (sessionId : string) (callbacks : Callbacks).

Inductive Fired : Type :=
| OnDisconnect (sessionId : string).

Record State : Type := mkState {
  sessions : gmap string Handle;
  persistence : Pool;
  timers : list (Z * Task);
  fired : list Fired
}.

Definition with_pool {A} (m : Eff Pool A) : Eff State A :=
  fun s =>
    let '(c, p) := m (persistence s) in
    (c, mkState (sessions s) p (timers s) (fired s)).

Definition setTimeout (t : Task) (ms : Z) : Eff State unit :=
  fun s =>
    (Normal tt,
     mkState (sessions s) (persistence s) (timers s ++ [(ms, t)]) (fired s)).

Definition sessions_delete (sessionId : string) : Eff State unit :=
  fun s =>
    (Normal tt,
     mkState (delete sessionId (sessions s)) (persistence s) (timers s)
       (fired s)).

Definition call (f : Fired) : Eff State unit :=
  fun s =>
    (Normal tt,
     mkState (sessions s) (persistence s) (timers s) (fired s ++ [f])).

Section Close.
(** [DisconnectReason.loggedOut], a constant of the client library. *)
Variable loggedOut : Z.

(** [statusCode !== DisconnectReason.loggedOut] *)
Definition shouldReconnect (l : LastDisconnect) : bool :=
  match statusCode l with
  | Some c => negb (c =? loggedOut)
  | None => true
  end.

Definition on_close (sessionId : string) (callbacks : Callbacks)
  (lastDisconnect : LastDisconnect) : Eff State unit :=
  if shouldReconnect lastDisconnect then
    await _ := with_pool
      (SessionPersistence.updateSessionStatus sessionId disconnected
         None (message lastDisconnect)) in
    setTimeout (CreateSession sessionId callbacks) 3000
  else
    await _ := with_pool
      (SessionPersistence.updateSessionStatus sessionId disconnected
         None (Some "Logged out")) in
    await _ := sessions_delete sessionId in
    if onDisconnect callbacks then call (OnDisconnect sessionId)
    else ret tt.
End Close.

(** [createSession(sessionId, callbacks)] as far as the registry goes;
    [lib] is how [useMultiFileAuthState] and [makeWASocket] complete and
    [now] is [new Date()].  The third argument of the source, the stored
    auth state, is not read by the source either. *)
Definition createSession (sessionId : string) (lib : Completion unit)
  (now : Z) : Eff State unit :=
  fun s =>
    match sessions s !! sessionId with
    | Some _ =>
        (Throw ("Session " +:+ sessionId +:+ " already exists"), s)
    | None =>
        match lib with
        | Throw e => (Throw e, s)
        | Normal _ =>
            (Normal tt,
             mkState
               (<[sessionId := mkHandle connecting None now]> (sessions s))
               (persistence s) (timers s) (fired s))
        end
    end.

(** [getSession(sessionId)] *)
Definition getSession (sessionId : string) (s : State) : option Handle :=
  sessions s !! sessionId.

(** [sendMessage(sessionId, jid, message)]; [sock] is how
    [session.sock.sendMessage] completes. *)
Definition sendMessage (sessionId : string) (sock : Completion unit)
  : Eff State unit :=
  fun s =>
    match sessions s !! sessionId with
    | Some h =>
        if Status_eqb (handle_status h) connected then (sock, s)
        else (Throw ("Session " +:+ sessionId +:+ " not connected"), s)
    | None => (Throw ("Session " +:+ sessionId +:+ " not connected"), s)
    end.

(** [destroySession(sessionId)]; [logout] is how [session.sock.logout]
    completes, an error of which is logged and dropped.  The removal of the
    auth files is left out. *)
Definition destroySession (sessionId : string) (logout : Completion unit)
  : Eff State unit :=
  fun s =>
    match sessions s !! sessionId with
    | None => (Throw ("Session " +:+ sessionId +:+ " not found"), s)
    | Some _ =>
        (Normal tt,
         mkState (delete sessionId (sessions s)) (persistence s) (timers s)
           (fired s))
    end.

(** The character [':'] *)
Definition colon : Ascii.ascii := Ascii.ascii_of_N 58.

(** [id.split(':')[0]] *)
Fixpoint before_colon (id : string) : string :=
  match id with
  | EmptyString => EmptyString
  | String c rest =>
      if Ascii.eqb c colon then EmptyString else String c (before_colon rest)
  end.

(** The [connection.update] handler for [connection === 'open'];
    [user_id] is [sock.user.id], and the result is the phone number given to
    [callbacks.onConnected] when the bag has one. *)
Definition on_open (sessionId : string) (callbacks : Callbacks)
  (user_id : string) : Eff State (option string) :=
  fun s =>
    match sessions s !! sessionId with
    | None =>
        (Throw "Cannot set properties of undefined (setting 'status')", s)
    | Some h =>
        let phone := before_colon user_id in
        (await _ := with_pool
           (SessionPersistence.updateSessionStatus sessionId connected
              (Some phone) None) in
         await _ := with_pool
           (SessionPersistence.resetReconnectAttempts sessionId) in
         ret (if onConnected callbacks then Some phone else None))
          (mkState
             (<[sessionId := mkHandle connected (Some phone) (createdAt h)]>
                (sessions s))
             (persistence s) (timers s) (fired s))
    end.

(** The body of the loop of [restoreAllSessions]. *)
Definition restore_one (lib : string -> Completion unit) (now : Z)
  (sessionData : SessionRow) : Eff State unit :=
  try_catch
    (createSession (session_id sessionData) (lib (session_id sessionData))
       now)
    (fun e =>
       with_pool
         (SessionPersistence.updateSessionStatus (session_id sessionData)
            error None (Some e))).

Fixpoint restore_each (lib : string -> Completion unit) (now : Z)
  (activeSessions : list SessionRow) : Eff State unit :=
  match activeSessions with
  | [] => ret tt
  | sessionData :: rest =>
      await _ := restore_one lib now sessionData in
      restore_each lib now rest
  end.

(** [restoreAllSessions()]; [lib sessionId] is how the client library
    completes for that session. *)
Definition restoreAllSessions (lib : string -> Completion unit) (now : Z)
  : Eff State unit :=
  await activeSessions := with_pool SessionPersistence.getActiveSessions in
  restore_each lib now activeSessions.

End SessionManager.

(** ** MessageQueue *)

Module MessageQueue.

Definition messagesPerMinute : Z := 20.
Definition delayBetweenMessages : Z := 3000.

(** A queue item; [type = None] is a message without a [type] member,
    which [sendMessage] reads as ['text']. *)
Record QueueItem : Type := mkItem {
  id : string;
  jid : string;
  content : string;
  type : option string;
  enqueuedAt : Z;
  attempts : nat
}.

(** [{ sent, lastReset }], the time in milliseconds. *)
Record Stats : Type := mkStats { sent : Z; lastReset : Z }.

Inductive LogLine : Type :=
| MessageQueued (itemId : string)
| RateLimitReached (sessionId : string)
| MessageSent (itemId : string)
| SendFailed (itemId : string) (reason : string)
| MaxAttemptsReached (itemId : string)
| BypassingQueue (sessionId : string).

(** What the queue does to the outside, in the order it does it. *)
Inductive Effect : Type :=
| Delay (ms : Z)
| Attempt (sessionId : string) (item : QueueItem)
| SendNow (sessionId jid content : string)
| Log (line : LogLine).

Record State : Type := mkState {
  queues : gmap string (list QueueItem);
  processing : gmap string bool;
  stats : gmap string Stats;
  effects : list Effect
}.

Definition emit (e : Effect) : Eff State unit :=
  fun s =>
    (Normal tt,
     mkState (queues s) (processing s) (stats s) (effects s ++ [e])).

Definition delay (ms : Z) : Eff State unit := emit (Delay ms).

Definition set_stats (sessionId : string) (st : Stats) (s : State) : State :=
  mkState (queues s) (processing s) (<[sessionId := st]> (stats s))
    (effects s).

Definition set_queue (sessionId : string) (q : list QueueItem) (s : State)
  : State :=
  mkState (<[sessionId := q]> (queues s)) (processing s) (stats s)
    (effects s).

Definition set_processing (sessionId : string) (b : bool) (s : State)
  : State :=
  mkState (queues s) (<[sessionId := b]> (processing s)) (stats s)
    (effects s).

Definition queue_of (sessionId : string) (s : State) : list QueueItem :=
  default [] (queues s !! sessionId).

(** [queue.shift()] *)
Definition shift (sessionId : string) : Eff State unit :=
  fun s => (Normal tt, set_queue sessionId (tail (queue_of sessionId s)) s).

(** [queue.push(message)] *)
Definition push (sessionId : string) (message : QueueItem) : Eff State unit :=
  fun s =>
    (Normal tt, set_queue sessionId (queue_of sessionId s ++ [message]) s).

(** [message.attempts++] *)
Definition bump (message : QueueItem) : QueueItem :=
  mkItem (id message) (jid message) (content message) (type message)
    (enqueuedAt message) (S (attempts message)).

(** [message.attempts++] on the object at the head of the queue. *)
Definition bump_head (sessionId : string) : Eff State unit :=
  fun s =>
    (Normal tt,
     match queue_of sessionId s with
     | m :: rest => set_queue sessionId (bump m :: rest) s
     | [] => s
     end).

(** [shouldThrottle(sessionId)], [now] being [new Date()]. *)
Definition shouldThrottle (sessionId : string) (now : Z) : Eff State bool :=
  fun s =>
    match stats s !! sessionId with
    | None => (Normal false, s)
    | Some st =>
        let minuteAgo := now - 60000 in
        if lastReset st <? minuteAgo then
          (Normal false, set_stats sessionId (mkStats 0 now) s)
        else (Normal (messagesPerMinute <=? sent st), s)
    end.

(** [updateStats(sessionId)], [now] being [new Date()]. *)
Definition updateStats (sessionId : string) (now : Z) : Eff State unit :=
  fun s =>
    let st := default (mkStats 0 now) (stats s !! sessionId) in
    (Normal tt, set_stats sessionId (mkStats (sent st + 1) (lastReset st)) s).

(** [sendMessage(sessionId, message)]; [sent] is the completion of
    [sessionManager.sendMessage(sessionId, jid, content)]. *)
Definition sendMessage (sessionId : string) (message : QueueItem)
  (sent : Completion unit) : Eff State unit :=
  await _ := emit (Attempt sessionId message) in
  let type := default "text" (type message) in
  if decide (type = "text") then (fun s => (sent, s))
  else throw ("Unsupported message type: " +:+ type).

(** How the call of [sendMessage] completes. *)
Definition send_outcome (message : QueueItem) (sent : Completion unit)
  : Completion unit :=
  fst (sendMessage "" message sent (mkState ∅ ∅ ∅ [])).

(** What the environment contributes to one turn of the worker's loop. *)
Record Turn : Type := mkTurn {
  t_check : Z;
  send_result : Completion unit;
  t_stats : Z
}.

(** One turn of [while (queue.length > 0)] in [processQueue]. *)
Definition loop_body (sessionId : string) (e : Turn) : Eff State unit :=
  fun s =>
    match queue_of sessionId s with
    | [] => (Normal tt, s)
    | message :: _ =>
        try_catch
          (await throttle := shouldThrottle sessionId (t_check e) in
           if (throttle : bool) then
             await _ := emit (Log (RateLimitReached sessionId)) in
             delay 60000
           else
             await _ := sendMessage sessionId message (send_result e) in
             await _ := shift sessionId in
             await _ := updateStats sessionId (t_stats e) in
             await _ := emit (Log (MessageSent (id message))) in
             delay delayBetweenMessages)
          (fun error =>
             await _ := emit (Log (SendFailed (id message) error)) in
             await _ := bump_head sessionId in
             if (3 <=? S (attempts message))%nat then
               await _ := emit (Log (MaxAttemptsReached (id message))) in
               shift sessionId
             else
               await _ := shift sessionId in
               await _ := push sessionId (bump message) in
               delay 5000)
          s
    end.

(** [enqueue]: the item is built from the message, the id and the time the
    environment supplies; a worker is started when none is running. *)
Definition enqueue (sessionId : string) (item : QueueItem) : Eff State string :=
  fun s =>
    let fresh := mkItem (id item) (jid item) (content item) (type item)
                   (enqueuedAt item) 0 in
    let s1 := set_queue sessionId (queue_of sessionId s ++ [fresh]) s in
    let s2 := snd (emit (Log (MessageQueued (id item))) s1) in
    let s3 := if default false (processing s2 !! sessionId) then s2
              else set_processing sessionId true s2 in
    (Normal (id item), s3).

(** [sendImmediate(sessionId, jid, content)] *)
Definition sendImmediate (sessionId jid content : string)
  (sent : Completion unit) (now : Z) : Eff State unit :=
  await _ := emit (Log (BypassingQueue sessionId)) in
  await _ := emit (SendNow sessionId jid content) in
  await _ := (fun s => (sent, s)) in
  updateStats sessionId now.

(** What happens to a session's queue over time. *)
Inductive Input : Type :=
| Worker (e : Turn)
| Enqueue (item : QueueItem)
| Immediate (jid content : string) (sent : Completion unit) (now : Z).

Definition step (sessionId : string) (i : Input) (s : State) : State :=
  match i with
  | Worker e => snd (loop_body sessionId e s)
  | Enqueue item => snd (enqueue sessionId item s)
  | Immediate j c r t => snd (sendImmediate sessionId j c r t s)
  end.

Definition run (sessionId : string) (inputs : list Input) (s : State)
  : State :=
  fold_left (fun s i => step sessionId i s) inputs s.

(** The items the worker tried to send, in order. *)
Definition attempted (es : list Effect) : list QueueItem :=
  omap (fun e => match e with Attempt _ m => Some m | _ => None end) es.

(** [stats.sent] of a session, 0 when it has no stats yet. *)
Definition counter (sessionId : string) (s : State) : Z :=
  match stats s !! sessionId with
  | Some st => sent st
  | None => 0
  end.

(** The effects added since the state had [n] of them. *)
Definition since (n : nat) (s : State) : list Effect := drop n (effects s).

(** [getQueueSize(sessionId)] *)
Definition getQueueSize (sessionId : string) (s : State) : nat :=
  length (queue_of sessionId s).

(** [clearQueue(sessionId)] (its log line is left out). *)
Definition clearQueue (sessionId : string) : Eff State unit :=
  fun s =>
    (Normal tt,
     mkState (delete sessionId (queues s)) (delete sessionId (processing s))
       (stats s) (effects s)).

(** [while (queue.length > 0) { ... }] and what follows it in
    [processQueue], for the turns the environment has got to so far. *)
Fixpoint while_queue (sessionId : string) (turns : list Turn) (s : State)
  : State :=
  match turns with
  | [] =>
      match queue_of sessionId s with
      | [] => set_processing sessionId false s
      | _ :: _ => s
      end
  | e :: turns' =>
      match queue_of sessionId s with
      | [] => set_processing sessionId false s
      | _ :: _ => while_queue sessionId turns' (snd (loop_body sessionId e s))
      end
  end.

(** [processQueue(sessionId)] (its two log lines are left out). *)
Definition processQueue (sessionId : string) (turns : list Turn) (s : State)
  : State :=
  match queue_of sessionId s with
  | [] => set_processing sessionId false s
  | _ :: _ => while_queue sessionId turns (set_processing sessionId true s)
  end.





(** An input that comes from the queue, not from [sendImmediate]. *)
Definition queued (i : Input) : bool :=
  match i with
  | Immediate _ _ _ _ => false
  | _ => true
  end.

End MessageQueue.

(** ** GHLWebhookService (services/GHLWebhookService.js) *)

Module GHLWebhookService.

(** A JavaScript string: its UTF-16 code units. *)
Definition jsstring : Type := list N.

Definition lit (s : string) : jsstring :=
  map Ascii.N_of_ascii (String.list_ascii_of_string s).

(** The class [\s] of a JavaScript regular expression: white space and
    line terminators. *)
Definition is_space (c : N) : bool :=
  ((9 <=? c) && (c <=? 13) || (c =? 32) || (c =? 160) || (c =? 5760)
   || (8192 <=? c) && (c <=? 8202) || (c =? 8232) || (c =? 8233)
   || (c =? 8239) || (c =? 8287) || (c =? 12288) || (c =? 65279))%N.

(** The class [[\s-]]. *)
Definition space_or_hyphen (c : N) : bool := is_space c || (c =? 45)%N.

(** [s.startsWith(p)] *)
Fixpoint startsWith (p s : jsstring) : bool :=
  match p, s with
  | [], _ => true
  | _ :: _, [] => false
  | a :: p', b :: s' => (a =? b)%N && startsWith p' s'
  end.

(** [s.replace(p, '')] for a string pattern [p]: the first occurrence of
    [p] is taken out, the rest is kept. *)
Fixpoint replace_first (p s : jsstring) : jsstring :=
  if startsWith p s then drop (length p) s
  else match s with
       | [] => []
       | c :: s' => c :: replace_first p s'
       end.

(** [s.replace(/[\s-]/g, '')] *)
Definition strip (s : jsstring) : jsstring :=
  List.filter (fun c => negb (space_or_hyphen c)) s.

Definition at_whatsapp : jsstring := lit "@s.whatsapp.net".
Definition at_c_us : jsstring := lit "@c.us".
Definition plus : jsstring := lit "+".

(** [formatPhoneNumber(phoneNumber)]; [None] is [null] or [undefined]. *)
Definition formatPhoneNumber (phoneNumber : option jsstring) : jsstring :=
  match phoneNumber with
  | None => []
  | Some [] => []
  | Some s =>
      let cleaned := replace_first at_c_us (replace_first at_whatsapp s) in
      let cleaned := strip cleaned in
      if negb (startsWith plus cleaned) then plus ++ cleaned
      else cleaned
  end.

(** The normalisation of a string. *)
Definition norm (x : jsstring) : jsstring := formatPhoneNumber (Some x).

(** [s.includes(p)] *)
Fixpoint includes (p s : jsstring) : bool :=
  startsWith p s
  || match s with
     | [] => false
     | _ :: s' => includes p s'
     end.

(** An endpoint that answers no POST with a 2xx. *)
Definition always_failing : nat -> bool := fun _ => false.

Definition maxRetries : nat := 3.
Definition retryDelay : Z := 2000.

(** The organisation's row as [getOrgConfig] returns it. *)
Record OrgConfig : Type := mkOrgConfig {
  webhook_url : option string;
  ghl_api_key : option string;
  ghl_location_id : option string
}.

(** The members of [messageData] the dispatcher reads; [id] is the key of
    the row in [messages], when the message has been stored. *)
Record MessageData : Type := mkMessageData {
  id : option string;
  message_id : string;
  from_number : option jsstring;
  to_number : option jsstring
}.

(** A POST that has been made. *)
Record Post : Type := mkPost {
  posted_at : Z;
  url : string;
  from : jsstring;
  to : jsstring
}.

(** A pending [setTimeout] of [scheduleRetry]. *)
Record Timer : Type := mkTimer { fire_at : Z; retryCount : nat }.

Inductive LogStatus : Type := success | failed.

(** The dispatcher's surroundings for one message: the clock, the POSTs
    made, the rows of [webhook_logs] written for it, whether the message
    has [status = 'failed'] and [synced_to_ghl = true], and the timers. *)
Record World : Type := mkWorld {
  clock : Z;
  posts : list Post;
  webhook_logs : list LogStatus;
  message_failed : bool;
  synced_to_ghl : bool;
  timers : list Timer
}.

Section Dispatcher.
(** The endpoint: whether the POST number [k] (from 0) is answered with
    a 2xx. *)
Variable endpoint : nat -> bool.
Variable org : OrgConfig.
Variable messageData : MessageData.

Definition logWebhook (st : LogStatus) : Eff World unit :=
  fun w =>
    (Normal tt,
     mkWorld (clock w) (posts w) (webhook_logs w ++ [st])
       (message_failed w) (synced_to_ghl w) (timers w)).

(** [axios.post(org.webhook_url, payload, ...)] *)
Definition axios_post (u : string) : Eff World unit :=
  fun w =>
    let p := mkPost (clock w) u
               (formatPhoneNumber (from_number messageData))
               (formatPhoneNumber (to_number messageData)) in
    let w' := mkWorld (clock w) (posts w ++ [p]) (webhook_logs w)
                (message_failed w) (synced_to_ghl w) (timers w) in
    if endpoint (length (posts w)) then (Normal tt, w')
    else (Throw "Request failed", w').

Definition mark_synced : Eff World unit :=
  fun w =>
    (Normal tt,
     mkWorld (clock w) (posts w) (webhook_logs w) (message_failed w)
       (match id messageData with Some _ => true | None => synced_to_ghl w end)
       (timers w)).

Definition mark_failed : Eff World unit :=
  fun w =>
    (Normal tt,
     mkWorld (clock w) (posts w) (webhook_logs w)
       (match id messageData with Some _ => true | None => message_failed w end)
       (synced_to_ghl w) (timers w)).

Definition setTimeout (r : nat) (ms : Z) : Eff World unit :=
  fun w =>
    (Normal tt,
     mkWorld (clock w) (posts w) (webhook_logs w) (message_failed w)
       (synced_to_ghl w) (timers w ++ [mkTimer (clock w + ms) r])).

(** [scheduleRetry(organizationId, messageData, retryCount = 0)] *)
Definition scheduleRetry (retryCount : nat) : Eff World unit :=
  if (maxRetries <=? retryCount)%nat then mark_failed
  else
    let delay := retryDelay * 2 ^ Z.of_nat retryCount in
    setTimeout retryCount delay.

(** [sendMessageToGHL(organizationId, messageData)]; the result is
    whether a response came back. *)
Definition sendMessageToGHL : Eff World bool :=
  match webhook_url org with
  | None => ret false
  | Some u =>
      try_catch
        (await _ := axios_post u in
         await _ := logWebhook success in
         await _ := mark_synced in
         ret true)
        (fun error =>
           await _ := logWebhook failed in
           await _ := scheduleRetry 0 in
           throw error)
  end.

(** The body of the timer set by [scheduleRetry retryCount]. *)
Definition on_timer (retryCount : nat) : Eff World unit :=
  try_catch
    (await _ := sendMessageToGHL in ret tt)
    (fun _ => scheduleRetry (S retryCount)).

(** The timer that fires next: the earliest, the first set among equals. *)
Fixpoint earliest (ts : list Timer) : option Timer :=
  match ts with
  | [] => None
  | t :: ts' =>
      match earliest ts' with
      | Some u => if fire_at u <? fire_at t then Some u else Some t
      | None => Some t
      end
  end.

Definition same_timer (a b : Timer) : bool :=
  (fire_at a =? fire_at b) && (retryCount a =? retryCount b)%nat.

Fixpoint remove_first (t : Timer) (ts : list Timer) : list Timer :=
  match ts with
  | [] => []
  | u :: ts' => if same_timer t u then ts' else u :: remove_first t ts'
  end.

(** The event loop takes the next timer and runs its body at the time
    it was set for. *)
Definition fire_next (w : World) : option World :=
  match earliest (timers w) with
  | None => None
  | Some t =>
      let w1 := mkWorld (fire_at t) (posts w) (webhook_logs w)
                  (message_failed w) (synced_to_ghl w)
                  (remove_first t (timers w)) in
      Some (snd (on_timer (retryCount t) w1))
  end.

(** [n] timers fire, as long as there are timers. *)
Fixpoint fire_many (n : nat) (w : World) : World :=
  match n with
  | O => w
  | S n' =>
      match fire_next w with
      | Some w' => fire_many n' w'
      | None => w
      end
  end.

(** The first delivery of a message at time 0, then [n] timers. *)
Definition deliver (n : nat) : World :=
  fire_many n (snd (sendMessageToGHL (mkWorld 0 [] [] false false []))).

End Dispatcher.

End GHLWebhookService.

(** ** The authentication middleware: the limit guard *)

Module Auth.
Import Db.

(** The members of [req.organization] the guard reads. *)
Record Organization : Type := mkOrganization {
  org_id : string;
  max_accounts : Z;
  max_messages_per_month : Z
}.

Inductive JsonValue : Type :=
| JString (s : string)
| JNumber (n : Z).

(** What the middleware does with the request: [next()], or
    [res.status(code).json(body)]. *)
Inductive Response : Type :=
| Next
| Json (code : Z) (body : list (string * JsonValue)).

(** [checkSubscriptionLimits(req, res, next)]; [currentMonth] is
    [new Date().toISOString().slice(0, 7) + '-01']. *)
Definition checkSubscriptionLimits (organization : Organization)
  (currentMonth : string) : Eff Pool Response :=
  try_catch
    (await sessionCount := query (count_sessions (org_id organization)) in
     if max_accounts organization <=? sessionCount then
       ret (Json 403
              [("error", JString "Account limit reached");
               ("message",
                JString ("Your plan allows "
                         +:+ pretty (max_accounts organization)
                         +:+ " accounts. Please upgrade."));
               ("current", JNumber sessionCount);
               ("limit", JNumber (max_accounts organization))])
     else
       await usage := query (select_usage (org_id organization) currentMonth) in
       match usage with
       | u :: _ =>
           let totalMessages :=
             default 0 (messages_sent u) + default 0 (messages_received u) in
           if max_messages_per_month organization <=? totalMessages then
             ret (Json 429
                    [("error", JString "Message limit reached");
                     ("message",
                      JString ("Your plan allows "
                               +:+ pretty (max_messages_per_month organization)
                               +:+ " messages per month."));
                     ("current", JNumber totalMessages);
                     ("limit", JNumber (max_messages_per_month organization))])
           else ret Next
       | [] => ret Next
       end)
    (fun _ => ret (Json 500 [("error", JString "Failed to check limits")])).






(** [s.split(sep)] for a separator of one character *)
Fixpoint split (sep : Ascii.ascii) (s : string) : list string :=
  match s with
  | EmptyString => [EmptyString]
  | String c rest =>
      match split sep rest with
      | piece :: pieces =>
          if Ascii.eqb c sep then EmptyString :: piece :: pieces
          else String c piece :: pieces
      | [] => []
      end
  end.




End Auth.

(** ** middleware/security.js: validation and sanitising *)

Module Security.
Import GHLWebhookService.

(** The class [\d] and the class [[1-9]]. *)
Definition is_digit (c : N) : bool := ((48 <=? c) && (c <=? 57))%N.
Definition is_1_9 (c : N) : bool := ((49 <=? c) && (c <=? 57))%N.

(** [/^\+?[1-9]\d{1,14}$/.test(s)] *)
Definition phoneRegex (s : jsstring) : bool :=
  let body := match s with
              | h :: r => if (h =? 43)%N then r else s
              | [] => []
              end in
  match body with
  | c :: ds =>
      is_1_9 c && forallb is_digit ds
      && (1 <=? length ds)%nat && (length ds <=? 14)%nat
  | [] => false
  end.

(** [validatePhoneNumber(phone)]; [None] is a value that is no string. *)
Definition validatePhoneNumber (phone : option jsstring) : bool :=
  match phone with
  | None => false
  | Some [] => false
  | Some s => phoneRegex (strip s)
  end.

(** The class [[a-zA-Z0-9_-]]. *)
Definition is_session_char (c : N) : bool :=
  ((97 <=? c) && (c <=? 122) || (65 <=? c) && (c <=? 90)
   || (48 <=? c) && (c <=? 57) || (c =? 95) || (c =? 45))%N.

(** [validateSessionId(sessionId)] *)
Definition validateSessionId (sessionId : option jsstring) : bool :=
  match sessionId with
  | None => false
  | Some [] => false
  | Some s => forallb is_session_char s && (length s <=? 100)%nat
  end.

(** How a code unit is compared under the flag [i]: only the letters A-Z
    have another case among the code units below 128. *)
Definition lower (c : N) : N :=
  if ((65 <=? c) && (c <=? 90))%N then (c + 32)%N else c.

(** The pattern, in lower case, matches at the start of [s]. *)
Fixpoint match_ci (p s : jsstring) : bool :=
  match p, s with
  | [], _ => true
  | _ :: _, [] => false
  | a :: p', b :: s' => (a =? lower b)%N && match_ci p' s'
  end.

(** [s.replace(/p/gi, '')]: every match, from the left, none overlapping;
    [skip] counts the code units of a match still to be left out. *)
Fixpoint replace_all_ci (p : jsstring) (skip : nat) (s : jsstring)
  : jsstring :=
  match s with
  | [] => []
  | c :: s' =>
      match skip with
      | S k => replace_all_ci p k s'
      | O =>
          if match_ci p s then replace_all_ci p (length p - 1) s'
          else c :: replace_all_ci p 0 s'
      end
  end.

(** [s.replace(/[<>]/g, '')] *)
Definition remove_angle (s : jsstring) : jsstring :=
  List.filter (fun c => negb ((c =? 60) || (c =? 62))%N) s.

Definition javascript_colon : jsstring := lit "javascript:".

Fixpoint trim_start (s : jsstring) : jsstring :=
  match s with
  | c :: s' => if is_space c then trim_start s' else s
  | [] => []
  end.

(** [s.trim()] *)
Definition trim (s : jsstring) : jsstring :=
  rev (trim_start (rev (trim_start s))).

(** [sanitizeInput(input)] for a string. *)
Definition sanitizeInput (input : jsstring) : jsstring :=
  trim (replace_all_ci javascript_colon 0 (remove_angle input)).

(** [corsOptions.origin]: whether the callback is given [true];
    [frontend] is [process.env.FRONTEND_URL]. *)
Definition allowedOrigins (frontend : option jsstring) : list jsstring :=
  List.filter (fun o => negb (bool_decide (o = [])))
    [default [] frontend; lit "http://localhost:5173";
     lit "http://localhost:3000"; lit "https://lovable.app"].

Definition cors_allows (frontend origin : option jsstring) : bool :=
  match origin with
  | None => true
  | Some [] => true
  | Some o =>
      bool_decide (o ∈ allowedOrigins frontend) || includes (lit "lovable.app") o
  end.

End Security.

(** ** The participants of a group and the addressee of a send *)

Module Jid.
Import GHLWebhookService.

Definition at_sign : jsstring := lit "@".

(** [p.includes('@') ? p : `${p}@s.whatsapp.net`], as [createGroup],
    [addGroupParticipants], [promoteToAdmin], [removeGroupParticipants] and
    the send route write it. *)
Definition toJid (p : jsstring) : jsstring :=
  if includes at_sign p then p else p ++ at_whatsapp.

(** A bare number: no at sign, no blank, no hyphen. *)
Definition bare (p : jsstring) : bool :=
  forallb (fun c => negb (c =? 64)%N && negb (space_or_hyphen c)) p.

End Jid.

(** ** Concrete sessions, stores and queues used by the examples below *)

Module Examples.
Import Db.

Definition row_s1 : SessionRow :=
  mkSessionRow "s1" "org1" (Some "5551234567") connected None (Some "{}")
    None None 0 0.

Definition pool1 : Pool := mkPool (mkTables [row_s1] []) 1000 [].

(** A controller that has not seen the session, and one that has used up
    its five attempts. *)
Definition controller_fresh : ReconnectionManager.State :=
  ReconnectionManager.mkState ∅ pool1 [].

Definition controller_exhausted : ReconnectionManager.State :=
  ReconnectionManager.mkState {["s1" := 5%nat]} pool1 [].

Definition exhausted_after : ReconnectionManager.State :=
  snd (ReconnectionManager.handleDisconnection "s1" controller_exhausted).

(** The registry holds the connected session [s1]; its callback bag has
    [onDisconnect]. *)
Definition bag : SessionManager.Callbacks :=
  SessionManager.mkCallbacks true true true true.

Definition manager1 : SessionManager.State :=
  SessionManager.mkState
    {["s1" := SessionManager.mkHandle connected (Some "5551234567") 0]}
    pool1 [] [].

(** Baileys closes with 401 on a logout and with 428 when the connection
    was closed for another reason. *)
Definition logged_out : SessionManager.LastDisconnect :=
  SessionManager.mkLastDisconnect (Some 401) (Some "Logged Out").

Definition connection_closed : SessionManager.LastDisconnect :=
  SessionManager.mkLastDisconnect (Some 428) (Some "Connection Closed").

(** The manager after such a close, and what a controller that had not seen
    the session would make of the store the close leaves. *)
Definition closed_after : SessionManager.State :=
  snd (SessionManager.on_close 401 "s1" bag connection_closed manager1).

Definition handed_over : ReconnectionManager.State :=
  snd (ReconnectionManager.handleDisconnection "s1"
         (ReconnectionManager.mkState ∅
            (SessionManager.persistence closed_after) [])).

(** A worker's queue for [s1] with no stats yet. *)
Definition item_a : MessageQueue.QueueItem :=
  MessageQueue.mkItem "msg_a" "15550001@s.whatsapp.net" "hello" (Some "text")
    0 0.

Definition item_b : MessageQueue.QueueItem :=
  MessageQueue.mkItem "msg_b" "15550002@s.whatsapp.net" "again" None 10 0.

(** An item that has failed twice already. *)
Definition item_worn : MessageQueue.QueueItem :=
  MessageQueue.mkItem "msg_w" "15550003@s.whatsapp.net" "last" (Some "text")
    0 2.

Definition queue_with (q : list MessageQueue.QueueItem)
  (st : gmap string MessageQueue.Stats) : MessageQueue.State :=
  MessageQueue.mkState {["s1" := q]} {["s1" := true]} st [].

Definition idle : MessageQueue.State := MessageQueue.mkState ∅ ∅ ∅ [].

Definition turn_ok (t : Z) : MessageQueue.Turn :=
  MessageQueue.mkTurn t (Normal tt) t.

Definition turn_fail (t : Z) : MessageQueue.Turn :=
  MessageQueue.mkTurn t (Throw "Session s1 not connected") t.

Definition immediate (t : Z) : MessageQueue.Input :=
  MessageQueue.Immediate "15550001@s.whatsapp.net" "hi" (Normal tt) t.

(** One send at time 0, then twenty sends between 59000 and 60001: ten
    immediate ones at 59000, one from the queue at 60001 and nine immediate
    ones at 60001. *)
Definition twenty_in_a_second : list MessageQueue.Input :=
  immediate 0 :: repeat (immediate 59000) 10
    ++ [MessageQueue.Enqueue item_a; MessageQueue.Worker (turn_ok 60001)]
    ++ repeat (immediate 60001) 9.

(** The state after those sends, a queue whose counter is full with a
    window begun at 0, and one with 15 sends counted. *)
Definition after_twenty : MessageQueue.State :=
  MessageQueue.run "s1" twenty_in_a_second idle.

Definition full : MessageQueue.State :=
  queue_with [item_a] {["s1" := MessageQueue.mkStats 20 0]}.

Definition busy : MessageQueue.State :=
  queue_with [item_a] {["s1" := MessageQueue.mkStats 15 0]}.

(** Following the spec's words: a bucket of 20 tokens that refills evenly,
    one token every 3000 ms; [tokens] is what was left [elapsed] ms ago. *)
Definition spec_bucket_exhausted (tokens elapsed : Z) : bool :=
  Z.min 20 (tokens + elapsed / 3000) <? 1.

(** The organisation of the free tier, and an inbound message for it. *)
Definition free_org : Auth.Organization := Auth.mkOrganization "org1" 1 1000.

Definition hook : GHLWebhookService.OrgConfig :=
  GHLWebhookService.mkOrgConfig (Some "https://hook.test/in") None None.

Definition inbound : GHLWebhookService.MessageData :=
  GHLWebhookService.mkMessageData (Some "m1") "m1"
    (Some (GHLWebhookService.lit "5551234567@s.whatsapp.net")) None.

End Examples.

(** ** Further scenarios *)

Module Scenarios.
Import Db Examples.

(** A number as a user types it, a bare number and a session id. *)
Definition phone_typed : GHLWebhookService.jsstring :=
  GHLWebhookService.lit "+1 555-123-4567".

Definition phone_bare : GHLWebhookService.jsstring :=
  GHLWebhookService.lit "15551234567".

Definition session_name : GHLWebhookService.jsstring :=
  GHLWebhookService.lit "session_01".

(** A store that holds, besides [s1], a session [s2] that was connecting
    and a session [s3] that is disconnected. *)
Definition row_s2 : SessionRow :=
  mkSessionRow "s2" "org1" None connecting None (Some "{}") None None 0 0.

Definition row_s3 : SessionRow :=
  mkSessionRow "s3" "org1" (Some "5557654321") disconnected None (Some "{}")
    None None 0 0.

Definition pool3 : Pool :=
  mkPool (mkTables [row_s1; row_s2; row_s3] []) 1000 [].

(** The manager at the start of the process, and a client library that
    sets up every session but [s2]. *)
Definition starting : SessionManager.State :=
  SessionManager.mkState ∅ pool3 [] [].

Definition lib_without_s2 (sessionId : string) : Completion unit :=
  if String.eqb sessionId "s2" then Throw "Connection Failure"
  else Normal tt.

(** The table of organisations, as the two limit checks and the
    authentication read it, and a request without a header. *)
Definition organizations : list OrgRow := [mkOrgRow "org1" 1].



(** An endpoint that refuses the first two POSTs, the dispatcher after the
    first delivery to it, and after the first timer. *)
Definition recovering (k : nat) : bool := (2 <=? k)%nat.

Definition first_refused : GHLWebhookService.World :=
  snd (GHLWebhookService.sendMessageToGHL recovering hook inbound
         (GHLWebhookService.mkWorld 0 [] [] false false [])).

Definition twice_refused : GHLWebhookService.World :=
  GHLWebhookService.fire_many recovering hook inbound 1 first_refused.

End Scenarios.

(** * Properties *)

(** ** The store *)

Section StoreFacts.
Import Db.

Lemma query_executes {A} (sql : Z -> Tables -> A * Tables) (p : Pool) :
  executes p = true ->
  query sql p =
    (Normal (fst (sql (now p) (tables p))),
     mkPool (snd (sql (now p) (tables p))) (now p) (tail (outcomes p))).
Proof.
  unfold executes, query. intros H.
  destruct (outcomes p) as [|[e|] rest]; try discriminate;
    destruct (sql (now p) (tables p)); reflexivity.
Qed.

Lemma query_rejected {A} (sql : Z -> Tables -> A * Tables) t n e rest :
  query sql (mkPool t n (Some e :: rest)) = (Throw e, mkPool t n rest).
Proof. reflexivity. Qed.

Lemma healthy_executes (p : Pool) : healthy p = true -> executes p = true.
Proof.
  unfold healthy, executes. destruct (outcomes p) as [|[e|] rest]; simpl;
    intros H; try reflexivity; discriminate.
Qed.

Lemma healthy_tail t n (p : Pool) :
  healthy p = true -> healthy (mkPool t n (tail (outcomes p))) = true.
Proof.
  unfold healthy. simpl. destruct (outcomes p) as [|o rest]; simpl; auto.
  intros H. apply andb_true_iff in H. tauto.
Qed.

Lemma find_update_where_same sessionId f rows :
  (forall r, session_id (f r) = session_id r) ->
  List.find (fun r => bool_decide (session_id r = sessionId))
    (update_where sessionId f rows)
  = f <$> List.find (fun r => bool_decide (session_id r = sessionId)) rows.
Proof.
  intros Hid. induction rows as [|r rows IH]; simpl; [reflexivity|].
  destruct (decide (session_id r = sessionId)) as [Heq|Hne].
  - rewrite Hid. rewrite !bool_decide_true by assumption. reflexivity.
  - rewrite !bool_decide_false by assumption. apply IH.
Qed.

Lemma find_update_where_other sessionId other f rows :
  (forall r, session_id (f r) = session_id r) ->
  other <> sessionId ->
  List.find (fun r => bool_decide (session_id r = other))
    (update_where sessionId f rows)
  = List.find (fun r => bool_decide (session_id r = other)) rows.
Proof.
  intros Hid Hne. induction rows as [|r rows IH]; simpl; [reflexivity|].
  destruct (decide (session_id r = sessionId)) as [Heq|Hne'].
  - rewrite Hid. rewrite !bool_decide_false by congruence. apply IH.
  - destruct (decide (session_id r = other)).
    + rewrite !bool_decide_true by assumption. reflexivity.
    + rewrite !bool_decide_false by assumption. apply IH.
Qed.

(** What [updateSessionStatus] does when its query is executed. *)
Lemma updateSessionStatus_executed sessionId st phoneNumber errorMessage p :
  executes p = true ->
  SessionPersistence.updateSessionStatus sessionId st phoneNumber
    errorMessage p
  = (Normal tt,
     mkPool
       (on_sessions
          (update_where sessionId
             (set_status st phoneNumber errorMessage (now p)))
          (tables p))
       (now p) (tail (outcomes p))).
Proof.
  intros H. unfold SessionPersistence.updateSessionStatus, try_catch.
  rewrite query_executes by assumption. reflexivity.
Qed.

Lemma updateReconnectAttempts_executed sessionId n p :
  executes p = true ->
  SessionPersistence.updateReconnectAttempts sessionId n p
  = (Normal tt,
     mkPool
       (on_sessions (update_where sessionId (Db.set_attempts n)) (tables p))
       (now p) (tail (outcomes p))).
Proof.
  intros H. unfold SessionPersistence.updateReconnectAttempts, try_catch.
  rewrite query_executes by assumption. reflexivity.
Qed.

(** A persistence operation that catches never rejects. *)
Lemma updateSessionStatus_normal sessionId st phoneNumber errorMessage p :
  fst (SessionPersistence.updateSessionStatus sessionId st phoneNumber
         errorMessage p) = Normal tt.
Proof.
  unfold SessionPersistence.updateSessionStatus, try_catch, query.
  destruct (outcomes p) as [|[e|] rest]; reflexivity.
Qed.

Lemma updateReconnectAttempts_normal sessionId n p :
  fst (SessionPersistence.updateReconnectAttempts sessionId n p) = Normal tt.
Proof.
  unfold SessionPersistence.updateReconnectAttempts, try_catch, query.
  destruct (outcomes p) as [|[e|] rest]; reflexivity.
Qed.

End StoreFacts.

(** ** SessionPersistence *)

Section PersistenceFacts.
Import Db.

(** C7. When its query is executed, [updateSessionStatus] gives the row of
    the session the new status, the new error message and the server's
    time as [last_seen_at]; the stored phone number stays what it was when
    the [phoneNumber] argument is null and becomes the argument otherwise;
    the other columns of the row and the rows of other sessions are
    untouched. *)
Theorem C7_updateSessionStatus_phone_number
    (sessionId : string) (st : Status) (phoneNumber errorMessage : option string)
    (p : Pool) (r : SessionRow) :
  executes p = true ->
  find_session sessionId p = Some r ->
  let p' := snd (SessionPersistence.updateSessionStatus sessionId st
                   phoneNumber errorMessage p) in
  (exists r',
      find_session sessionId p' = Some r'
      /\ status r' = st
      /\ error_message r' = errorMessage
      /\ last_seen_at r' = Some (now p)
      /\ phone_number r' = match phoneNumber with
                           | None => phone_number r
                           | Some n => Some n
                           end
      /\ session_id r' = session_id r
      /\ organization_id r' = organization_id r
      /\ qr_code r' = qr_code r
      /\ auth_state r' = auth_state r
      /\ reconnect_attempts r' = reconnect_attempts r)
  /\ (forall other, other <> sessionId ->
        find_session other p' = find_session other p)
  /\ length (whatsapp_sessions (tables p'))
     = length (whatsapp_sessions (tables p)).
Proof.
  intros Hex Hfind p'. subst p'.
  rewrite updateSessionStatus_executed by assumption. simpl.
  unfold find_session in *. simpl. repeat split.
  - rewrite find_update_where_same by reflexivity. rewrite Hfind. simpl.
    eexists. split; [reflexivity|]. simpl.
    destruct phoneNumber; repeat split; reflexivity.
  - intros other Hne. apply find_update_where_other; [reflexivity|assumption].
  - unfold update_where. apply length_map.
Qed.

(** C9. A rejected query never reaches the caller of [loadAuthState],
    [getActiveSessions] or [updateSessionStatus]: the first answers null,
    the second the empty list, the third returns; and whatever the store
    does, none of the three rejects. *)
Theorem C9_persistence_swallows_failures
    (t : Tables) (n : Z) (e : string) (rest : list (option string))
    (sessionId : string) (st : Status)
    (phoneNumber errorMessage : option string) (p : Pool) :
  SessionPersistence.loadAuthState sessionId (mkPool t n (Some e :: rest))
    = (Normal None, mkPool t n rest)
  /\ SessionPersistence.getActiveSessions (mkPool t n (Some e :: rest))
    = (Normal [], mkPool t n rest)
  /\ SessionPersistence.updateSessionStatus sessionId st phoneNumber
       errorMessage (mkPool t n (Some e :: rest))
    = (Normal tt, mkPool t n rest)
  /\ returns_normally (fst (SessionPersistence.loadAuthState sessionId p))
     = true
  /\ returns_normally (fst (SessionPersistence.getActiveSessions p)) = true
  /\ returns_normally
       (fst (SessionPersistence.updateSessionStatus sessionId st phoneNumber
               errorMessage p)) = true.
Proof.
  repeat split; try reflexivity.
  - unfold SessionPersistence.loadAuthState, try_catch, bind, query.
    destruct (outcomes p) as [|[e'|] rest']; simpl; try reflexivity;
      destruct (map _ _) as [|[b|] l]; reflexivity.
  - unfold SessionPersistence.getActiveSessions, try_catch, query.
    destruct (outcomes p) as [|[e'|] rest']; reflexivity.
  - rewrite updateSessionStatus_normal. reflexivity.
Qed.

End PersistenceFacts.

(** ** ReconnectionManager *)

Section ReconnectionFacts.
Import Db ReconnectionManager.

Lemma backoff_below_cap (n : nat) :
  (n < maxAttempts)%nat -> backoff n = 5000 * 2 ^ Z.of_nat n /\ backoff n <= 80000.
Proof.
  unfold maxAttempts. intros H.
  assert (Hn : n = 0%nat \/ n = 1%nat \/ n = 2%nat \/ n = 3%nat \/ n = 4%nat)
    by lia.
  destruct Hn as [-> | [-> | [-> | [-> | ->]]]]; vm_compute; split;
    try reflexivity; discriminate.
Qed.

(** C1 (amended). On a disconnect that is not a logout, with [n] the
    session's attempt counter: when [n >= 5] the session's row gets status
    [error] with the reason "Max reconnection attempts exceeded (5)", the
    counter is removed and no timer is set; otherwise the counter becomes
    [n + 1], is written to the row, the row gets status [connecting], and one
    timer is set to reconnect after [min (5000 * 2^n) 300000] milliseconds,
    which for [n = 0..4] is 5, 10, 20, 40 and 80 seconds. *)
Theorem C1_handleDisconnection_backoff
    (sessionId : string) (s : State) (r : SessionRow) :
  healthy (persistence s) = true ->
  find_session sessionId (persistence s) = Some r ->
  let n := getAttempts sessionId s in
  let s' := snd (handleDisconnection sessionId s) in
  fst (handleDisconnection sessionId s) = Normal tt
  /\ (if (5 <=? n)%nat then
        reconnectionAttempts s' !! sessionId = None
        /\ timers s' = timers s
        /\ exists r',
            find_session sessionId (persistence s') = Some r'
            /\ status r' = error
            /\ error_message r'
               = Some "Max reconnection attempts exceeded (5)"
            /\ phone_number r' = phone_number r
      else
        reconnectionAttempts s' !! sessionId = Some (S n)
        /\ timers s'
           = timers s
               ++ [mkTimer (Z.min (5000 * 2 ^ Z.of_nat n) 300000)
                     (Reconnect sessionId)]
        /\ 5000 * 2 ^ Z.of_nat n <= 80000
        /\ exists r',
            find_session sessionId (persistence s') = Some r'
            /\ status r' = connecting
            /\ error_message r' = None
            /\ reconnect_attempts r' = Z.of_nat n + 1
            /\ phone_number r' = phone_number r)
  /\ map backoff (seq 0 5) = [5000; 10000; 20000; 40000; 80000].
Proof.
  intros Hh Hfind n s'. subst s'.
  unfold handleDisconnection. fold n. change maxAttempts with 5%nat.
  destruct (5 <=? n)%nat eqn:Hn.
  - unfold bind, with_pool.
    rewrite updateSessionStatus_executed by (apply healthy_executes, Hh).
    simpl. repeat split.
    + apply lookup_delete_eq.
    + unfold find_session in *. simpl.
      rewrite find_update_where_same by reflexivity. rewrite Hfind. simpl.
      eexists. repeat split; reflexivity.
  - apply Nat.leb_gt in Hn.
    unfold bind, with_pool, set_attempts, setTimeout. simpl.
    rewrite updateReconnectAttempts_executed by (apply healthy_executes, Hh).
    rewrite updateSessionStatus_executed
      by (apply healthy_executes, healthy_tail, Hh).
    simpl. repeat split.
    + apply lookup_insert_eq.
    + destruct (backoff_below_cap n Hn) as [E B]. rewrite E in B. exact B.
    + unfold find_session in *. simpl.
      rewrite find_update_where_same by reflexivity.
      rewrite find_update_where_same by reflexivity.
      rewrite Hfind. simpl. eexists. repeat split; reflexivity.
Qed.

End ReconnectionFacts.

Section ReconnectionExamples.
Import Db ReconnectionManager Examples.

Lemma C1_handleDisconnection_backoff_witness :
  healthy (persistence controller_fresh) = true
  /\ find_session "s1" (persistence controller_fresh) = Some row_s1
  /\ timers (snd (handleDisconnection "s1" controller_fresh))
     = [mkTimer 5000 (Reconnect "s1")].
Proof.
  split; [reflexivity|]. split; [reflexivity|].
  exact (proj1 (proj2 (proj1 (proj2
    (C1_handleDisconnection_backoff "s1" controller_fresh row_s1
       eq_refl eq_refl))))).
Defined.

(** C1, as stated, fails at [n = 5]: the reason written is the one with
    the cap in brackets, and no timer is set, so that the sixth delay of the
    list, 160 seconds, is never waited for. *)
Lemma C1_counterexample :
  getAttempts "s1" controller_exhausted = 5%nat
  /\ timers exhausted_after = []
  /\ (error_message <$> find_session "s1" (persistence exhausted_after))
     = Some (Some "Max reconnection attempts exceeded (5)")
  /\ (error_message <$> find_session "s1" (persistence exhausted_after))
     <> Some (Some "Max reconnection attempts exceeded")
  /\ ~ In (mkTimer 160000 (Reconnect "s1")) (timers exhausted_after)
  /\ backoff 5 = 160000.
Proof.
  vm_compute. repeat split; try reflexivity; try discriminate. tauto.
Qed.
End ReconnectionExamples.

(** ** SessionManager: the connection is closed *)

Section CloseFacts.
Import Db SessionManager Examples.

(** C4 (amended). On a close whose status code is the library's logged-out
    value the row of the session is marked [disconnected] with the reason
    "Logged out", the registry entry is deleted, [onDisconnect] is called
    when the bag has one and no timer is set.  On any other close the row is
    marked [disconnected] with the reason of the close, the registry is left
    as it is, no callback is called, and one timer is set that calls
    [createSession] again after 3000 ms; the attempt counter of the row is
    not touched. *)
Theorem C4_connection_close
    (loggedOut : Z) (sessionId : string) (callbacks : Callbacks)
    (lastDisconnect : LastDisconnect) (s : State) (r : SessionRow) :
  executes (persistence s) = true ->
  find_session sessionId (persistence s) = Some r ->
  let s' := snd (on_close loggedOut sessionId callbacks lastDisconnect s) in
  fst (on_close loggedOut sessionId callbacks lastDisconnect s) = Normal tt
  /\ (exists r',
        find_session sessionId (persistence s') = Some r'
        /\ status r' = disconnected
        /\ reconnect_attempts r' = reconnect_attempts r
        /\ phone_number r' = phone_number r
        /\ error_message r'
           = if bool_decide (statusCode lastDisconnect = Some loggedOut)
             then Some "Logged out" else message lastDisconnect)
  /\ if bool_decide (statusCode lastDisconnect = Some loggedOut) then
       sessions s' !! sessionId = None
       /\ (forall other, other <> sessionId ->
             sessions s' !! other = sessions s !! other)
       /\ timers s' = timers s
       /\ fired s'
          = fired s ++ (if onDisconnect callbacks then [OnDisconnect sessionId]
                        else [])
     else
       sessions s' = sessions s
       /\ timers s' = timers s ++ [(3000, CreateSession sessionId callbacks)]
       /\ fired s' = fired s.
Proof.
  intros Hex Hfind s'. subst s'. unfold on_close, shouldReconnect.
  destruct (statusCode lastDisconnect) as [c|] eqn:Hc.
  - destruct (c =? loggedOut) eqn:Heq; simpl.
    + apply Z.eqb_eq in Heq. subst c.
      rewrite bool_decide_true by reflexivity.
      unfold bind, with_pool.
      rewrite updateSessionStatus_executed by assumption. simpl.
      assert (Hrow : exists r',
        find_session sessionId
          (mkPool
             (on_sessions
                (update_where sessionId
                   (set_status disconnected None (Some "Logged out")
                      (now (persistence s))))
                (tables (persistence s)))
             (now (persistence s)) (tail (outcomes (persistence s))))
        = Some r'
        /\ status r' = disconnected
        /\ reconnect_attempts r' = reconnect_attempts r
        /\ phone_number r' = phone_number r
        /\ error_message r' = Some "Logged out").
      { unfold find_session in *. simpl.
        rewrite find_update_where_same by reflexivity. rewrite Hfind. simpl.
        eexists. repeat split; reflexivity. }
      destruct (onDisconnect callbacks); simpl; repeat split;
        try exact Hrow; try apply lookup_delete_eq;
        try (intros other Hne; apply lookup_delete_ne; congruence);
        try reflexivity.
      symmetry. apply app_nil_r.
    + apply Z.eqb_neq in Heq.
      rewrite bool_decide_false by congruence.
      unfold bind, with_pool, setTimeout.
      rewrite updateSessionStatus_executed by assumption. simpl.
      repeat split.
      unfold find_session in *. simpl.
      rewrite find_update_where_same by reflexivity. rewrite Hfind. simpl.
      eexists. repeat split; reflexivity.
  - rewrite bool_decide_false by discriminate.
    unfold bind, with_pool, setTimeout.
    rewrite updateSessionStatus_executed by assumption. simpl.
    repeat split.
    unfold find_session in *. simpl.
    rewrite find_update_where_same by reflexivity. rewrite Hfind. simpl.
    eexists. repeat split; reflexivity.
Qed.

Lemma C4_connection_close_witness :
  executes (persistence manager1) = true
  /\ find_session "s1" (persistence manager1) = Some row_s1
  /\ sessions (snd (on_close 401 "s1" bag logged_out manager1)) !! "s1" = None
  /\ timers (snd (on_close 401 "s1" bag connection_closed manager1))
     = [(3000, CreateSession "s1" bag)].
Proof.
  split; [reflexivity|]. split; [reflexivity|]. split.
  - exact (proj1 (proj2 (proj2
      (C4_connection_close 401 "s1" bag logged_out manager1 row_s1
         eq_refl eq_refl)))).
  - exact (proj1 (proj2 (proj2 (proj2
      (C4_connection_close 401 "s1" bag connection_closed manager1 row_s1
         eq_refl eq_refl))))).
Defined.

(** C4, as stated, fails: after a close that is not a logout the session is
    not given to the reconnection controller.  The handler sets a bare
    3000 ms timer and leaves the row [disconnected] with its attempt counter
    at 0, where [handleDisconnection] on the same store would have written
    the counter 1, the status [connecting] and set a 5000 ms timer. *)
Lemma C4_counterexample :
  timers closed_after = [(3000, CreateSession "s1" bag)]
  /\ (status <$> find_session "s1" (persistence closed_after))
     = Some disconnected
  /\ (reconnect_attempts <$> find_session "s1" (persistence closed_after))
     = Some 0
  /\ (status
        <$> find_session "s1" (ReconnectionManager.persistence handed_over))
     = Some connecting
  /\ (reconnect_attempts
        <$> find_session "s1" (ReconnectionManager.persistence handed_over))
     = Some 1
  /\ ReconnectionManager.timers handed_over
     = [ReconnectionManager.mkTimer 5000 (ReconnectionManager.Reconnect "s1")]
  /\ persistence closed_after
     <> ReconnectionManager.persistence handed_over.
Proof.
  vm_compute. repeat split; try reflexivity. discriminate.
Qed.

End CloseFacts.

(** ** MessageQueue *)

Section QueueFacts.
Import MessageQueue.

Lemma queue_of_set_queue sessionId q s :
  queue_of sessionId (set_queue sessionId q s) = q.
Proof. unfold queue_of, set_queue. simpl. rewrite lookup_insert_eq. reflexivity. Qed.

Lemma sendMessage_spec sessionId m r s :
  sendMessage sessionId m r s
  = (send_outcome m r,
     mkState (queues s) (processing s) (stats s)
       (effects s ++ [Attempt sessionId m])).
Proof.
  unfold send_outcome, sendMessage, bind, emit, throw. simpl.
  destruct (decide (default "text" (type m) = "text")); reflexivity.
Qed.

Lemma shouldThrottle_spec sessionId now s :
  exists b st,
    shouldThrottle sessionId now s
    = (Normal b, mkState (queues s) (processing s) st (effects s))
    /\ (b = true -> st = stats s).
Proof.
  unfold shouldThrottle. destruct s as [q p st ef]. simpl.
  destruct (st !! sessionId) as [x|].
  - destruct (lastReset x <? now - 60000).
    + eexists _, _. split; [reflexivity|discriminate].
    + eexists _, _. split; [reflexivity|reflexivity].
  - eexists _, _. split; [reflexivity|reflexivity].
Qed.

(** A turn of the loop when the throttle check says wait. *)
Lemma loop_body_throttled sessionId e s m rest :
  queue_of sessionId s = m :: rest ->
  fst (shouldThrottle sessionId (t_check e) s) = Normal true ->
  loop_body sessionId e s
  = (Normal tt,
     mkState (queues s) (processing s) (stats s)
       (effects s ++ [Log (RateLimitReached sessionId); Delay 60000])).
Proof.
  intros Hq Ht. unfold loop_body. rewrite Hq.
  destruct (shouldThrottle_spec sessionId (t_check e) s) as (b & st & E & Hb).
  rewrite E in Ht. simpl in Ht. injection Ht as ->. rewrite (Hb eq_refl) in E.
  unfold try_catch, bind. rewrite E. simpl. unfold delay, emit. simpl.
  rewrite <- app_assoc. reflexivity.
Qed.

(** A turn of the loop when the message goes out. *)
Lemma loop_body_sent sessionId e s m rest :
  queue_of sessionId s = m :: rest ->
  fst (shouldThrottle sessionId (t_check e) s) = Normal false ->
  send_outcome m (send_result e) = Normal tt ->
  let s1 := snd (shouldThrottle sessionId (t_check e) s) in
  let st := default (mkStats 0 (t_stats e)) (stats s1 !! sessionId) in
  loop_body sessionId e s
  = (Normal tt,
     mkState (<[sessionId := rest]> (queues s)) (processing s)
       (<[sessionId := mkStats (sent st + 1) (lastReset st)]> (stats s1))
       (effects s
          ++ [Attempt sessionId m; Log (MessageSent (id m)); Delay 3000])).
Proof.
  intros Hq Ht Hs s1 st. subst st s1. unfold loop_body. rewrite Hq.
  destruct (shouldThrottle_spec sessionId (t_check e) s) as (b & st & E & _).
  rewrite E in Ht |- *. simpl in Ht. injection Ht as ->.
  unfold try_catch, bind. rewrite E. rewrite sendMessage_spec, Hs. simpl.
  unfold shift, queue_of, set_queue, updateStats, set_stats, delay, emit.
  simpl. unfold queue_of in Hq. rewrite Hq. simpl.
  rewrite <- !app_assoc. reflexivity.
Qed.

(** A turn of the loop when the send fails. *)
Lemma loop_body_failed sessionId e s m rest reason :
  queue_of sessionId s = m :: rest ->
  fst (shouldThrottle sessionId (t_check e) s) = Normal false ->
  send_outcome m (send_result e) = Throw reason ->
  let s1 := snd (shouldThrottle sessionId (t_check e) s) in
  loop_body sessionId e s
  = (Normal tt,
     if (3 <=? S (attempts m))%nat then
       mkState (<[sessionId := rest]> (queues s)) (processing s) (stats s1)
         (effects s
            ++ [Attempt sessionId m; Log (SendFailed (id m) reason);
                Log (MaxAttemptsReached (id m))])
     else
       mkState (<[sessionId := rest ++ [bump m]]> (queues s)) (processing s)
         (stats s1)
         (effects s
            ++ [Attempt sessionId m; Log (SendFailed (id m) reason);
                Delay 5000])).
Proof.
  intros Hq Ht Hs s1. subst s1. unfold loop_body. rewrite Hq.
  destruct (shouldThrottle_spec sessionId (t_check e) s) as (b & st & E & _).
  rewrite E in Ht |- *. simpl in Ht. injection Ht as ->.
  unfold try_catch, bind. rewrite E. rewrite sendMessage_spec, Hs. simpl.
  unfold bump_head, shift, push, queue_of, set_queue, delay, emit. simpl.
  unfold queue_of in Hq. rewrite Hq. simpl.
  destruct (attempts m) as [|[|a]]; simpl;
    rewrite ?lookup_insert_eq; simpl; rewrite ?insert_insert_eq;
    rewrite <- ?app_assoc; reflexivity.
Qed.

Lemma attempted_app a b : attempted (a ++ b) = attempted a ++ attempted b.
Proof. unfold attempted. apply omap_app. Qed.

Lemma bump_id m : id (bump m) = id m.
Proof. reflexivity. Qed.

(** One input: the effects grow at the end, only the head of the queue is
    tried, and the queue gets no new ids but the one enqueued. *)
Lemma step_extends sessionId i s :
  exists new,
    effects (step sessionId i s) = effects s ++ new
    /\ (forall x, In x (attempted new) ->
          exists rest, queue_of sessionId s = x :: rest)
    /\ (forall y, In y (queue_of sessionId (step sessionId i s)) ->
          In (id y) (map id (queue_of sessionId s))
          \/ exists item, i = Enqueue item /\ id item = id y).
Proof.
  destruct i as [e|item|j c r t]; simpl.
  - destruct (queue_of sessionId s) as [|m rest] eqn:Hq.
    { unfold loop_body. rewrite Hq. simpl. exists []. rewrite app_nil_r, Hq.
      repeat split; intros ? []. }
    destruct (shouldThrottle_spec sessionId (t_check e) s) as (b & st & E & Hb).
    destruct b.
    + rewrite (loop_body_throttled _ _ _ m rest) by (try rewrite E; auto).
      simpl. eexists. split; [reflexivity|]. split.
      * intros x [].
      * unfold queue_of in *. simpl. rewrite Hq. intros y Hy. left.
        exact (in_map id _ _ Hy).
    + destruct (send_outcome m (send_result e)) as [[]|reason] eqn:Hs.
      * rewrite (loop_body_sent _ _ _ m rest) by (try rewrite E; auto).
        simpl. eexists. split; [reflexivity|]. split.
        -- intros x [<-|[]]. eauto.
        -- unfold queue_of. simpl. rewrite lookup_insert_eq. simpl.
           intros y Hy. left. right. exact (in_map id _ _ Hy).
      * rewrite (loop_body_failed _ _ _ m rest reason)
          by (try rewrite E; auto).
        simpl. destruct (attempts m) as [|[|a]]; simpl;
          (eexists; split; [reflexivity|]; split;
           [ intros x [<-|[]]; eauto
           | unfold queue_of; simpl; rewrite lookup_insert_eq; simpl;
             intros y Hy; left;
             try (apply in_app_or in Hy; destruct Hy as [Hy|[<-|[]]];
                  [right; exact (in_map id _ _ Hy) | left; reflexivity]);
             try (right; exact (in_map id _ _ Hy)) ]).
  - unfold enqueue, emit. simpl.
    destruct (default false (processing s !! sessionId)); simpl;
      (eexists; split; [reflexivity|]; split;
       [ intros x []
       | unfold queue_of at 1; simpl; rewrite lookup_insert_eq; simpl;
         intros y Hy; apply in_app_or in Hy; destruct Hy as [Hy|[<-|[]]];
         [ left; exact (in_map id _ _ Hy)
         | right; exists item; split; reflexivity ] ]).
  - unfold sendImmediate, bind, emit, updateStats. simpl.
    destruct r as [[]|reason]; simpl;
      (eexists; split; [rewrite <- app_assoc; reflexivity|]; split;
       [ intros x []
       | unfold queue_of; simpl; intros y Hy; left; exact (in_map id _ _ Hy) ]).
Qed.

(** Over a run, whatever is tried was in the queue at the start or has been
    enqueued since. *)
Lemma run_extends sessionId inputs : forall s,
  exists new,
    effects (run sessionId inputs s) = effects s ++ new
    /\ forall x, In x (attempted new) ->
         In (id x) (map id (queue_of sessionId s))
         \/ exists item, In (Enqueue item) inputs /\ id item = id x.
Proof.
  induction inputs as [|i inputs IH]; intros s.
  - exists []. simpl. rewrite app_nil_r. split; [reflexivity|]. intros x [].
  - change (run sessionId (i :: inputs) s)
      with (run sessionId inputs (step sessionId i s)).
    destruct (step_extends sessionId i s) as (new1 & E1 & H1 & Hq).
    destruct (IH (step sessionId i s)) as (new2 & E2 & H2).
    exists (new1 ++ new2). split.
    + rewrite E2, E1, app_assoc. reflexivity.
    + intros x Hx. rewrite attempted_app in Hx. apply in_app_or in Hx.
      destruct Hx as [Hx|Hx].
      * destruct (H1 x Hx) as [rest Hr]. left. rewrite Hr. left. reflexivity.
      * destruct (H2 x Hx) as [Hin|(item & Hi & He)].
        -- apply in_map_iff in Hin. destruct Hin as (y & Hy & Hin).
           destruct (Hq y Hin) as [Hold|(item & -> & He)].
           ++ left. rewrite <- Hy. exact Hold.
           ++ right. exists item. split; [left; reflexivity|congruence].
        -- right. exists item. split; [right; exact Hi|exact He].
Qed.

(** C5. When the send of the head of the queue fails, its [attempts] goes
    up by one.  If that makes 3, the item leaves the queue, the failure is
    written to the log, and no later turn of the worker tries an item with
    its id again (the ids in the queue being distinct and not enqueued
    anew).  Below 3 the item is taken from the head and put at the tail with
    the new count, the others keeping their order, and the worker sleeps
    5000 ms as the last thing of the turn. *)
Theorem C5_failed_send_requeue_or_drop
    (sessionId : string) (e : Turn) (s : State)
    (m : QueueItem) (rest : list QueueItem) (reason : string) :
  queue_of sessionId s = m :: rest ->
  fst (shouldThrottle sessionId (t_check e) s) = Normal false ->
  send_outcome m (send_result e) = Throw reason ->
  let s' := snd (loop_body sessionId e s) in
  fst (loop_body sessionId e s) = Normal tt
  /\ if (3 <=? attempts m + 1)%nat then
       queue_of sessionId s' = rest
       /\ since (length (effects s)) s'
          = [Attempt sessionId m; Log (SendFailed (id m) reason);
             Log (MaxAttemptsReached (id m))]
       /\ forall inputs x,
            ~ In (id m) (map id rest) ->
            (forall item, In (Enqueue item) inputs -> id item <> id m) ->
            In x (attempted
                    (since (length (effects s')) (run sessionId inputs s'))) ->
            id x <> id m
     else
       queue_of sessionId s' = rest ++ [bump m]
       /\ attempts (bump m) = S (attempts m)
       /\ since (length (effects s)) s'
          = [Attempt sessionId m; Log (SendFailed (id m) reason); Delay 5000].
Proof.
  intros Hq Ht Hs s'. subst s'.
  rewrite (loop_body_failed sessionId e s m rest reason Hq Ht Hs).
  replace (attempts m + 1)%nat with (S (attempts m)) by lia.
  split; [reflexivity|].
  destruct (3 <=? S (attempts m))%nat eqn:H3; cbn [snd].
  - split; [|split].
    + unfold queue_of. simpl. rewrite lookup_insert_eq. reflexivity.
    + unfold since. simpl. apply drop_app_length.
    + intros inputs x Hfresh Hnew Hx.
      match type of Hx with
      | context [run _ _ ?s0] =>
          destruct (run_extends sessionId inputs s0) as (new & E & Hnew')
      end.
      unfold since in Hx. rewrite E, drop_app_length in Hx.
      destruct (Hnew' x Hx) as [Hin|(item & Hi & He)].
      * unfold queue_of in Hin. simpl in Hin. rewrite lookup_insert_eq in Hin.
        simpl in Hin. congruence.
      * rewrite <- He. apply Hnew. exact Hi.
  - split; [|split].
    + unfold queue_of. simpl. rewrite lookup_insert_eq. reflexivity.
    + reflexivity.
    + unfold since. simpl. apply drop_app_length.
Qed.

Lemma sendImmediate_ok sessionId j c now s :
  sendImmediate sessionId j c (Normal tt) now s
  = (Normal tt,
     let st := default (mkStats 0 now) (stats s !! sessionId) in
     mkState (queues s) (processing s)
       (<[sessionId := mkStats (sent st + 1) (lastReset st)]> (stats s))
       (effects s ++ [Log (BypassingQueue sessionId); SendNow sessionId j c])).
Proof.
  unfold sendImmediate, bind, emit, updateStats, set_stats. simpl.
  rewrite <- app_assoc. reflexivity.
Qed.

Lemma counter_sendImmediate sessionId j c now s :
  counter sessionId (snd (sendImmediate sessionId j c (Normal tt) now s))
  = counter sessionId s + 1.
Proof.
  rewrite sendImmediate_ok. unfold counter. simpl. rewrite lookup_insert_eq.
  destruct (stats s !! sessionId); reflexivity.
Qed.

Lemma run_app sessionId a b s :
  run sessionId (a ++ b) s = run sessionId b (run sessionId a s).
Proof. unfold run. apply fold_left_app. Qed.

(** [k] immediate sends in a row. *)
Lemma stats_after_immediates sessionId j c now k : forall s st,
  stats s !! sessionId = Some st ->
  stats (run sessionId (repeat (Immediate j c (Normal tt) now) k) s)
    !! sessionId
  = Some (mkStats (sent st + Z.of_nat k) (lastReset st)).
Proof.
  induction k as [|k IH]; intros s st Hs.
  - simpl. rewrite Hs, Z.add_0_r. destruct st; reflexivity.
  - change (repeat (Immediate j c (Normal tt) now) (S k))
      with ([Immediate j c (Normal tt) now]
              ++ repeat (Immediate j c (Normal tt) now) k).
    rewrite run_app.
    rewrite (IH _ (mkStats (sent st + 1) (lastReset st))).
    + simpl. f_equal. f_equal. lia.
    + change (run sessionId [Immediate j c (Normal tt) now] s)
        with (snd (sendImmediate sessionId j c (Normal tt) now s)).
      rewrite sendImmediate_ok. simpl. rewrite Hs. simpl.
      apply lookup_insert_eq.
Qed.

(** C10. A successful immediate send and a successful queued send both add
    one to the session's [sent] counter, which is the counter the throttle
    check reads: after [k] immediate sends in the window of the counter the
    check answers as for [sent + k], so they use up the budget of the queued
    sends of that window. *)
Theorem C10_every_send_counts
    (sessionId jid content : string) (now : Z) (e : Turn) (s : State)
    (m : QueueItem) (rest : list QueueItem) :
  queue_of sessionId s = m :: rest ->
  fst (shouldThrottle sessionId (t_check e) s) = Normal false ->
  send_outcome m (send_result e) = Normal tt ->
  counter sessionId
    (snd (sendImmediate sessionId jid content (Normal tt) now s))
  = counter sessionId s + 1
  /\ counter sessionId (snd (loop_body sessionId e s))
     = counter sessionId (snd (shouldThrottle sessionId (t_check e) s)) + 1
  /\ forall (st : Stats) (k : nat) (t : Z),
       stats s !! sessionId = Some st ->
       t - 60000 <= lastReset st ->
       let s' :=
         run sessionId (repeat (Immediate jid content (Normal tt) now) k) s in
       counter sessionId s' = sent st + Z.of_nat k
       /\ fst (shouldThrottle sessionId t s')
          = Normal (messagesPerMinute <=? sent st + Z.of_nat k).
Proof.
  intros Hq Ht Hs. split; [apply counter_sendImmediate|]. split.
  - rewrite (loop_body_sent sessionId e s m rest Hq Ht Hs).
    unfold counter. simpl. rewrite lookup_insert_eq.
    destruct (stats _ !! sessionId); reflexivity.
  - intros st k t Hst Hwin s'. subst s'.
    pose proof (stats_after_immediates sessionId jid content now k s st Hst)
      as Hk.
    unfold counter, shouldThrottle. rewrite Hk. simpl.
    split; [reflexivity|].
    destruct (lastReset st <? t - 60000) eqn:Hlt; [|reflexivity].
    apply Z.ltb_lt in Hlt. lia.
Qed.

(** C6 (amended). The limit is kept by a counter over a fixed window.  For a
    session that has stats: once more than 60000 ms have gone by since
    [lastReset] the check puts the counter back to 0 in one go and lets the
    send through; within the window it reports exhaustion exactly when the
    counter has reached 20, and the worker then logs, sleeps 60000 ms and
    ends the turn with the queue as it was and nothing sent. *)
Theorem C6_fixed_window_throttle
    (sessionId : string) (e : Turn) (s : State) (st : Stats)
    (m : QueueItem) (rest : list QueueItem) :
  stats s !! sessionId = Some st ->
  queue_of sessionId s = m :: rest ->
  let now := t_check e in
  if lastReset st <? now - 60000 then
    shouldThrottle sessionId now s
    = (Normal false, set_stats sessionId (mkStats 0 now) s)
  else if 20 <=? sent st then
    shouldThrottle sessionId now s = (Normal true, s)
    /\ loop_body sessionId e s
       = (Normal tt,
          mkState (queues s) (processing s) (stats s)
            (effects s ++ [Log (RateLimitReached sessionId); Delay 60000]))
    /\ queue_of sessionId (snd (loop_body sessionId e s)) = m :: rest
    /\ attempted (since (length (effects s)) (snd (loop_body sessionId e s)))
       = []
  else
    shouldThrottle sessionId now s = (Normal false, s).
Proof.
  intros Hst Hq now. subst now.
  assert (Hs : shouldThrottle sessionId (t_check e) s
               = if lastReset st <? t_check e - 60000
                 then (Normal false,
                       set_stats sessionId (mkStats 0 (t_check e)) s)
                 else (Normal (20 <=? sent st), s)).
  { unfold shouldThrottle. rewrite Hst. reflexivity. }
  destruct (lastReset st <? t_check e - 60000); [exact Hs|].
  destruct (20 <=? sent st) eqn:H20; [|exact Hs].
  split; [exact Hs|].
  rewrite (loop_body_throttled sessionId e s m rest Hq)
    by (rewrite Hs; reflexivity).
  split; [reflexivity|]. split.
  - exact Hq.
  - unfold since. simpl. rewrite drop_app_length. reflexivity.
Qed.

End QueueFacts.

(** ** GHLWebhookService: the normalisation of phone numbers *)

Section NormFacts.
Import GHLWebhookService.

Lemma filter_twice {A} (f : A -> bool) (l : list A) :
  List.filter f (List.filter f l) = List.filter f l.
Proof.
  induction l as [|a l IH]; simpl; [reflexivity|].
  destruct (f a) eqn:Hf; simpl; rewrite ?Hf, IH; reflexivity.
Qed.

Lemma strip_strip s : strip (strip s) = strip s.
Proof. apply filter_twice. Qed.

Lemma strip_length s : (length (strip s) <= length s)%nat.
Proof.
  unfold strip. induction s as [|a s IH]; simpl; [lia|].
  destruct (negb (space_or_hyphen a)); simpl; lia.
Qed.

Lemma replace_first_absent p s :
  includes p s = false -> replace_first p s = s.
Proof.
  induction s as [|c s IH]; simpl; intros H.
  - apply orb_false_iff in H. destruct H as [H _].
    destruct p; [discriminate|]. reflexivity.
  - apply orb_false_iff in H. destruct H as [H1 H2].
    rewrite H1. rewrite IH by assumption. reflexivity.
Qed.

Lemma startsWith_length p s :
  startsWith p s = true -> (length p <= length s)%nat.
Proof.
  revert s. induction p as [|a p IH]; intros [|b s]; simpl; intros H;
    try lia; try discriminate.
  apply andb_true_iff in H. destruct H as [_ H]. apply IH in H. lia.
Qed.

Lemma replace_first_present p s :
  includes p s = true ->
  (length (replace_first p s) + length p = length s)%nat.
Proof.
  induction s as [|c s IH]; simpl; intros H.
  - rewrite orb_false_r in H. rewrite H.
    apply startsWith_length in H. simpl in *.
    rewrite drop_nil. simpl. lia.
  - destruct (startsWith p (c :: s)) eqn:Hs.
    + apply startsWith_length in Hs. rewrite length_drop. simpl in *. lia.
    + simpl in H. simpl. rewrite <- IH by assumption. lia.
Qed.

Lemma replace_first_length p s :
  (length (replace_first p s) <= length s)%nat.
Proof.
  destruct (includes p s) eqn:H.
  - apply replace_first_present in H. lia.
  - rewrite replace_first_absent by assumption. lia.
Qed.

(** The shape of a normalised string: no blanks or hyphens, and a plus in
    front unless it is empty. *)
Lemma norm_shape x :
  strip (norm x) = norm x
  /\ (norm x = [] \/ startsWith plus (norm x) = true).
Proof.
  unfold norm, formatPhoneNumber. destruct x as [|c x]; [split; auto|].
  set (cleaned := strip (replace_first at_c_us (replace_first at_whatsapp (c :: x)))).
  destruct (startsWith plus cleaned) eqn:Hp; simpl.
  - split; [apply strip_strip|right; exact Hp].
  - split; [|right; reflexivity].
    change (strip (plus ++ cleaned)) with (plus ++ strip cleaned).
    unfold cleaned. rewrite strip_strip. reflexivity.
Qed.

Lemma norm_fixed y :
  startsWith plus y = true ->
  norm y = strip (replace_first at_c_us (replace_first at_whatsapp y))
  \/ norm y
     = plus ++ strip (replace_first at_c_us (replace_first at_whatsapp y)).
Proof.
  intros Hp. unfold norm, formatPhoneNumber.
  destruct y as [|c y]; [discriminate|]. clear Hp.
  destruct (startsWith plus
              (strip (replace_first at_c_us
                        (replace_first at_whatsapp (c :: y)))));
    [left|right]; reflexivity.
Qed.

(** C3 (amended). Normalising twice gives the same as normalising once
    exactly when the normalised string contains neither ["@s.whatsapp.net"]
    nor ["@c.us"]. *)
Theorem C3_norm_idempotent_iff (x : jsstring) :
  norm (norm x) = norm x
  <-> includes at_whatsapp (norm x) = false
      /\ includes at_c_us (norm x) = false.
Proof.
  destruct (norm_shape x) as [Hstrip Hplus].
  destruct Hplus as [Hnil|Hplus].
  { rewrite Hnil. split; intros; [split|]; reflexivity. }
  set (y := norm x) in *. split.
  - intros Hfix.
    assert (Hlen : forall a b c : nat,
               (a <= b + 1 -> b <= c -> a <= c + 1)%nat) by lia.
    assert (Hbound :
      (length (norm y)
       <= length (replace_first at_c_us (replace_first at_whatsapp y)) + 1)%nat).
    { destruct (norm_fixed y Hplus) as [E|E]; rewrite E;
        [|rewrite length_app; simpl];
        pose proof (strip_length
          (replace_first at_c_us (replace_first at_whatsapp y))); lia. }
    rewrite Hfix in Hbound.
    destruct (includes at_whatsapp y) eqn:H1.
    { apply replace_first_present in H1.
      pose proof (replace_first_length at_c_us (replace_first at_whatsapp y)).
      change (length at_whatsapp) with 15%nat in H1. lia. }
    split; [reflexivity|].
    rewrite (replace_first_absent _ _ H1) in Hbound.
    destruct (includes at_c_us y) eqn:H2; [|reflexivity].
    apply replace_first_present in H2.
    change (length at_c_us) with 5%nat in H2. lia.
  - intros [H1 H2]. unfold norm at 1, formatPhoneNumber.
    destruct y as [|c y'] eqn:Hy; [reflexivity|]. rewrite <- Hy in *.
    rewrite (replace_first_absent _ _ H1), (replace_first_absent _ _ H2).
    rewrite Hstrip, Hplus. reflexivity.
Qed.

Lemma C3_norm_idempotent_iff_witness :
  norm (norm (lit "555 123-4567@s.whatsapp.net"))
  = norm (lit "555 123-4567@s.whatsapp.net").
Proof.
  apply (proj2 (C3_norm_idempotent_iff (lit "555 123-4567@s.whatsapp.net"))).
  split; reflexivity.
Defined.

(** C3, as stated, fails: the string ["@c.us@c.us"] is normalised to
    ["+@c.us"], and that to ["+"]. *)
Lemma C3_counterexample :
  norm (lit "@c.us@c.us") = lit "+@c.us"
  /\ norm (lit "+@c.us") = lit "+"
  /\ norm (norm (lit "@c.us@c.us")) <> norm (lit "@c.us@c.us").
Proof.
  split; [reflexivity|]. split; [reflexivity|]. vm_compute. discriminate.
Qed.

End NormFacts.

(** ** GHLWebhookService: retries against an endpoint that always fails *)

Section RetryFacts.
Import GHLWebhookService Examples.

Variable org : OrgConfig.
Variable u : string.
Hypothesis has_url : webhook_url org = Some u.
Variable messageData : MessageData.

Lemma earliest_some ts : ts <> [] -> exists t, earliest ts = Some t.
Proof.
  destruct ts as [|t ts]; [congruence|]. intros _. simpl.
  destruct (earliest ts) as [v|]; [destruct (fire_at v <? fire_at t)|]; eauto.
Qed.

(** A failing delivery makes one POST and leaves a timer behind. *)
Lemma send_fails w :
  exists p,
    sendMessageToGHL always_failing org messageData w
    = (Throw "Request failed",
       mkWorld (clock w) (posts w ++ [p]) (webhook_logs w ++ [failed])
         (message_failed w) (synced_to_ghl w)
         (timers w ++ [mkTimer (clock w + 2000) 0])).
Proof.
  unfold sendMessageToGHL. rewrite has_url. eexists. reflexivity.
Qed.

Lemma on_timer_fails r w :
  length (posts (snd (on_timer always_failing org messageData r w)))
  = S (length (posts w))
  /\ timers (snd (on_timer always_failing org messageData r w)) <> [].
Proof.
  unfold on_timer, try_catch, bind.
  destruct (send_fails w) as [p ->].
  unfold scheduleRetry, mark_failed, setTimeout.
  destruct (maxRetries <=? S r)%nat; simpl;
    (split; [rewrite length_app; simpl; lia|]);
    intros H; apply (f_equal length) in H;
    rewrite ?length_app in H; simpl in H; lia.
Qed.

Lemma fire_next_fails w :
  timers w <> [] ->
  exists w',
    fire_next always_failing org messageData w = Some w'
    /\ length (posts w') = S (length (posts w))
    /\ timers w' <> [].
Proof.
  intros Hne. unfold fire_next.
  destruct (earliest_some (timers w) Hne) as [t ->].
  eexists. split; [reflexivity|].
  exact (on_timer_fails (retryCount t) _).
Qed.

Lemma fire_many_fails n : forall w,
  timers w <> [] ->
  length (posts (fire_many always_failing org messageData n w))
  = (n + length (posts w))%nat
  /\ timers (fire_many always_failing org messageData n w) <> [].
Proof.
  induction n as [|n IH]; intros w Hne; simpl; [auto|].
  destruct (fire_next_fails w Hne) as (w' & -> & Hp & Ht).
  destruct (IH w' Ht) as [IH1 IH2]. split; [lia|assumption].
Qed.

End RetryFacts.

Section RetryExamples.
Import GHLWebhookService Examples.

(** C2 fails on the code.  Against an endpoint that rejects every POST the
    dispatcher never stops: after [n] timers it has made [n + 1] POSTs and
    still has a timer pending, for every [n], because each failed POST sets
    a timer with retry count 0 of its own besides the one its caller sets
    with the next count.  For the message of the example the POSTs are made
    at 0, 2000, 4000, 6000, 6000, ... ms, and when the message is marked
    failed at 14000 ms, 19 POSTs have been made and 18 timers are pending. *)
Theorem C2_retries_never_stop
    (url : string) (key loc : option string) (messageData : MessageData)
    (n : nat) :
  let org := mkOrgConfig (Some url) key loc in
  length (posts (deliver always_failing org messageData n)) = S n
  /\ timers (deliver always_failing org messageData n) <> []
  /\ map posted_at (posts (deliver always_failing hook inbound 4))
     = [0; 2000; 4000; 6000; 6000]
  /\ message_failed (deliver always_failing hook inbound 17) = false
  /\ message_failed (deliver always_failing hook inbound 18) = true
  /\ clock (deliver always_failing hook inbound 18) = 14000
  /\ length (posts (deliver always_failing hook inbound 18)) = 19%nat
  /\ length (timers (deliver always_failing hook inbound 18)) = 18%nat.
Proof.
  intros org. unfold deliver.
  destruct (send_fails org url eq_refl messageData
              (mkWorld 0 [] [] false false [])) as [p E].
  simpl in E. rewrite E. cbn [snd].
  match goal with
  | |- context [fire_many _ _ _ n ?w] =>
      destruct (fire_many_fails org url eq_refl messageData n w) as [H1 H2];
        [simpl; discriminate|]
  end.
  split; [rewrite H1; simpl; lia|]. split; [exact H2|].
  vm_compute. repeat split; reflexivity.
Qed.

End RetryExamples.

(** ** The limit guard *)

Section GuardFacts.
Import Db Auth Examples.

(** C8. When the count of the organisation's sessions that are not in
    [error] has reached [max_accounts], the guard answers 403 with the error
    "Account limit reached", the count as [current] and the cap as [limit]
    (the count query being executed). *)
Theorem C8_account_limit_reached
    (organization : Organization) (currentMonth : string) (p : Pool) :
  executes p = true ->
  let current :=
    Z.of_nat
      (length
         (List.filter (counts_for (org_id organization))
            (whatsapp_sessions (tables p)))) in
  max_accounts organization <= current ->
  checkSubscriptionLimits organization currentMonth p
  = (Normal
       (Json 403
          [("error", JString "Account limit reached");
           ("message",
            JString ("Your plan allows "
                     +:+ pretty (max_accounts organization)
                     +:+ " accounts. Please upgrade."));
           ("current", JNumber current);
           ("limit", JNumber (max_accounts organization))]),
     mkPool (tables p) (now p) (tail (outcomes p))).
Proof.
  intros Hex current Hmax. unfold checkSubscriptionLimits, try_catch, bind.
  rewrite query_executes by assumption. simpl. fold current.
  apply Z.leb_le in Hmax. rewrite Hmax. reflexivity.
Qed.

Lemma C8_account_limit_reached_witness :
  executes pool1 = true
  /\ max_accounts free_org <= 1
  /\ fst (checkSubscriptionLimits free_org "2026-11-01" pool1)
     = Normal
         (Json 403
            [("error", JString "Account limit reached");
             ("message",
              JString "Your plan allows 1 accounts. Please upgrade.");
             ("current", JNumber 1);
             ("limit", JNumber 1)]).
Proof.
  split; [reflexivity|]. split; [vm_compute; discriminate|].
  exact (f_equal fst
    (C8_account_limit_reached free_org "2026-11-01" pool1 eq_refl
       ltac:(vm_compute; discriminate))).
Defined.

End GuardFacts.

(** ** Worked examples *)

Section WorkedExamples.
Import Db MessageQueue Examples.

Lemma C7_updateSessionStatus_phone_number_witness :
  executes pool1 = true
  /\ find_session "s1" pool1 = Some row_s1
  /\ (exists r',
        find_session "s1"
          (snd (SessionPersistence.updateSessionStatus "s1" disconnected
                  None (Some "Logged out") pool1)) = Some r'
        /\ status r' = disconnected
        /\ error_message r' = Some "Logged out"
        /\ last_seen_at r' = Some 1000
        /\ phone_number r' = Some "5551234567"
        /\ session_id r' = "s1"
        /\ organization_id r' = "org1"
        /\ qr_code r' = None
        /\ auth_state r' = Some "{}"
        /\ reconnect_attempts r' = 0)
  /\ (exists r',
        find_session "s1"
          (snd (SessionPersistence.updateSessionStatus "s1" connected
                  (Some "5559876543") None pool1)) = Some r'
        /\ status r' = connected
        /\ error_message r' = None
        /\ last_seen_at r' = Some 1000
        /\ phone_number r' = Some "5559876543"
        /\ session_id r' = "s1"
        /\ organization_id r' = "org1"
        /\ qr_code r' = None
        /\ auth_state r' = Some "{}"
        /\ reconnect_attempts r' = 0).
Proof.
  split; [reflexivity|]. split; [reflexivity|]. split.
  - exact (proj1 (C7_updateSessionStatus_phone_number "s1" disconnected None
                    (Some "Logged out") pool1 row_s1 eq_refl eq_refl)).
  - exact (proj1 (C7_updateSessionStatus_phone_number "s1" connected
                    (Some "5559876543") None pool1 row_s1 eq_refl eq_refl)).
Defined.

Lemma C5_failed_send_requeue_or_drop_witness :
  queue_of "s1" (queue_with [item_worn; item_b] ∅) = [item_worn; item_b]
  /\ send_outcome item_worn (send_result (turn_fail 0))
     = Throw "Session s1 not connected"
  /\ queue_of "s1"
       (snd (loop_body "s1" (turn_fail 0) (queue_with [item_worn; item_b] ∅)))
     = [item_b]
  /\ queue_of "s1"
       (snd (loop_body "s1" (turn_fail 0) (queue_with [item_a; item_b] ∅)))
     = [item_b; bump item_a].
Proof.
  split; [reflexivity|]. split; [reflexivity|]. split.
  - exact (proj1 (proj2
      (C5_failed_send_requeue_or_drop "s1" (turn_fail 0)
         (queue_with [item_worn; item_b] ∅) item_worn [item_b]
         "Session s1 not connected" eq_refl eq_refl eq_refl))).
  - exact (proj1 (proj2
      (C5_failed_send_requeue_or_drop "s1" (turn_fail 0)
         (queue_with [item_a; item_b] ∅) item_a [item_b]
         "Session s1 not connected" eq_refl eq_refl eq_refl))).
Defined.

Lemma C6_fixed_window_throttle_witness :
  stats full !! "s1" = Some (mkStats 20 0)
  /\ queue_of "s1" full = [item_a]
  /\ shouldThrottle "s1" 57000 full = (Normal true, full)
  /\ effects (snd (loop_body "s1" (turn_ok 57000) full))
     = [Log (RateLimitReached "s1"); Delay 60000]
  /\ shouldThrottle "s1" 60001 full
     = (Normal false, set_stats "s1" (mkStats 0 60001) full).
Proof.
  split; [reflexivity|]. split; [reflexivity|]. split; [|split].
  - exact (proj1 (C6_fixed_window_throttle "s1" (turn_ok 57000) full
                    (mkStats 20 0) item_a [] eq_refl eq_refl)).
  - exact (f_equal (fun r => effects (snd r))
             (proj1 (proj2
                (C6_fixed_window_throttle "s1" (turn_ok 57000) full
                   (mkStats 20 0) item_a [] eq_refl eq_refl)))).
  - exact (C6_fixed_window_throttle "s1" (turn_ok 60001) full
             (mkStats 20 0) item_a [] eq_refl eq_refl).
Defined.

(** C6, as stated, fails.  Twenty sends between 59000 and 60001 ms leave
    the counter at 10, because the window of the counter began anew at
    60001; the 21st send of that minute, queued at 64001, goes out without a
    wait.  And the budget does not come back evenly: a full counter whose
    window began at 0 still reports exhaustion at 3000 and at 60000, where
    the bucket of the spec has had a token since 3000, and at 60001 all
    twenty are back at once. *)
Lemma C6_counterexample :
  length twenty_in_a_second = 22%nat
  /\ stats after_twenty !! "s1" = Some (mkStats 10 60001)
  /\ fst (shouldThrottle "s1" 64001 after_twenty) = Normal false
  /\ since (length (effects after_twenty))
       (run "s1" [Enqueue item_b; Worker (turn_ok 64001)] after_twenty)
     = [Log (MessageQueued "msg_b"); Attempt "s1" item_b;
        Log (MessageSent "msg_b"); Delay 3000]
  /\ ~ In (Delay 60000)
       (effects (run "s1" [Enqueue item_b; Worker (turn_ok 64001)] after_twenty))
  /\ fst (shouldThrottle "s1" 3000 full) = Normal true
  /\ spec_bucket_exhausted 0 3000 = false
  /\ fst (shouldThrottle "s1" 60000 full) = Normal true
  /\ counter "s1" (snd (shouldThrottle "s1" 60001 full)) = 0.
Proof.
  vm_compute. repeat split; try reflexivity.
  intros H. repeat (destruct H as [H|H]; [discriminate H|]). exact H.
Qed.

Lemma C10_every_send_counts_witness :
  queue_of "s1" busy = [item_a]
  /\ fst (shouldThrottle "s1" 1000 busy) = Normal false
  /\ send_outcome item_a (send_result (turn_ok 1000)) = Normal tt
  /\ counter "s1" (snd (sendImmediate "s1" "15550001@s.whatsapp.net" "hi"
                          (Normal tt) 500 busy)) = 16
  /\ counter "s1" (snd (loop_body "s1" (turn_ok 1000) busy)) = 16
  /\ fst (shouldThrottle "s1" 1000
            (run "s1"
               (repeat (Immediate "15550001@s.whatsapp.net" "hi" (Normal tt)
                          500) 5) busy))
     = Normal true.
Proof.
  split; [reflexivity|]. split; [reflexivity|].
  split; [reflexivity|].
  pose proof (C10_every_send_counts "s1" "15550001@s.whatsapp.net" "hi" 500
                (turn_ok 1000) busy item_a [] eq_refl eq_refl eq_refl)
    as (H1 & H2 & H3).
  split; [exact H1|]. split; [exact H2|].
  exact (proj2 (H3 (mkStats 15 0) 5%nat 1000 eq_refl
                  ltac:(vm_compute; discriminate))).
Defined.

End WorkedExamples.

(** ** Strings: patterns, blanks and prefixes *)

Section StringFacts.
Import GHLWebhookService.

Lemma startsWith_refl p b : startsWith p (p ++ b) = true.
Proof.
  induction p as [|a p IH]; simpl; [reflexivity|].
  rewrite N.eqb_refl. exact IH.
Qed.

Lemma includes_app_r p a b : includes p b = true -> includes p (a ++ b) = true.
Proof.
  intros H. induction a as [|c a IH]; simpl; [exact H|].
  rewrite IH. apply orb_true_r.
Qed.

Lemma includes_middle p a b : includes p (a ++ p ++ b) = true.
Proof.
  apply includes_app_r. destruct (p ++ b) eqn:E; simpl;
    rewrite <- E, startsWith_refl; reflexivity.
Qed.

(** A pattern that begins with a code unit the string does not have does
    not occur in it. *)
Lemma includes_absent_head c p s :
  Forall (fun x => x <> c) s -> includes (c :: p) s = false.
Proof.
  induction 1 as [|x s Hx Hs IH]; simpl; [reflexivity|].
  rewrite IH. destruct (N.eqb_spec c x); [congruence|reflexivity].
Qed.

Lemma filter_fixed {A} (f : A -> bool) (l : list A) :
  Forall (fun x => f x = true) l -> List.filter f l = l.
Proof.
  induction 1 as [|x l Hx Hl IH]; simpl; [reflexivity|].
  rewrite Hx, IH. reflexivity.
Qed.

Lemma filter_Forall {A} (f : A -> bool) (l : list A) :
  Forall (fun x => f x = true) (List.filter f l).
Proof.
  induction l as [|x l IH]; simpl; [constructor|].
  destruct (f x) eqn:Hf; [constructor; assumption|assumption].
Qed.

End StringFacts.

(** ** Phone numbers: validation and normalisation *)

Section PhoneFacts.
Import GHLWebhookService Security.

Lemma Forall_unfilter {A} (P : A -> Prop) (f : A -> bool) (l : list A) :
  Forall P (List.filter f l) -> (forall x, f x = false -> P x) -> Forall P l.
Proof.
  intros H Hf. induction l as [|x l IH]; [constructor|].
  simpl in H. destruct (f x) eqn:E.
  - inversion H; subst. constructor; auto.
  - constructor; auto.
Qed.

Lemma filter_filter_sub {A} (f g : A -> bool) (l : list A) :
  (forall x, f x = true -> g x = true) ->
  List.filter f (List.filter g l) = List.filter f l.
Proof.
  intros H. induction l as [|x l IH]; simpl; [reflexivity|].
  destruct (g x) eqn:Hg; simpl.
  - rewrite IH. reflexivity.
  - destruct (f x) eqn:Hf; [apply H in Hf; congruence|exact IH].
Qed.

Lemma digit_facts c :
  is_digit c = true -> c <> 64%N /\ c <> 43%N /\ space_or_hyphen c = false.
Proof.
  unfold is_digit. intros H. apply andb_true_iff in H. destruct H as [H1 H2].
  apply N.leb_le in H1. apply N.leb_le in H2.
  repeat split; try lia.
  unfold space_or_hyphen, is_space.
  repeat match goal with
  | |- context [N.leb ?a ?b] => destruct (N.leb_spec a b); try lia
  | |- context [N.eqb ?a ?b] => destruct (N.eqb_spec a b); try lia
  end; reflexivity.
Qed.

Lemma is_1_9_digit c : is_1_9 c = true -> is_digit c = true.
Proof.
  unfold is_1_9, is_digit. intros H. apply andb_true_iff in H.
  destruct H as [H1 H2]. apply N.leb_le in H1. rewrite H2, andb_true_r.
  apply N.leb_le. lia.
Qed.

Lemma space_or_hyphen_not_at c : space_or_hyphen c = true -> c <> 64%N.
Proof. intros H ->. discriminate H. Qed.

(** What the pattern for phone numbers accepts. *)
Lemma phoneRegex_shape s :
  phoneRegex s = true ->
  exists c ds,
    (s = c :: ds \/ s = 43%N :: c :: ds)
    /\ is_1_9 c = true /\ forallb is_digit ds = true
    /\ (1 <= length ds <= 14)%nat.
Proof.
  unfold phoneRegex. destruct s as [|h r]; [discriminate|].
  assert (Hbody : forall c ds,
             is_1_9 c && forallb is_digit ds && (1 <=? length ds)%nat
             && (length ds <=? 14)%nat = true ->
             is_1_9 c = true /\ forallb is_digit ds = true
             /\ (1 <= length ds <= 14)%nat).
  { intros c ds H.
    apply andb_true_iff in H. destruct H as [H H4].
    apply andb_true_iff in H. destruct H as [H H3].
    apply andb_true_iff in H. destruct H as [H1 H2].
    apply Nat.leb_le in H3. apply Nat.leb_le in H4. auto. }
  destruct (h =? 43)%N eqn:E.
  - apply N.eqb_eq in E. subst h. destruct r as [|c ds]; [discriminate|].
    intros H. exists c, ds. split; [right; reflexivity|]. exact (Hbody c ds H).
  - intros H. exists h, r. split; [left; reflexivity|]. exact (Hbody h r H).
Qed.

(** Normalising a string without an at sign. *)
Lemma norm_without_at p :
  p <> [] -> Forall (fun x => x <> 64%N) p ->
  norm p = if startsWith plus (strip p) then strip p else plus ++ strip p.
Proof.
  intros Hne Hat. unfold norm, formatPhoneNumber.
  destruct p as [|c p']; [congruence|].
  rewrite (replace_first_absent at_whatsapp)
    by exact (includes_absent_head 64%N (lit "s.whatsapp.net") _ Hat).
  rewrite (replace_first_absent at_c_us)
    by exact (includes_absent_head 64%N (lit "c.us") _ Hat).
  destruct (startsWith plus (strip (c :: p'))); reflexivity.
Qed.

(** A string made of a plus and digits is its own normal form. *)
Lemma norm_e164 c ds :
  is_1_9 c = true -> forallb is_digit ds = true ->
  let y := 43%N :: c :: ds in
  strip y = y /\ norm y = y /\ Forall (fun x => x <> 64%N) y.
Proof.
  intros Hc Hds y.
  assert (Hall : Forall (fun x => is_digit x = true) (c :: ds)).
  { constructor; [apply is_1_9_digit, Hc|]. apply Forall_forall.
    intros x Hx. rewrite forallb_forall in Hds. apply Hds.
    apply list_elem_of_In. exact Hx. }
  assert (Hstrip : strip y = y).
  { unfold strip. apply filter_fixed. constructor; [reflexivity|].
    eapply Forall_impl; [exact Hall|]. intros x Hx. simpl in Hx.
    destruct (digit_facts x Hx) as (_ & _ & ->). reflexivity. }
  assert (Hat : Forall (fun x => x <> 64%N) y).
  { constructor; [discriminate|]. eapply Forall_impl; [exact Hall|].
    intros x Hx. exact (proj1 (digit_facts x Hx)). }
  split; [exact Hstrip|]. split; [|exact Hat].
  rewrite norm_without_at by (try exact Hat; discriminate).
  rewrite Hstrip. reflexivity.
Qed.

(** X1. A phone number that [validatePhoneNumber] accepts is normalised by
    [formatPhoneNumber] to a plus sign followed by its digits, between 2 and
    15 of them; the result is accepted again and is its own normal form. *)
Theorem X1_validated_phone_normal_form (p : jsstring) :
  validatePhoneNumber (Some p) = true ->
  norm p = plus ++ List.filter is_digit p
  /\ (2 <= length (List.filter is_digit p) <= 15)%nat
  /\ validatePhoneNumber (Some (norm p)) = true
  /\ norm (norm p) = norm p.
Proof.
  intros Hv.
  assert (Hne : p <> []) by (intros ->; discriminate Hv).
  assert (Hre : phoneRegex (strip p) = true).
  { destruct p; [congruence|exact Hv]. }
  destruct (phoneRegex_shape _ Hre) as (c & ds & Hs & Hc & Hds & Hlen).
  destruct (norm_e164 c ds Hc Hds) as (Hstrip & Hnorm & Hat).
  assert (Hp : Forall (fun x => x <> 64%N) p).
  { apply (Forall_unfilter _ (fun x => negb (space_or_hyphen x))).
    - fold (strip p). destruct Hs as [-> | ->]; [|exact Hat].
      inversion Hat; assumption.
    - intros x Hx. apply space_or_hyphen_not_at.
      destruct (space_or_hyphen x); [reflexivity|discriminate]. }
  assert (Hy : norm p = 43%N :: c :: ds).
  { rewrite (norm_without_at p Hne Hp).
    destruct Hs as [-> | ->]; [|reflexivity].
    assert (Hc43 : startsWith plus (c :: ds) = false).
    { change (startsWith plus (c :: ds)) with ((43 =? c)%N && true).
      rewrite andb_true_r. apply N.eqb_neq. intros <-. discriminate Hc. }
    rewrite Hc43. reflexivity. }
  assert (Hdig : List.filter is_digit p = c :: ds).
  { rewrite <- (filter_filter_sub is_digit
                  (fun x => negb (space_or_hyphen x)) p).
    - fold (strip p).
      assert (Hcd : List.filter is_digit (c :: ds) = c :: ds).
      { apply filter_fixed. constructor; [apply is_1_9_digit, Hc|].
        apply Forall_forall. intros x Hx. rewrite forallb_forall in Hds.
        apply Hds. apply list_elem_of_In. exact Hx. }
      destruct Hs as [-> | ->]; [exact Hcd|].
      change (List.filter is_digit (43%N :: c :: ds))
        with (List.filter is_digit (c :: ds)). exact Hcd.
    - intros x Hx. destruct (digit_facts x Hx) as (_ & _ & ->). reflexivity. }
  rewrite Hdig, Hy. split; [reflexivity|]. split; [simpl; lia|].
  split; [|exact Hnorm].
  unfold validatePhoneNumber. rewrite Hstrip.
  change (phoneRegex (43%N :: c :: ds))
    with (is_1_9 c && forallb is_digit ds && (1 <=? length ds)%nat
          && (length ds <=? 14)%nat).
  destruct Hlen as [H1 H2]. apply Nat.leb_le in H1. apply Nat.leb_le in H2.
  rewrite Hc, Hds, H1, H2. reflexivity.
Qed.

End PhoneFacts.

(** ** Addresses *)

Section JidFacts.
Import GHLWebhookService Security Jid.

Lemma bare_facts p :
  bare p = true ->
  Forall (fun x => x <> 64%N) p /\ strip p = p.
Proof.
  unfold bare. intros H. rewrite forallb_forall in H. split.
  - apply Forall_forall. intros x Hx. apply list_elem_of_In in Hx.
    specialize (H x Hx). apply andb_true_iff in H. destruct H as [H _].
    apply negb_true_iff, N.eqb_neq in H. exact H.
  - apply filter_fixed. apply Forall_forall. intros x Hx.
    apply list_elem_of_In in Hx. specialize (H x Hx).
    apply andb_true_iff in H. tauto.
Qed.

Lemma includes_skip c q p r :
  Forall (fun x => x <> c) p ->
  includes (c :: q) (p ++ r) = includes (c :: q) r.
Proof.
  induction 1 as [|x p Hx Hp IH]; [reflexivity|].
  change (includes (c :: q) ((x :: p) ++ r))
    with ((c =? x)%N && startsWith q (p ++ r) || includes (c :: q) (p ++ r)).
  rewrite IH. destruct (N.eqb_spec c x); [congruence|reflexivity].
Qed.

Lemma replace_first_suffix c q p :
  Forall (fun x => x <> c) p ->
  replace_first (c :: q) (p ++ c :: q) = p.
Proof.
  induction 1 as [|x p Hx Hp IH].
  - change ([] ++ c :: q) with (c :: q).
    assert (Hs : startsWith (c :: q) (c :: q) = true).
    { rewrite <- (app_nil_r (c :: q)) at 2. apply startsWith_refl. }
    unfold replace_first. rewrite Hs. apply drop_all.
  - change (replace_first (c :: q) ((x :: p) ++ c :: q))
      with (if (c =? x)%N && startsWith q (p ++ c :: q)
            then drop (length (c :: q)) (x :: p ++ c :: q)
            else x :: replace_first (c :: q) (p ++ c :: q)).
    destruct (N.eqb_spec c x); [congruence|]. simpl. rewrite IH. reflexivity.
Qed.

(** X2. From a bare number to the address and back: [toJid] puts
    ["@s.whatsapp.net"] behind a number without an at sign, and
    [formatPhoneNumber] takes it, or ["@c.us"], off again and gives the
    number with a plus in front. *)
Theorem X2_jid_round_trip (p : jsstring) :
  bare p = true ->
  toJid p = p ++ at_whatsapp
  /\ norm (toJid p) = (if startsWith plus p then p else plus ++ p)
  /\ norm (p ++ at_c_us) = (if startsWith plus p then p else plus ++ p).
Proof.
  intros Hb. destruct (bare_facts p Hb) as [Hat Hstrip].
  assert (Hto : toJid p = p ++ at_whatsapp).
  { unfold toJid.
    rewrite (includes_absent_head 64%N [] p Hat : includes at_sign p = false).
    reflexivity. }
  assert (Hcus : replace_first at_c_us p = p).
  { apply replace_first_absent.
    exact (includes_absent_head 64%N (lit "c.us") p Hat). }
  split; [exact Hto|]. rewrite Hto. split.
  - unfold norm, formatPhoneNumber.
    destruct (p ++ at_whatsapp) as [|c0 l0] eqn:E.
    { destruct p; discriminate E. }
    rewrite <- E.
    rewrite (replace_first_suffix 64%N (lit "s.whatsapp.net") p Hat
             : replace_first at_whatsapp (p ++ at_whatsapp) = p).
    rewrite Hcus, Hstrip. destruct (startsWith plus p); reflexivity.
  - unfold norm, formatPhoneNumber.
    destruct (p ++ at_c_us) as [|c0 l0] eqn:E.
    { destruct p; discriminate E. }
    rewrite <- E.
    rewrite (replace_first_absent at_whatsapp (p ++ at_c_us)).
    + rewrite (replace_first_suffix 64%N (lit "c.us") p Hat
               : replace_first at_c_us (p ++ at_c_us) = p).
      rewrite Hstrip. destruct (startsWith plus p); reflexivity.
    + change at_whatsapp with (64%N :: lit "s.whatsapp.net").
      rewrite includes_skip by exact Hat. reflexivity.
Qed.

(** X3. [toJid] leaves an address with an at sign alone, so that applying
    it twice is applying it once, and what it gives always has an at
    sign. *)
Theorem X3_toJid_idempotent (p : jsstring) :
  toJid (toJid p) = toJid p /\ includes at_sign (toJid p) = true.
Proof.
  assert (H : includes at_sign (toJid p) = true).
  { unfold toJid. destruct (includes at_sign p) eqn:E; [exact E|].
    apply includes_app_r. reflexivity. }
  split; [|exact H]. unfold toJid at 1. rewrite H. reflexivity.
Qed.

(** X4. What [formatPhoneNumber] returns has no blank and no hyphen, and
    starts with a plus unless it is empty, which it is only for a missing or
    empty number. *)
Theorem X4_formatPhoneNumber_shape (phoneNumber : option jsstring) :
  Forall (fun c => space_or_hyphen c = false) (formatPhoneNumber phoneNumber)
  /\ (formatPhoneNumber phoneNumber = []
      \/ head (formatPhoneNumber phoneNumber) = Some 43%N)
  /\ (formatPhoneNumber phoneNumber = []
      <-> phoneNumber = None \/ phoneNumber = Some []).
Proof.
  destruct phoneNumber as [x|].
  2:{ split; [constructor|]. split; [left; reflexivity|]. tauto. }
  destruct (norm_shape x) as [Hstrip Hplus].
  change (formatPhoneNumber (Some x)) with (norm x).
  split; [|split].
  - rewrite <- Hstrip. unfold strip.
    eapply Forall_impl; [apply filter_Forall|]. intros c Hc. simpl in Hc.
    apply negb_true_iff in Hc. exact Hc.
  - destruct Hplus as [H|H]; [left; exact H|right].
    destruct (norm x) as [|c y]; [discriminate|].
    change (startsWith plus (c :: y)) with ((43 =? c)%N && true) in H.
    apply andb_true_iff in H. destruct H as [H _].
    apply N.eqb_eq in H. subst c. reflexivity.
  - split.
    + intros Hnil. right. destruct x as [|c x']; [reflexivity|].
      exfalso. revert Hnil. unfold norm, formatPhoneNumber.
      set (cleaned := strip (replace_first at_c_us
                               (replace_first at_whatsapp (c :: x')))).
      destruct (startsWith plus cleaned) eqn:Hs; simpl.
      * intros E. rewrite E in Hs. discriminate Hs.
      * discriminate.
    + intros [H|H]; [discriminate|]. injection H as ->. reflexivity.
Qed.

End JidFacts.

(** ** Sanitising and validating input *)

Section SanitizeFacts.
Import GHLWebhookService Security.

Lemma replace_all_ci_Forall (P : N -> Prop) p s : forall k,
  Forall P s -> Forall P (replace_all_ci p k s).
Proof.
  induction s as [|c s IH]; intros k H; simpl; [constructor|].
  inversion H; subst.
  destruct k; [destruct (match_ci p (c :: s))|]; try constructor; auto.
Qed.

Lemma trim_start_Forall (P : N -> Prop) s :
  Forall P s -> Forall P (trim_start s).
Proof.
  induction 1 as [|c s Hc Hs IH]; simpl; [constructor|].
  destruct (is_space c); [exact IH|constructor; assumption].
Qed.

Lemma trim_Forall (P : N -> Prop) s : Forall P s -> Forall P (trim s).
Proof.
  intros H. unfold trim. apply Forall_rev, trim_start_Forall, Forall_rev,
    trim_start_Forall, H.
Qed.

Lemma trim_start_head s :
  match trim_start s with
  | c :: _ => is_space c = false
  | [] => True
  end.
Proof.
  induction s as [|c s IH]; simpl; [exact I|].
  destruct (is_space c) eqn:E; [exact IH|exact E].
Qed.

Lemma trim_start_fixed c s : is_space c = false -> trim_start (c :: s) = c :: s.
Proof. intros H. simpl. rewrite H. reflexivity. Qed.

(** Blanks in front of a string that does not begin with one. *)
Lemma trim_start_app l c r :
  is_space c = false -> trim_start (l ++ c :: r) = trim_start l ++ c :: r.
Proof.
  intros H. induction l as [|x l IH]; simpl.
  - rewrite H. reflexivity.
  - destruct (is_space x); [exact IH|reflexivity].
Qed.

(** A trimmed string neither begins nor ends with a blank. *)
Lemma trim_ends s :
  match trim s with
  | c :: _ => is_space c = false
  | [] => True
  end
  /\ match rev (trim s) with
     | c :: _ => is_space c = false
     | [] => True
     end.
Proof.
  unfold trim. rewrite rev_involutive. split; [|apply trim_start_head].
  pose proof (trim_start_head s) as Hh.
  destruct (trim_start s) as [|h t]; [exact I|].
  change (rev (h :: t)) with (rev t ++ [h]).
  rewrite (trim_start_app (rev t) h [] Hh), rev_app_distr. exact Hh.
Qed.

Lemma trim_fixed s :
  Forall (fun c => is_space c = false) s -> trim s = s.
Proof.
  intros H. unfold trim.
  assert (Hs : forall l, Forall (fun c => is_space c = false) l ->
                         trim_start l = l).
  { intros l Hl. destruct Hl; [reflexivity|]. apply trim_start_fixed.
    assumption. }
  rewrite (Hs s H), (Hs (rev s)) by (apply Forall_rev; exact H).
  apply rev_involutive.
Qed.

(** A match of a pattern under [i] needs every code unit of the pattern, in
    one of its cases, in the string. *)
Lemma match_ci_needs p : forall s a,
  match_ci p s = true -> In a p -> exists b, In b s /\ a = lower b.
Proof.
  induction p as [|x p IH]; intros s a Hm Ha; [destruct Ha|].
  destruct s as [|y s]; [discriminate|]. simpl in Hm.
  apply andb_true_iff in Hm. destruct Hm as [Hx Hm].
  destruct Ha as [<-|Ha].
  - exists y. split; [left; reflexivity|]. apply N.eqb_eq. exact Hx.
  - destruct (IH s a Hm Ha) as (b & Hb & E). exists b. split; [right|]; auto.
Qed.

Lemma replace_all_ci_fixed p a s :
  In a p -> Forall (fun b => lower b <> a) s -> replace_all_ci p 0 s = s.
Proof.
  intros Ha H. induction H as [|c s Hc Hs IH]; simpl; [reflexivity|].
  destruct (match_ci p (c :: s)) eqn:Hm.
  - exfalso. destruct (match_ci_needs p (c :: s) a Hm Ha) as (b & Hb & E).
    assert (HF : Forall (fun b => lower b <> a) (c :: s))
      by (constructor; assumption).
    rewrite Forall_forall in HF. apply (HF b); [|congruence].
    apply list_elem_of_In. exact Hb.
  - rewrite IH. reflexivity.
Qed.

(** What a code unit of a session id is not. *)
Lemma session_char_facts c :
  is_session_char c = true ->
  is_space c = false /\ lower c <> 58%N /\ c <> 60%N /\ c <> 62%N.
Proof.
  unfold is_session_char, is_space, lower. intros H.
  repeat match type of H with
  | context [N.leb ?a ?b] => destruct (N.leb_spec a b); simpl in H
  | context [N.eqb ?a ?b] => destruct (N.eqb_spec a b); simpl in H
  end; try discriminate H;
  repeat match goal with
  | |- context [N.leb ?a ?b] => destruct (N.leb_spec a b); try lia
  | |- context [N.eqb ?a ?b] => destruct (N.eqb_spec a b); try lia
  end; simpl; repeat split; try reflexivity; lia.
Qed.

(** X5. What [sanitizeInput] returns has no angle bracket and neither
    begins nor ends with a blank. *)
Theorem X5_sanitizeInput_output (input : jsstring) :
  Forall (fun c => c <> 60%N /\ c <> 62%N) (sanitizeInput input)
  /\ match sanitizeInput input with
     | c :: _ => is_space c = false
     | [] => True
     end
  /\ match rev (sanitizeInput input) with
     | c :: _ => is_space c = false
     | [] => True
     end.
Proof.
  unfold sanitizeInput. split; [|apply trim_ends].
  apply trim_Forall, replace_all_ci_Forall. unfold remove_angle.
  eapply Forall_impl; [apply filter_Forall|]. intros c Hc. simpl in Hc.
  apply negb_true_iff, orb_false_iff in Hc. destruct Hc as [H1 H2].
  apply N.eqb_neq in H1. apply N.eqb_neq in H2. auto.
Qed.

(** X6. [sanitizeInput] does not keep ["javascript:"] out of what it
    returns: the pattern is taken out in one pass, and whatever follows
    ["javajavascript:script:"] in the input, the output begins with
    ["javascript:"]. *)
Theorem X6_sanitizeInput_javascript_survives (rest : jsstring) :
  startsWith javascript_colon
    (sanitizeInput (lit "javajavascript:script:" ++ rest)) = true
  /\ sanitizeInput (lit "javajavascript:script:" ++ rest)
     = javascript_colon
         ++ rev (trim_start
                   (rev (replace_all_ci javascript_colon 0
                           (remove_angle rest)))).
Proof.
  assert (E : sanitizeInput (lit "javajavascript:script:" ++ rest)
              = javascript_colon
                  ++ rev (trim_start
                            (rev (replace_all_ci javascript_colon 0
                                    (remove_angle rest))))).
  { unfold sanitizeInput, remove_angle.
    rewrite List.filter_app.
    set (y := List.filter _ rest).
    change (replace_all_ci javascript_colon 0
              (List.filter (fun c => negb ((c =? 60) || (c =? 62))%N)
                 (lit "javajavascript:script:") ++ y))
      with (javascript_colon ++ replace_all_ci javascript_colon 0 y).
    set (z := replace_all_ci javascript_colon 0 y).
    unfold trim.
    change (trim_start (javascript_colon ++ z)) with (javascript_colon ++ z).
    rewrite rev_app_distr.
    change (rev javascript_colon) with (58%N :: lit "tpircsavaj").
    rewrite trim_start_app by reflexivity.
    rewrite rev_app_distr. reflexivity. }
  split; [|exact E]. rewrite E. apply startsWith_refl.
Qed.

(** X7. A session id that [validateSessionId] accepts has between 1 and 100
    code units, all of them letters, digits, underscores or hyphens, and
    [sanitizeInput] returns it as it is. *)
Theorem X7_valid_session_id_is_clean (s : jsstring) :
  validateSessionId (Some s) = true ->
  (1 <= length s <= 100)%nat
  /\ Forall (fun c => is_session_char c = true) s
  /\ sanitizeInput s = s.
Proof.
  intros Hv. destruct s as [|c s']; [discriminate|].
  unfold validateSessionId in Hv. apply andb_true_iff in Hv.
  destruct Hv as [Hall Hlen]. apply Nat.leb_le in Hlen.
  assert (HF : Forall (fun c => is_session_char c = true) (c :: s')).
  { apply Forall_forall. intros x Hx. rewrite forallb_forall in Hall.
    apply Hall, list_elem_of_In, Hx. }
  split; [simpl in *; lia|]. split; [exact HF|].
  unfold sanitizeInput.
  assert (H1 : remove_angle (c :: s') = c :: s').
  { apply filter_fixed. eapply Forall_impl; [exact HF|]. intros x Hx.
    simpl in Hx. destruct (session_char_facts x Hx) as (_ & _ & H60 & H62).
    apply negb_true_iff, orb_false_iff. split; apply N.eqb_neq; assumption. }
  rewrite H1.
  rewrite (replace_all_ci_fixed javascript_colon 58%N).
  - apply trim_fixed. eapply Forall_impl; [exact HF|]. intros x Hx.
    exact (proj1 (session_char_facts x Hx)).
  - unfold javascript_colon. simpl. tauto.
  - eapply Forall_impl; [exact HF|]. intros x Hx.
    exact (proj1 (proj2 (session_char_facts x Hx))).
Qed.

(** X8. The check of the origin lets every origin through that has
    ["lovable.app"] anywhere in it, whatever stands before and behind, and
    whatever [FRONTEND_URL] is. *)
Theorem X8_cors_substring (frontend : option jsstring) (before behind : jsstring) :
  cors_allows frontend (Some (before ++ lit "lovable.app" ++ behind)) = true.
Proof.
  unfold cors_allows.
  destruct (before ++ lit "lovable.app" ++ behind) as [|c o] eqn:E;
    [reflexivity|].
  rewrite <- E, includes_middle. apply orb_true_r.
Qed.

End SanitizeFacts.

(** ** SessionPersistence: what is stored and what is restored *)

Section RestoreFacts.
Import Db.

Lemma filter_update_where sessionId other f rows :
  (forall r, session_id (f r) = session_id r) ->
  List.filter (fun r => bool_decide (session_id r = other))
    (update_where sessionId f rows)
  = map (fun r => if decide (session_id r = sessionId) then f r else r)
      (List.filter (fun r => bool_decide (session_id r = other)) rows).
Proof.
  intros Hid. induction rows as [|r rows IH]; simpl; [reflexivity|].
  destruct (decide (session_id r = sessionId)) as [E|E].
  - rewrite Hid. destruct (bool_decide (session_id r = other)); simpl;
      rewrite IH; [|reflexivity]. destruct (decide _); [reflexivity|tauto].
  - destruct (bool_decide (session_id r = other)); simpl; rewrite IH;
      [|reflexivity]. destruct (decide _); [tauto|reflexivity].
Qed.

Lemma find_filter_head sessionId rows :
  List.find (fun r => bool_decide (session_id r = sessionId)) rows
  = head (List.filter (fun r => bool_decide (session_id r = sessionId)) rows).
Proof.
  induction rows as [|r rows IH]; simpl; [reflexivity|].
  destruct (bool_decide (session_id r = sessionId)); [reflexivity|exact IH].
Qed.


(** What [loadAuthState] answers when its query is executed. *)
Lemma loadAuthState_executed sessionId p :
  executes p = true ->
  SessionPersistence.loadAuthState sessionId p
  = (Normal (find_session sessionId p ≫= auth_state),
     mkPool (tables p) (now p) (tail (outcomes p))).
Proof.
  intros H. unfold SessionPersistence.loadAuthState, try_catch, bind.
  rewrite query_executes by assumption. simpl.
  unfold find_session. rewrite find_filter_head.
  destruct (List.filter _ _) as [|r l]; simpl; [reflexivity|].
  destruct (auth_state r); reflexivity.
Qed.

Lemma saveAuthState_executed sessionId blob p :
  executes p = true ->
  SessionPersistence.saveAuthState sessionId blob p
  = (Normal tt,
     mkPool
       (on_sessions (update_where sessionId (set_auth_state blob (now p)))
          (tables p))
       (now p) (tail (outcomes p))).
Proof.
  intros H. unfold SessionPersistence.saveAuthState, try_catch.
  rewrite query_executes by assumption. reflexivity.
Qed.

Lemma getActiveSessions_executed p :
  executes p = true ->
  SessionPersistence.getActiveSessions p
  = (Normal (List.filter is_active (whatsapp_sessions (tables p))),
     mkPool (tables p) (now p) (tail (outcomes p))).
Proof.
  intros H. unfold SessionPersistence.getActiveSessions, try_catch.
  rewrite query_executes by assumption. reflexivity.
Qed.


Lemma active_after_update sessionId f rows x :
  (forall r, session_id (f r) = session_id r) ->
  In x (map session_id (List.filter is_active (update_where sessionId f rows)))
  <-> exists r, In r rows /\ session_id r = x
                /\ is_active (if decide (x = sessionId) then f r else r) = true.
Proof.
  intros Hid. rewrite in_map_iff. unfold update_where. split.
  - intros (r' & Hx & Hin). apply filter_In in Hin. destruct Hin as [Hin Hact].
    apply in_map_iff in Hin. destruct Hin as (r & Hr & Hin).
    exists r. split; [exact Hin|]. subst r' x.
    destruct (decide (session_id r = sessionId)) as [E|E].
    + rewrite Hid, decide_True by (rewrite ?Hid; exact E). auto.
    + rewrite decide_False by exact E. auto.
  - intros (r & Hin & Hx & Hact). subst x.
    exists (if decide (session_id r = sessionId) then f r else r). split.
    + destruct (decide _); [apply Hid|reflexivity].
    + apply filter_In. split; [|exact Hact].
      apply in_map_iff. exists r. split; [reflexivity|exact Hin].
Qed.

(** X10. After [updateSessionStatus] the session is among those that
    [getActiveSessions] returns exactly when the new status is [connected]
    or [connecting] and its row has an auth state; whether another session
    is returned does not change. *)
Theorem X10_restorable_after_status
    (sessionId : string) (st : Status) (phoneNumber errorMessage : option string)
    (p : Pool) :
  healthy p = true ->
  let p1 := snd (SessionPersistence.updateSessionStatus sessionId st
                   phoneNumber errorMessage p) in
  exists rows,
    fst (SessionPersistence.getActiveSessions p1) = Normal rows
    /\ (In sessionId (map session_id rows)
        <-> (st = connected \/ st = connecting)
            /\ exists r, In r (whatsapp_sessions (tables p))
                         /\ session_id r = sessionId
                         /\ is_Some (auth_state r))
    /\ forall other, other <> sessionId ->
         (In other (map session_id rows)
          <-> In other
                (map session_id
                   (List.filter is_active (whatsapp_sessions (tables p))))).
Proof.
  intros Hh p1. subst p1.
  rewrite updateSessionStatus_executed by (apply healthy_executes, Hh).
  cbn [snd].
  rewrite getActiveSessions_executed
    by (apply healthy_executes, healthy_tail, Hh).
  eexists. split; [reflexivity|]. simpl. split.
  - rewrite active_after_update by reflexivity. split.
    + intros (r & Hin & Hid & Hact). rewrite decide_True in Hact by reflexivity.
      unfold is_active in Hact. simpl in Hact.
      apply andb_true_iff in Hact. destruct Hact as [Hst Hauth].
      apply bool_decide_eq_true in Hauth. split; [|eauto].
      destruct st; simpl in Hst; try discriminate; auto.
    + intros (Hst & r & Hin & Hid & Hauth). exists r.
      split; [exact Hin|]. split; [exact Hid|].
      rewrite decide_True by reflexivity. unfold is_active. simpl.
      rewrite (bool_decide_true _ Hauth), andb_true_r.
      destruct Hst as [-> | ->]; reflexivity.
  - intros other Hne. rewrite active_after_update by reflexivity.
    rewrite in_map_iff. split.
    + intros (r & Hin & Hid & Hact). rewrite decide_False in Hact by exact Hne.
      exists r. split; [exact Hid|]. apply filter_In. auto.
    + intros (r & Hid & Hin). apply filter_In in Hin. destruct Hin as [Hin Hact].
      exists r. rewrite decide_False by exact Hne. auto.
Qed.

Lemma existsb_find sessionId rows :
  existsb (fun r => bool_decide (session_id r = sessionId)) rows
  = bool_decide
      (is_Some
         (List.find (fun r => bool_decide (session_id r = sessionId)) rows)).
Proof.
  induction rows as [|r rows IH]; simpl; [reflexivity|].
  destruct (bool_decide (session_id r = sessionId)); simpl; [|exact IH].
  reflexivity.
Qed.

Lemma find_app_absent sessionId rows (r : SessionRow) :
  List.find (fun r => bool_decide (session_id r = sessionId)) rows = None ->
  forall other,
    List.find (fun r => bool_decide (session_id r = other)) (rows ++ [r])
    = match List.find (fun r => bool_decide (session_id r = other)) rows with
      | Some x => Some x
      | None => if bool_decide (session_id r = other) then Some r else None
      end.
Proof.
  intros _ other. induction rows as [|x rows IH]; simpl; [reflexivity|].
  destruct (bool_decide (session_id x = other)); [reflexivity|exact IH].
Qed.

(** X11. [createSessionRecord] rejects for a session id that has a row and
    leaves the table alone; for a new id it writes a row with status
    [connecting] and returns it, the rows of other sessions staying as they
    were.  The new session is not among those [getActiveSessions] returns,
    and is among them once its auth state has been saved. *)
Theorem X11_created_session_restorable_after_save
    (sessionId organizationId blob : string) (p : Pool) :
  healthy p = true ->
  match find_session sessionId p with
  | Some _ =>
      SessionPersistence.createSessionRecord sessionId organizationId p
      = (Throw "duplicate key value violates unique constraint",
         mkPool (tables p) (now p) (tail (outcomes p)))
  | None =>
      let p1 :=
        snd (SessionPersistence.createSessionRecord sessionId organizationId
               p) in
      let p2 := snd (SessionPersistence.saveAuthState sessionId blob p1) in
      fst (SessionPersistence.createSessionRecord sessionId organizationId p)
      = Normal (new_session sessionId organizationId (now p))
      /\ find_session sessionId p1
         = Some (new_session sessionId organizationId (now p))
      /\ (forall other, other <> sessionId ->
            find_session other p1 = find_session other p)
      /\ exists rows1 rows2,
           fst (SessionPersistence.getActiveSessions p1) = Normal rows1
           /\ ~ In sessionId (map session_id rows1)
           /\ fst (SessionPersistence.getActiveSessions p2) = Normal rows2
           /\ In sessionId (map session_id rows2)
  end.
Proof.
  intros Hh. pose proof (healthy_executes p Hh) as Hex.
  unfold SessionPersistence.createSessionRecord, try_catch, bind.
  rewrite query_executes by assumption.
  unfold insert_session. rewrite existsb_find. fold (find_session sessionId p).
  destruct (find_session sessionId p) as [r|] eqn:Hfind.
  - rewrite bool_decide_true by eauto. reflexivity.
  - rewrite bool_decide_false by (intros [x Hx]; discriminate Hx).
    cbn [fst snd ret].
    set (row := new_session sessionId organizationId (now p)).
    set (p1 := mkPool _ (now p) (tail (outcomes p))).
    assert (Hh1 : healthy p1 = true) by (apply healthy_tail, Hh).
    assert (Hrows : whatsapp_sessions (tables p1)
                    = whatsapp_sessions (tables p) ++ [row]) by reflexivity.
    split; [reflexivity|]. split; [|split].
    + unfold find_session in *. rewrite Hrows.
      rewrite (find_app_absent sessionId _ row Hfind sessionId), Hfind.
      simpl. rewrite bool_decide_true by reflexivity. reflexivity.
    + intros other Hne. unfold find_session in *. rewrite Hrows.
      rewrite (find_app_absent sessionId _ row Hfind other).
      simpl. rewrite bool_decide_false by congruence.
      destruct (List.find (fun r => bool_decide (session_id r = other)) _);
        reflexivity.
    + rewrite saveAuthState_executed by (apply healthy_executes, Hh1).
      cbn [snd].
      rewrite getActiveSessions_executed by (apply healthy_executes, Hh1).
      rewrite getActiveSessions_executed
        by (apply healthy_executes, healthy_tail, Hh1).
      eexists _, _. split; [reflexivity|]. split; [|split; [reflexivity|]].
      * rewrite Hrows, in_map_iff. intros (x & Hid & Hin).
        apply filter_In in Hin. destruct Hin as [Hin Hact].
        apply in_app_or in Hin. destruct Hin as [Hin|[<-|[]]].
        -- unfold find_session in Hfind.
           apply (find_none _ _ Hfind) in Hin.
           rewrite bool_decide_true in Hin by exact Hid. discriminate.
        -- discriminate Hact.
      * simpl. rewrite active_after_update by reflexivity.
        exists row. split; [rewrite ?Hrows; apply in_or_app; right; left;
                            reflexivity|].
        split; [reflexivity|]. rewrite decide_True by reflexivity.
        reflexivity.
Qed.

(** X12. [deleteSession], when its query is executed, takes the row of the
    session away and no other, so that its auth state can no longer be
    loaded; when the query is rejected it returns all the same and the row
    is still there. *)
Theorem X12_deleteSession
    (sessionId : string) (p : Pool)
    (t : Tables) (n : Z) (e : string) (rest : list (option string)) :
  healthy p = true ->
  let p1 := snd (SessionPersistence.deleteSession sessionId p) in
  fst (SessionPersistence.deleteSession sessionId p) = Normal tt
  /\ find_session sessionId p1 = None
  /\ fst (SessionPersistence.loadAuthState sessionId p1) = Normal None
  /\ (forall other, other <> sessionId ->
        find_session other p1 = find_session other p)
  /\ SessionPersistence.deleteSession sessionId (mkPool t n (Some e :: rest))
     = (Normal tt, mkPool t n rest).
Proof.
  intros Hh p1. subst p1. pose proof (healthy_executes p Hh) as Hex.
  unfold SessionPersistence.deleteSession, try_catch.
  rewrite query_executes by assumption. cbn [fst snd].
  set (p1 := mkPool _ (now p) (tail (outcomes p))).
  assert (Hfind : forall other,
             find_session other p1
             = if decide (other = sessionId) then None
               else find_session other p).
  { intros other. unfold find_session. simpl.
    destruct (decide (other = sessionId)) as [E'|E'].
    - subst other.
      induction (whatsapp_sessions (tables p)) as [|r rows IH]; simpl;
        [reflexivity|].
      destruct (bool_decide (session_id r = sessionId)) eqn:E; simpl;
        [exact IH|]. rewrite E. exact IH.
    - induction (whatsapp_sessions (tables p)) as [|r rows IH]; simpl;
        [reflexivity|].
      destruct (bool_decide (session_id r = sessionId)) eqn:E; simpl.
      + apply bool_decide_eq_true in E.
        rewrite bool_decide_false by congruence. exact IH.
      + destruct (bool_decide (session_id r = other)); [reflexivity|].
        exact IH. }
  split; [reflexivity|]. split; [|split; [|split]].
  - rewrite Hfind, decide_True by reflexivity. reflexivity.
  - rewrite loadAuthState_executed
      by (apply healthy_executes, healthy_tail, Hh).
    rewrite Hfind, decide_True by reflexivity. reflexivity.
  - intros other Hne. rewrite Hfind, decide_False by exact Hne. reflexivity.
  - reflexivity.
Qed.

End RestoreFacts.

(** ** The two checks of the account limit *)

Section LimitFacts.
Import Db Auth.

(** X13. [checkAccountLimit] and the guard of the routes agree: for an
    organisation the table has, with the cap the request carries,
    [checkAccountLimit] returns the count of the sessions not in [error] and
    the cap, and says [canAdd: false] exactly when the guard answers 403;
    for an organisation the table does not have it rejects with
    "Organization not found". *)
Theorem X13_limit_checks_agree
    (organizations : list OrgRow) (organization : Organization)
    (currentMonth : string) (p : Pool) :
  executes p = true ->
  match List.find (fun o => bool_decide (org_row_id o = org_id organization))
          organizations with
  | None =>
      fst (SessionPersistence.checkAccountLimit organizations
             (org_id organization) p)
      = Throw "Organization not found"
  | Some o =>
      org_max_accounts o = max_accounts organization ->
      exists r,
        fst (SessionPersistence.checkAccountLimit organizations
               (org_id organization) p) = Normal r
        /\ SessionPersistence.count r
           = Z.of_nat
               (length
                  (List.filter (counts_for (org_id organization))
                     (whatsapp_sessions (tables p))))
        /\ SessionPersistence.limit r = max_accounts organization
        /\ (SessionPersistence.canAdd r = false
            <-> exists body,
                  fst (checkSubscriptionLimits organization currentMonth p)
                  = Normal (Json 403 body))
  end.
Proof.
  intros Hex.
  unfold SessionPersistence.checkAccountLimit, try_catch, bind.
  rewrite query_executes by assumption. unfold select_account_limit.
  cbn [fst snd].
  assert (Hhead : forall (l : list OrgRow),
             List.filter (fun o => bool_decide (org_row_id o = org_id organization)) l
             = match List.find
                       (fun o => bool_decide (org_row_id o = org_id organization)) l with
               | Some o =>
                   o :: tail (List.filter
                                (fun o => bool_decide
                                            (org_row_id o = org_id organization)) l)
               | None => []
               end).
  { induction l as [|x l IH]; simpl; [reflexivity|].
    destruct (bool_decide (org_row_id x = org_id organization));
      [reflexivity|exact IH]. }
  rewrite Hhead.
  destruct (List.find _ organizations) as [o|]; [|reflexivity].
  intros Hmax. simpl. eexists. split; [reflexivity|]. simpl.
  split; [reflexivity|]. split; [exact Hmax|]. rewrite Hmax.
  set (c := Z.of_nat _).
  unfold checkSubscriptionLimits, try_catch, bind.
  rewrite query_executes by assumption. simpl. fold c.
  destruct (Z.leb_spec (max_accounts organization) c) as [Hle|Hgt].
  - split; [eauto|]. intros _. apply Z.ltb_ge. exact Hle.
  - split.
    + intros Hc. apply Z.ltb_ge in Hc. lia.
    + intros [body Hb]. exfalso. revert Hb. unfold query. simpl.
      destruct (tail (outcomes p)) as [|[e|] rest]; simpl;
        try discriminate;
        destruct (List.filter _ (usage_tracking (tables p))) as [|u us];
        simpl; try discriminate;
        destruct (max_messages_per_month organization <=? _); discriminate.
Qed.

End LimitFacts.

(** ** ReconnectionManager: sequences of disconnects and timers *)

Section ControllerFacts.
Import Db ReconnectionManager.

Lemma handleDisconnection_below sessionId s :
  (getAttempts sessionId s < maxAttempts)%nat ->
  handleDisconnection sessionId s
  = (Normal tt,
     mkState (<[sessionId := S (getAttempts sessionId s)]>
                (reconnectionAttempts s))
       (store_after_attempt sessionId (getAttempts sessionId s)
          (persistence s))
       (timers s
          ++ [mkTimer (backoff (getAttempts sessionId s))
                (Reconnect sessionId)])).
Proof.
  intros Hn. unfold handleDisconnection.
  apply Nat.leb_gt in Hn. rewrite Hn.
  unfold bind, with_pool, set_attempts, setTimeout, store_after_attempt.
  simpl.
  pose proof (updateReconnectAttempts_normal sessionId
                (Z.of_nat (getAttempts sessionId s) + 1) (persistence s)) as H1.
  destruct (SessionPersistence.updateReconnectAttempts _ _ _) as [c1 p1].
  simpl in H1. subst c1. simpl.
  pose proof (updateSessionStatus_normal sessionId connecting None None p1)
    as H2.
  destruct (SessionPersistence.updateSessionStatus _ _ _ _ p1) as [c2 p2].
  simpl in H2. subst c2. reflexivity.
Qed.

Lemma handleDisconnection_at_cap sessionId s :
  (maxAttempts <= getAttempts sessionId s)%nat ->
  handleDisconnection sessionId s
  = (Normal tt,
     mkState (delete sessionId (reconnectionAttempts s))
       (snd (SessionPersistence.updateSessionStatus sessionId error None
               (Some max_attempts_message) (persistence s)))
       (timers s)).
Proof.
  intros Hn. unfold handleDisconnection.
  apply Nat.leb_le in Hn. rewrite Hn.
  unfold bind, with_pool, set_attempts. simpl.
  pose proof (updateSessionStatus_normal sessionId error None
                (Some max_attempts_message) (persistence s)) as H2.
  destruct (SessionPersistence.updateSessionStatus _ _ _ _ _) as [c2 p2].
  simpl in H2. subst c2. reflexivity.
Qed.

(** The row of the session after the writes of an attempt. *)
Lemma store_after_attempt_row sessionId n p r :
  healthy p = true -> find_session sessionId p = Some r ->
  healthy (store_after_attempt sessionId n p) = true
  /\ exists r',
      find_session sessionId (store_after_attempt sessionId n p) = Some r'
      /\ status r' = connecting /\ error_message r' = None
      /\ reconnect_attempts r' = Z.of_nat n + 1
      /\ phone_number r' = phone_number r
      /\ auth_state r' = auth_state r.
Proof.
  intros Hh Hfind. unfold store_after_attempt.
  rewrite updateReconnectAttempts_executed by (apply healthy_executes, Hh).
  cbn [snd].
  rewrite updateSessionStatus_executed
    by (apply healthy_executes, healthy_tail, Hh).
  cbn [snd]. split.
  - apply (healthy_tail _ _ (mkPool (tables p) (now p) (tail (outcomes p)))).
    apply healthy_tail, Hh.
  - unfold find_session in *. simpl.
    rewrite !find_update_where_same by reflexivity. rewrite Hfind. simpl.
    eexists. repeat split; reflexivity.
Qed.

(** The row of the session after [updateSessionStatus]. *)
Lemma updateSessionStatus_row sessionId st phoneNumber errorMessage p r :
  executes p = true -> find_session sessionId p = Some r ->
  exists r',
    find_session sessionId
      (snd (SessionPersistence.updateSessionStatus sessionId st phoneNumber
              errorMessage p)) = Some r'
    /\ status r' = st /\ error_message r' = errorMessage
    /\ phone_number r' = COALESCE phoneNumber (phone_number r)
    /\ reconnect_attempts r' = reconnect_attempts r
    /\ auth_state r' = auth_state r.
Proof.
  intros Hex Hfind. rewrite updateSessionStatus_executed by exact Hex.
  unfold find_session in *. simpl.
  rewrite find_update_where_same by reflexivity. rewrite Hfind. simpl.
  eexists. repeat split; reflexivity.
Qed.

Lemma getAttempts_insert sessionId v m p t :
  getAttempts sessionId (mkState (<[sessionId := v]> m) p t) = v.
Proof. unfold getAttempts. simpl. rewrite lookup_insert_eq. reflexivity. Qed.

(** [k] failed attempts in a row, below the cap. *)
Lemma failed_attempts sessionId reason k : forall s r,
  healthy (persistence s) = true ->
  find_session sessionId (persistence s) = Some r ->
  (getAttempts sessionId s + k <= maxAttempts)%nat ->
  (1 <= getAttempts sessionId s)%nat ->
  let s' :=
    replay (repeat (TimerFired (Reconnect sessionId) (Throw reason)) k) s in
  getAttempts sessionId s' = (getAttempts sessionId s + k)%nat
  /\ healthy (persistence s') = true
  /\ timers s'
     = timers s
         ++ map (fun i => mkTimer (backoff i) (Reconnect sessionId))
              (seq (getAttempts sessionId s) k)
  /\ exists r',
      find_session sessionId (persistence s') = Some r'
      /\ (k = 0%nat
          \/ reconnect_attempts r'
             = Z.of_nat (getAttempts sessionId s + k))
      /\ phone_number r' = phone_number r.
Proof.
  induction k as [|k IH]; intros s r Hh Hfind Hk H1 s'; subst s'.
  - simpl. rewrite Nat.add_0_r, app_nil_r. repeat split; try assumption.
    exists r. auto.
  - change (replay (repeat (TimerFired (Reconnect sessionId) (Throw reason))
                      (S k)) s)
      with (replay (repeat (TimerFired (Reconnect sessionId) (Throw reason)) k)
              (snd (handleDisconnection sessionId s))).
    rewrite handleDisconnection_below by lia. cbn [snd].
    set (n := getAttempts sessionId s) in *.
    destruct (store_after_attempt_row sessionId n (persistence s) r Hh Hfind)
      as (Hh1 & r1 & Hf1 & _ & _ & Ha1 & Hp1 & _).
    set (s1 := mkState _ _ _).
    assert (Hn1 : getAttempts sessionId s1 = S n) by apply getAttempts_insert.
    destruct (IH s1 r1 Hh1 Hf1 ltac:(rewrite Hn1; lia) ltac:(rewrite Hn1; lia))
      as (Hg & Hh' & Ht & r' & Hf' & Ha' & Hp').
    rewrite Hn1 in Hg, Ht. split; [rewrite Hg; lia|]. split; [exact Hh'|].
    split.
    + rewrite Ht. unfold s1. cbn [timers]. rewrite <- app_assoc. reflexivity.
    + exists r'. split; [exact Hf'|]. split; [|congruence]. right.
      destruct Ha' as [Hk0 | ->]; [|f_equal; lia]. subst k.
      change (find_session sessionId
                (store_after_attempt sessionId n (persistence s)) = Some r')
        in Hf'.
      rewrite Hf1 in Hf'. injection Hf' as <-. rewrite Ha1. lia.
Qed.

(** X14. A session the controller has no count for, whose reconnects all
    fail: the disconnect and the four failures after it set timers of 5, 10,
    20, 40 and 80 seconds, and the fifth failure ends it: the count is
    removed, no timer is added, and the row has status [error], the reason
    of the cap and 5 as its stored count. *)
Theorem X14_gives_up_after_five_failures
    (sessionId reason : string) (s : State) (r : SessionRow) :
  healthy (persistence s) = true ->
  find_session sessionId (persistence s) = Some r ->
  reconnectionAttempts s !! sessionId = None ->
  let s' :=
    replay
      (Disconnected sessionId
         :: repeat (TimerFired (Reconnect sessionId) (Throw reason)) 5) s in
  timers s'
  = timers s
      ++ map (fun d => mkTimer d (Reconnect sessionId))
           [5000; 10000; 20000; 40000; 80000]
  /\ reconnectionAttempts s' !! sessionId = None
  /\ exists r',
      find_session sessionId (persistence s') = Some r'
      /\ status r' = error
      /\ error_message r' = Some "Max reconnection attempts exceeded (5)"
      /\ reconnect_attempts r' = 5
      /\ phone_number r' = phone_number r.
Proof.
  intros Hh Hfind Hnone s'. subst s'.
  assert (H0 : getAttempts sessionId s = 0%nat).
  { unfold getAttempts. rewrite Hnone. reflexivity. }
  change (replay (Disconnected sessionId :: ?es) s)
    with (replay es (snd (handleDisconnection sessionId s))).
  rewrite handleDisconnection_below by (rewrite H0; unfold maxAttempts; lia).
  cbn [snd]. rewrite H0.
  destruct (store_after_attempt_row sessionId 0 (persistence s) r Hh Hfind)
    as (Hh1 & r1 & Hf1 & _ & _ & _ & Hp1 & _).
  set (s1 := mkState _ _ _).
  assert (Hn1 : getAttempts sessionId s1 = 1%nat) by apply getAttempts_insert.
  change (repeat (TimerFired (Reconnect sessionId) (Throw reason)) 5)
    with (repeat (TimerFired (Reconnect sessionId) (Throw reason)) 4
            ++ [TimerFired (Reconnect sessionId) (Throw reason)]).
  unfold replay. rewrite fold_left_app. fold (replay
    (repeat (TimerFired (Reconnect sessionId) (Throw reason)) 4) s1).
  destruct (failed_attempts sessionId reason 4 s1 r1 Hh1 Hf1
              ltac:(rewrite Hn1; unfold maxAttempts; lia)
              ltac:(rewrite Hn1; lia))
    as (Hg & Hh4 & Ht & r4 & Hf4 & Ha4 & Hp4).
  rewrite Hn1 in Hg, Ht, Ha4.
  set (s4 := replay _ s1) in *.
  change (fold_left _ [TimerFired (Reconnect sessionId) (Throw reason)] s4)
    with (snd (handleDisconnection sessionId s4)).
  rewrite handleDisconnection_at_cap by (rewrite Hg; unfold maxAttempts; lia).
  cbn [snd timers reconnectionAttempts persistence].
  split; [|split].
  - rewrite Ht. unfold s1. cbn [timers]. rewrite <- app_assoc. reflexivity.
  - apply lookup_delete_eq.
  - rewrite updateSessionStatus_executed by (apply healthy_executes, Hh4).
    unfold find_session in *. simpl.
    rewrite find_update_where_same by reflexivity. rewrite Hf4. simpl.
    eexists. split; [reflexivity|]. simpl.
    destruct Ha4 as [Ha4|Ha4]; [discriminate|].
    repeat split; try reflexivity; [exact Ha4|congruence].
Qed.

(** X15. When the reconnect of a timer succeeds the count of the session is
    removed, its stored count is set to 0 and nothing else of its row is
    touched; a disconnect after that waits 5 seconds, as the first one
    did. *)
Theorem X15_success_starts_over
    (sessionId : string) (s : State) (r : SessionRow) :
  healthy (persistence s) = true ->
  find_session sessionId (persistence s) = Some r ->
  let s1 := snd (fire (Reconnect sessionId) (Normal tt) s) in
  let s2 := snd (handleDisconnection sessionId s1) in
  fst (fire (Reconnect sessionId) (Normal tt) s) = Normal tt
  /\ isReconnecting sessionId s1 = false
  /\ timers s1 = timers s
  /\ (exists r1,
        find_session sessionId (persistence s1) = Some r1
        /\ reconnect_attempts r1 = 0
        /\ status r1 = status r
        /\ phone_number r1 = phone_number r
        /\ error_message r1 = error_message r)
  /\ timers s2 = timers s ++ [mkTimer 5000 (Reconnect sessionId)]
  /\ getAttempts sessionId s2 = 1%nat.
Proof.
  intros Hh Hfind s1 s2. subst s2 s1.
  unfold fire, bind, with_pool, set_attempts,
    SessionPersistence.resetReconnectAttempts. simpl.
  rewrite updateReconnectAttempts_executed by (apply healthy_executes, Hh).
  cbn [fst snd]. set (s1 := mkState _ _ _).
  assert (H0 : getAttempts sessionId s1 = 0%nat).
  { unfold getAttempts. simpl. rewrite lookup_delete_eq. reflexivity. }
  split; [reflexivity|]. split; [|split; [reflexivity|split]].
  - unfold isReconnecting. simpl. rewrite lookup_delete_eq.
    apply bool_decide_false. intros [x Hx]. discriminate Hx.
  - unfold find_session in *. simpl.
    rewrite find_update_where_same by reflexivity. rewrite Hfind. simpl.
    eexists. repeat split; reflexivity.
  - rewrite handleDisconnection_below
      by (rewrite H0; unfold maxAttempts; lia).
    cbn [snd timers]. rewrite H0. split; [reflexivity|].
    apply getAttempts_insert.
Qed.

Lemma react_attempts e s :
  reconnectionAttempts (snd (react e s)) = reconnectionAttempts s
  \/ (exists k, reconnectionAttempts (snd (react e s))
                = delete k (reconnectionAttempts s))
  \/ (exists k n, (n < maxAttempts)%nat
                  /\ reconnectionAttempts (snd (react e s))
                     = <[k := S n]> (reconnectionAttempts s)).
Proof.
  assert (Hd : forall k,
    reconnectionAttempts (snd (handleDisconnection k s))
    = delete k (reconnectionAttempts s)
    \/ exists n, (n < maxAttempts)%nat
                 /\ reconnectionAttempts (snd (handleDisconnection k s))
                    = <[k := S n]> (reconnectionAttempts s)).
  { intros k. destruct (Nat.lt_ge_cases (getAttempts k s) maxAttempts) as [H|H].
    - rewrite handleDisconnection_below by exact H. right. eauto.
    - rewrite handleDisconnection_at_cap by exact H. left. reflexivity. }
  destruct e as [k|k|t c|k]; simpl.
  - destruct (Hd k) as [H|(n & Hn & H)]; [right; left|right; right]; eauto.
  - left. unfold handleRateLimit, bind, with_pool, setTimeout.
    pose proof (updateSessionStatus_normal k connecting None
      (Some "Rate limited by WhatsApp. Waiting 15 minutes...")
      (persistence s)) as H.
    destruct (SessionPersistence.updateSessionStatus _ _ _ _ _) as [c p].
    simpl in H. subst c. reflexivity.
  - destruct t as [k|k]; [destruct c as [[]|e]|].
    + right. left. exists k.
      unfold fire, bind, with_pool, set_attempts,
        SessionPersistence.resetReconnectAttempts.
      cbn [fst snd persistence reconnectionAttempts timers].
      pose proof (updateReconnectAttempts_normal k 0 (persistence s)) as H.
      destruct (SessionPersistence.updateReconnectAttempts _ _ _) as [c p].
      simpl in H. subst c. reflexivity.
    + destruct (Hd k) as [H|(n & Hn & H)]; [right; left|right; right]; eauto.
    + destruct (Hd k) as [H|(n & Hn & H)]; [right; left|right; right]; eauto.
  - right. left. exists k. reflexivity.
Qed.

(** X16. Whatever happens to the controller, in whatever order, every
    count it keeps stays between 1 and 5. *)
Theorem X16_counts_stay_in_range (events : list Event) (s : State) :
  map_Forall (fun _ v => (1 <= v <= 5)%nat) (reconnectionAttempts s) ->
  map_Forall (fun _ v => (1 <= v <= 5)%nat)
    (reconnectionAttempts (replay events s)).
Proof.
  revert s. induction events as [|e events IH]; intros s H; [exact H|].
  change (replay (e :: events) s) with (replay events (snd (react e s))).
  apply IH.
  destruct (react_attempts e s) as [-> | [(k & ->) | (k & n & Hn & ->)]].
  - exact H.
  - apply map_Forall_delete. exact H.
  - apply map_Forall_insert_2; [|exact H]. unfold maxAttempts in Hn. lia.
Qed.

(** X17. The wait for a rate limit does not stand in for the backoff: it
    sets a timer of 15 minutes and leaves the count alone, and when that
    timer fires the session goes through [handleDisconnection], so that
    below the cap the count goes up by one and the reconnect is set a
    further [min (5000 * 2^n) 300000] ms later, and at the cap the session
    ends in [error] without a reconnect. *)
Theorem X17_rate_limit_then_backoff
    (sessionId : string) (created : Completion unit)
    (s : State) (r : SessionRow) :
  healthy (persistence s) = true ->
  find_session sessionId (persistence s) = Some r ->
  let n := getAttempts sessionId s in
  let s1 := snd (handleRateLimit sessionId s) in
  let s2 := snd (fire (RateLimitRecovery sessionId) created s1) in
  reconnectionAttempts s1 = reconnectionAttempts s
  /\ timers s1 = timers s ++ [mkTimer 900000 (RateLimitRecovery sessionId)]
  /\ (exists r1,
        find_session sessionId (persistence s1) = Some r1
        /\ status r1 = connecting
        /\ error_message r1
           = Some "Rate limited by WhatsApp. Waiting 15 minutes...")
  /\ if (n <? 5)%nat then
       reconnectionAttempts s2 !! sessionId = Some (S n)
       /\ timers s2
          = timers s
              ++ [mkTimer 900000 (RateLimitRecovery sessionId);
                  mkTimer (backoff n) (Reconnect sessionId)]
       /\ exists r2,
           find_session sessionId (persistence s2) = Some r2
           /\ status r2 = connecting /\ error_message r2 = None
     else
       reconnectionAttempts s2 !! sessionId = None
       /\ timers s2
          = timers s ++ [mkTimer 900000 (RateLimitRecovery sessionId)]
       /\ exists r2,
           find_session sessionId (persistence s2) = Some r2
           /\ status r2 = error.
Proof.
  intros Hh Hfind n s1 s2. subst s2 s1.
  unfold handleRateLimit, bind, with_pool, setTimeout.
  rewrite updateSessionStatus_executed by (apply healthy_executes, Hh).
  cbn [fst snd persistence reconnectionAttempts timers].
  set (p1 := mkPool _ (now (persistence s)) (tail (outcomes (persistence s)))).
  set (s1 := mkState _ p1 _).
  assert (Hh1 : healthy p1 = true) by (apply healthy_tail, Hh).
  assert (Hf1 : exists r1,
             find_session sessionId p1 = Some r1
             /\ status r1 = connecting
             /\ error_message r1
                = Some "Rate limited by WhatsApp. Waiting 15 minutes...").
  { unfold find_session in *. simpl.
    rewrite find_update_where_same by reflexivity. rewrite Hfind. simpl.
    eexists. repeat split; reflexivity. }
  assert (Hn1 : getAttempts sessionId s1 = n) by reflexivity.
  split; [reflexivity|]. split; [reflexivity|]. split; [exact Hf1|].
  destruct Hf1 as (r1 & Hf1 & _).
  change (fire (RateLimitRecovery sessionId) created s1)
    with (handleDisconnection sessionId s1).
  destruct (n <? 5)%nat eqn:Hn.
  - apply Nat.ltb_lt in Hn.
    rewrite handleDisconnection_below by (rewrite Hn1; exact Hn).
    rewrite Hn1. cbn [snd reconnectionAttempts timers persistence].
    destruct (store_after_attempt_row sessionId n p1 r1 Hh1 Hf1)
      as (_ & r2 & Hf2 & Hs2 & He2 & _).
    split; [apply lookup_insert_eq|]. split.
    + unfold s1. cbn [timers]. rewrite <- app_assoc. reflexivity.
    + exists r2. auto.
  - apply Nat.ltb_ge in Hn.
    rewrite handleDisconnection_at_cap by (rewrite Hn1; exact Hn).
    cbn [snd reconnectionAttempts timers persistence].
    split; [apply lookup_delete_eq|]. split; [reflexivity|].
    destruct (updateSessionStatus_row sessionId error None
                (Some max_attempts_message) p1 r1
                (healthy_executes _ Hh1) Hf1) as (r2 & Hf2 & Hs2 & _).
    exists r2. split; [exact Hf2|exact Hs2].
Qed.

End ControllerFacts.

(** ** MessageQueue: whole runs of the worker *)

Section WorkerFacts.
Import MessageQueue.

Lemma queue_of_set_processing sessionId b s :
  queue_of sessionId (set_processing sessionId b s) = queue_of sessionId s.
Proof. reflexivity. Qed.

(** The loop only ever adds to the effects. *)
Lemma while_queue_extends sessionId turns : forall s,
  exists new, effects (while_queue sessionId turns s) = effects s ++ new.
Proof.
  induction turns as [|e turns IH]; intros s; simpl.
  - exists []. rewrite app_nil_r. destruct (queue_of sessionId s); reflexivity.
  - destruct (queue_of sessionId s) as [|m rest] eqn:Hq.
    + exists []. rewrite app_nil_r. reflexivity.
    + destruct (step_extends sessionId (Worker e) s) as (new1 & E1 & _).
      simpl in E1. destruct (IH (snd (loop_body sessionId e s))) as (new2 & E2).
      exists (new1 ++ new2). rewrite E2, E1, app_assoc. reflexivity.
Qed.

Lemma since_app n (a b : list Effect) q p st :
  n = length a -> since n (mkState q p st (a ++ b)) = b.
Proof. intros ->. unfold since. simpl. apply drop_app_length. Qed.

(** The throttle check for a counter below the limit. *)
Lemma shouldThrottle_below sessionId now s :
  0 <= counter sessionId s < 20 ->
  exists st,
    shouldThrottle sessionId now s
    = (Normal false, mkState (queues s) (processing s) st (effects s))
    /\ 0 <= counter sessionId (mkState (queues s) (processing s) st (effects s))
       <= counter sessionId s.
Proof.
  unfold shouldThrottle, counter. destruct s as [q p st ef]. simpl.
  destruct (st !! sessionId) as [x|] eqn:Hx; intros H.
  - destruct (lastReset x <? now - 60000).
    + eexists. split; [reflexivity|]. simpl. rewrite lookup_insert_eq.
      simpl. lia.
    + destruct (Z.leb_spec messagesPerMinute (sent x)) as [Hl|Hl].
      * unfold messagesPerMinute in Hl. lia.
      * eexists. split; [reflexivity|]. simpl. rewrite Hx. lia.
  - eexists. split; [reflexivity|]. simpl. rewrite Hx. lia.
Qed.

Lemma send_outcome_text m r :
  default "text" (type m) = "text" -> send_outcome m r = r.
Proof.
  intros H. unfold send_outcome, sendMessage, bind, emit. simpl.
  rewrite decide_True by exact H. reflexivity.
Qed.


Lemma drain_in_order sessionId q : forall turns s,
  queue_of sessionId s = q ->
  Forall (fun m => default "text" (type m) = "text") q ->
  Forall (fun e => send_result e = Normal tt) turns ->
  (length q <= length turns)%nat ->
  0 <= counter sessionId s ->
  counter sessionId s + Z.of_nat (length q) <= 20 ->
  let s' := while_queue sessionId turns s in
  attempted (since (length (effects s)) s') = q
  /\ queue_of sessionId s' = []
  /\ processing s' !! sessionId = Some false
  /\ ~ In (Delay 60000) (since (length (effects s)) s')
  /\ 0 <= counter sessionId s' <= counter sessionId s + Z.of_nat (length q).
Proof.
  induction q as [|m rest IH]; intros turns s Hq Htext Hok Hlen H0 H20 s';
    subst s'.
  - assert (E : while_queue sessionId turns s
                = set_processing sessionId false s).
    { destruct turns; simpl; rewrite Hq; reflexivity. }
    rewrite E. unfold since. cbn [set_processing effects]. rewrite drop_all.
    change (counter sessionId (set_processing sessionId false s))
      with (counter sessionId s).
    split; [reflexivity|]. split; [exact Hq|].
    split; [apply lookup_insert_eq|]. split; [intros []|]. simpl. lia.
  - destruct turns as [|e turns]; [simpl in Hlen; lia|].
    inversion Htext as [|? ? Hm Hrest]; subst.
    inversion Hok as [|? ? He Hturns]; subst.
    simpl while_queue. rewrite Hq.
    simpl length in H20, Hlen.
    destruct (shouldThrottle_below sessionId (t_check e) s ltac:(lia))
      as (st & E & Hc).
    assert (Hs : send_outcome m (send_result e) = Normal tt).
    { rewrite send_outcome_text by exact Hm. exact He. }
    rewrite (loop_body_sent sessionId e s m rest Hq)
      by (try rewrite E; auto).
    rewrite E. cbn [snd stats].
    set (s1 := mkState _ _ _ _).
    assert (Hq1 : queue_of sessionId s1 = rest).
    { unfold queue_of, s1. simpl. rewrite lookup_insert_eq. reflexivity. }
    assert (Hc1 : counter sessionId s1
                  = counter sessionId
                      (mkState (queues s) (processing s) st (effects s)) + 1).
    { unfold counter, s1. simpl. rewrite lookup_insert_eq.
      destruct (st !! sessionId); reflexivity. }
    destruct (IH turns s1 Hq1 Hrest Hturns ltac:(lia) ltac:(lia) ltac:(lia))
      as (Ha & Hempty & Hproc & Hno & Hcnt).
    destruct (while_queue_extends sessionId turns s1) as (new & En).
    assert (Hnew : since (length (effects s1)) (while_queue sessionId turns s1)
                   = new).
    { unfold since. rewrite En. apply drop_app_length. }
    rewrite Hnew in Ha, Hno.
    assert (Hsince : since (length (effects s))
                       (while_queue sessionId turns s1)
                     = [Attempt sessionId m; Log (MessageSent (id m));
                        Delay 3000] ++ new).
    { unfold since. rewrite En. unfold s1. cbn [effects].
      rewrite <- app_assoc. apply drop_app_length. }
    rewrite Hsince. split; [|split; [|split; [|split]]].
    + rewrite attempted_app. simpl. rewrite Ha. reflexivity.
    + exact Hempty.
    + exact Hproc.
    + intros Hin. apply in_app_or in Hin. destruct Hin as [Hin|Hin];
        [|exact (Hno Hin)].
      repeat (destruct Hin as [Hin|Hin]; [discriminate Hin|]). exact Hin.
    + change (length (m :: rest)) with (S (length rest)). lia.
Qed.

(** X18. A queue whose items are all text, with room for them under the
    limit of 20 and sends that succeed, is emptied in the order of the
    queue, one item a turn, whatever the times of the turns are: nothing is
    tried twice, the worker never waits for the limit, and it ends with
    [processing] false. *)
Theorem X18_queue_drains_in_order
    (sessionId : string) (turns : list Turn) (s : State) :
  Forall (fun m => default "text" (type m) = "text") (queue_of sessionId s) ->
  Forall (fun e => send_result e = Normal tt) turns ->
  (getQueueSize sessionId s <= length turns)%nat ->
  0 <= counter sessionId s ->
  counter sessionId s + Z.of_nat (getQueueSize sessionId s) <= 20 ->
  let s' := processQueue sessionId turns s in
  attempted (since (length (effects s)) s') = queue_of sessionId s
  /\ getQueueSize sessionId s' = 0%nat
  /\ processing s' !! sessionId = Some false
  /\ ~ In (Delay 60000) (since (length (effects s)) s')
  /\ counter sessionId s'
     <= counter sessionId s + Z.of_nat (getQueueSize sessionId s).
Proof.
  intros Htext Hok Hlen H0 H20 s'. subst s'. unfold getQueueSize in *.
  unfold processQueue.
  destruct (queue_of sessionId s) as [|m rest] eqn:Hq.
  - unfold since. cbn [set_processing effects]. rewrite drop_all.
    change (counter sessionId (set_processing sessionId false s))
      with (counter sessionId s).
    change (queue_of sessionId (set_processing sessionId false s))
      with (queue_of sessionId s).
    rewrite Hq. split; [reflexivity|]. split; [reflexivity|].
    split; [apply lookup_insert_eq|]. split; [intros []|]. simpl. lia.
  - destruct (drain_in_order sessionId (m :: rest) turns
                (set_processing sessionId true s) Hq Htext Hok Hlen H0 H20)
      as (Ha & He & Hp & Hn & Hc).
    cbn [set_processing effects] in Ha, Hn.
    rewrite He. repeat split; try assumption. apply Hc.
Qed.






Lemma shouldThrottle_other sessionId now s other :
  other <> sessionId ->
  stats (snd (shouldThrottle sessionId now s)) !! other = stats s !! other.
Proof.
  intros Hne. unfold shouldThrottle.
  destruct (stats s !! sessionId) as [x|]; [|reflexivity].
  destruct (lastReset x <? now - 60000); [|reflexivity].
  simpl. apply lookup_insert_ne. congruence.
Qed.

(** X20. What is done for one session leaves the queue, the counter and
    the [processing] flag of every other session as they were. *)
Theorem X20_sessions_do_not_interfere
    (sessionId other : string) (i : Input) (s : State) :
  other <> sessionId ->
  queues (step sessionId i s) !! other = queues s !! other
  /\ stats (step sessionId i s) !! other = stats s !! other
  /\ processing (step sessionId i s) !! other = processing s !! other.
Proof.
  intros Hne. assert (Hne' : sessionId <> other) by congruence.
  destruct i as [e|item|j c r t]; simpl.
  - destruct (queue_of sessionId s) as [|m rest] eqn:Hq.
    { unfold loop_body. rewrite Hq. auto. }
    pose proof (shouldThrottle_other sessionId (t_check e) s other Hne) as Ho.
    destruct (shouldThrottle_spec sessionId (t_check e) s) as (b & st & E & Hb).
    destruct b.
    + rewrite (loop_body_throttled _ _ _ m rest) by (try rewrite E; auto).
      auto.
    + destruct (send_outcome m (send_result e)) as [[]|reason] eqn:Hs.
      * rewrite (loop_body_sent _ _ _ m rest) by (try rewrite E; auto).
        simpl. rewrite !lookup_insert_ne by exact Hne'. auto.
      * rewrite (loop_body_failed _ _ _ m rest reason)
          by (try rewrite E; auto).
        destruct (3 <=? S (attempts m))%nat; simpl;
          rewrite !lookup_insert_ne by exact Hne'; auto.
  - unfold enqueue, emit. simpl.
    destruct (default false (processing s !! sessionId)); simpl;
      rewrite !lookup_insert_ne by exact Hne'; auto.
  - unfold sendImmediate, bind, emit, updateStats. simpl.
    destruct r as [[]|reason]; simpl; rewrite ?lookup_insert_ne by exact Hne';
      auto.
Qed.

Lemma counter_step sessionId i s :
  queued i = true ->
  counter sessionId s <= 20 -> counter sessionId (step sessionId i s) <= 20.
Proof.
  intros Hi Hc. destruct i as [e|item|j c r t]; [| |discriminate]; simpl.
  - destruct (queue_of sessionId s) as [|m rest] eqn:Hq.
    { unfold loop_body. rewrite Hq. exact Hc. }
    assert (Hcheck : forall b st,
      shouldThrottle sessionId (t_check e) s
      = (Normal b, mkState (queues s) (processing s) st (effects s)) ->
      counter sessionId (mkState (queues s) (processing s) st (effects s))
      <= 20
      /\ (b = false ->
          counter sessionId (mkState (queues s) (processing s) st (effects s))
          < 20)).
    { intros b st. unfold shouldThrottle, counter in *.
      destruct s as [q p st0 ef]. simpl in *.
      destruct (st0 !! sessionId) as [x|] eqn:Hx.
      - destruct (lastReset x <? t_check e - 60000).
        + intros E. injection E as <- <-. simpl. rewrite lookup_insert_eq.
          simpl. lia.
        + intros E. injection E as <- <-. rewrite Hx. split; [exact Hc|].
          intros Hb. apply Z.leb_gt in Hb. unfold messagesPerMinute in Hb.
          exact Hb.
      - intros E. injection E as <- <-. rewrite Hx. lia. }
    destruct (shouldThrottle_spec sessionId (t_check e) s) as (b & st & E & Hb).
    destruct (Hcheck b st E) as [H20 Hlt].
    destruct b.
    + rewrite (loop_body_throttled _ _ _ m rest) by (try rewrite E; auto).
      exact Hc.
    + destruct (send_outcome m (send_result e)) as [[]|reason] eqn:Hs.
      * rewrite (loop_body_sent _ _ _ m rest) by (try rewrite E; auto).
        rewrite E. specialize (Hlt eq_refl). unfold counter in *. simpl in *.
        rewrite lookup_insert_eq. destruct (st !! sessionId); simpl; lia.
      * rewrite (loop_body_failed _ _ _ m rest reason)
          by (try rewrite E; auto).
        rewrite E. destruct (3 <=? S (attempts m))%nat; exact H20.
  - unfold enqueue, emit. simpl.
    destruct (default false (processing s !! sessionId)); exact Hc.
Qed.

(** X21. From the queue alone the counter of a session never gets beyond
    20: as long as nothing is sent by [sendImmediate], a counter that is at
    most 20 stays at most 20 through any turns of the worker and any
    enqueueing. *)
Theorem X21_queue_keeps_counter_within_limit
    (sessionId : string) (inputs : list Input) (s : State) :
  Forall (fun i => queued i = true) inputs ->
  counter sessionId s <= 20 ->
  counter sessionId (run sessionId inputs s) <= 20.
Proof.
  revert s. induction inputs as [|i inputs IH]; intros s Hq Hc; [exact Hc|].
  inversion Hq as [|? ? Hi Hrest]; subst.
  change (run sessionId (i :: inputs) s)
    with (run sessionId inputs (step sessionId i s)).
  apply IH; [exact Hrest|]. apply counter_step; assumption.
Qed.


End WorkerFacts.

(** ** SessionManager: the registry *)

Section RegistryFacts.
Import Db SessionManager.

Lemma on_close_reconnect loggedOut sessionId callbacks l s :
  shouldReconnect loggedOut l = true ->
  fst (on_close loggedOut sessionId callbacks l s) = Normal tt
  /\ sessions (snd (on_close loggedOut sessionId callbacks l s)) = sessions s
  /\ timers (snd (on_close loggedOut sessionId callbacks l s))
     = timers s ++ [(3000, CreateSession sessionId callbacks)].
Proof.
  intros H. unfold on_close. rewrite H. unfold bind, with_pool, setTimeout.
  pose proof (updateSessionStatus_normal sessionId disconnected None
                (message l) (persistence s)) as Hn.
  destruct (SessionPersistence.updateSessionStatus sessionId disconnected
              None (message l) (persistence s)) as [c p'].
  simpl in Hn. subst c. simpl. auto.
Qed.

(** X23. After a close that is not a logout the registry still holds the
    session, so the [createSession] of the 3 second timer is rejected with
    "Session ... already exists" whatever the client library would do, and
    leaves everything as it is; [sendMessage] still treats the closed
    session as it did before the close. *)
Theorem X23_reconnect_timer_is_rejected
    (loggedOut : Z) (sessionId : string) (callbacks : Callbacks)
    (lastDisconnect : LastDisconnect) (s : State) (h : Handle) :
  sessions s !! sessionId = Some h ->
  shouldReconnect loggedOut lastDisconnect = true ->
  let s' := snd (on_close loggedOut sessionId callbacks lastDisconnect s) in
  In (3000, CreateSession sessionId callbacks) (timers s')
  /\ getSession sessionId s' = Some h
  /\ (forall lib now,
        createSession sessionId lib now s'
        = (Throw ("Session " +:+ sessionId +:+ " already exists"), s'))
  /\ (forall sock,
        fst (sendMessage sessionId sock s')
        = fst (sendMessage sessionId sock s)).
Proof.
  intros Hh Hr s'.
  destruct (on_close_reconnect loggedOut sessionId callbacks lastDisconnect s
              Hr) as (_ & Hs & Ht).
  fold s' in Hs, Ht. repeat split.
  - rewrite Ht. apply in_or_app. right. left. reflexivity.
  - unfold getSession. rewrite Hs. exact Hh.
  - intros lib now. unfold createSession. rewrite Hs, Hh. reflexivity.
  - intros sock. unfold sendMessage. rewrite Hs. 
    destruct (sessions s !! sessionId) as [h'|]; [|reflexivity].
    destruct (Status_eqb (handle_status h') connected); reflexivity.
Qed.

(** X24. [destroySession] of a registered session fulfils whether or not the
    logout fails, removes that entry only and makes no query.  Afterwards a
    send or a second destroy for that id is rejected, an [open] event for it
    throws before any query, and the id can be created again. *)
Theorem X24_destroySession
    (sessionId : string) (logout : Completion unit) (s : State) (h : Handle) :
  sessions s !! sessionId = Some h ->
  let s1 := snd (destroySession sessionId logout s) in
  fst (destroySession sessionId logout s) = Normal tt
  /\ getSession sessionId s1 = None
  /\ (forall other, other <> sessionId ->
        getSession other s1 = getSession other s)
  /\ persistence s1 = persistence s
  /\ (forall sock,
        sendMessage sessionId sock s1
        = (Throw ("Session " +:+ sessionId +:+ " not connected"), s1))
  /\ (forall logout',
        destroySession sessionId logout' s1
        = (Throw ("Session " +:+ sessionId +:+ " not found"), s1))
  /\ (forall callbacks user_id,
        snd (on_open sessionId callbacks user_id s1) = s1
        /\ exists e, fst (on_open sessionId callbacks user_id s1) = Throw e)
  /\ (forall now,
        fst (createSession sessionId (Normal tt) now s1) = Normal tt
        /\ getSession sessionId
             (snd (createSession sessionId (Normal tt) now s1))
           = Some (mkHandle connecting None now)).
Proof.
  intros Hh s1. subst s1. unfold destroySession. rewrite Hh. cbn [fst snd].
  assert (Hnone : forall p t f,
    sessions (mkState (delete sessionId (sessions s)) p t f) !! sessionId
    = None) by (intros; simpl; apply lookup_delete_eq).
  split; [reflexivity|]. split; [apply Hnone|].
  split. { intros other Hne. unfold getSession. simpl.
           apply lookup_delete_ne. congruence. }
  split; [reflexivity|].
  split. { intros sock. unfold sendMessage. rewrite Hnone. reflexivity. }
  split. { intros lo. rewrite Hnone. reflexivity. }
  split. { intros cb uid. unfold on_open. rewrite Hnone. split;
           [reflexivity|eexists; reflexivity]. }
  intros now. unfold createSession. rewrite Hnone. cbn [fst snd].
  split; [reflexivity|]. unfold getSession. simpl. apply lookup_insert_eq.
Qed.

Lemma before_colon_no_colon id :
  ~ In colon (String.list_ascii_of_string (before_colon id)).
Proof.
  induction id as [|c rest IH]; simpl; [tauto|].
  destruct (Ascii.eqb c colon) eqn:Hc; simpl; [tauto|].
  intros [H|H]; [|exact (IH H)].
  subst c. rewrite Ascii.eqb_refl in Hc. discriminate.
Qed.

(** X25. When the connection opens for a registered session and the queries
    are executed, the handle becomes [connected] with the part of the user
    id before the first colon as its phone number, the row of the session
    gets the same status and phone number, no error message and an attempt
    counter of 0, its auth state is kept, sends are handed to the socket,
    and [onConnected] gets that phone number when the bag has one. *)
Theorem X25_connection_open
    (sessionId : string) (callbacks : Callbacks) (user_id : string)
    (s : State) (r : SessionRow) (h : Handle) :
  healthy (persistence s) = true ->
  find_session sessionId (persistence s) = Some r ->
  sessions s !! sessionId = Some h ->
  let phone := before_colon user_id in
  let s' := snd (on_open sessionId callbacks user_id s) in
  fst (on_open sessionId callbacks user_id s)
  = Normal (if onConnected callbacks then Some phone else None)
  /\ getSession sessionId s'
     = Some (mkHandle connected (Some phone) (createdAt h))
  /\ (forall sock, sendMessage sessionId sock s' = (sock, s'))
  /\ (exists r',
        find_session sessionId (persistence s') = Some r'
        /\ status r' = connected
        /\ phone_number r' = Some phone
        /\ error_message r' = None
        /\ reconnect_attempts r' = 0
        /\ auth_state r' = auth_state r)
  /\ ~ In colon (String.list_ascii_of_string phone).
Proof.
  intros Hh Hfind Hs phone s'. subst s'. unfold on_open. rewrite Hs.
  fold phone. unfold bind, with_pool. cbn [persistence sessions timers fired].
  rewrite updateSessionStatus_executed by (apply healthy_executes, Hh).
  cbn [persistence sessions timers fired].
  unfold SessionPersistence.resetReconnectAttempts.
  rewrite updateReconnectAttempts_executed
    by (apply healthy_executes, healthy_tail, Hh).
  cbn [fst snd ret persistence sessions timers fired].
  assert (Hreg : forall p t f,
    sessions
      (mkState
         (<[sessionId := mkHandle connected (Some phone) (createdAt h)]>
            (sessions s)) p t f) !! sessionId
    = Some (mkHandle connected (Some phone) (createdAt h)))
    by (intros; simpl; apply lookup_insert_eq).
  split; [reflexivity|]. split; [apply Hreg|].
  split. { intros sock. unfold sendMessage. rewrite Hreg. reflexivity. }
  split.
  - unfold find_session in *. simpl.
    rewrite !find_update_where_same by reflexivity. rewrite Hfind. simpl.
    eexists. repeat split; reflexivity.
  - apply before_colon_no_colon.
Qed.

End RegistryFacts.

(** ** SessionManager: restoring the sessions of the store *)

Section RestoreAllFacts.
Import Db SessionManager.
Variable lib : string -> Completion unit.
Variable now : Z.

Lemma NoDup_find_row rows (r : SessionRow) :
  NoDup (map session_id rows) -> In r rows ->
  List.find (fun r' => bool_decide (session_id r' = session_id r)) rows
  = Some r.
Proof.
  induction rows as [|x rows IH]; simpl; [tauto|].
  intros Hnd [Heq|Hin].
  - subst x. rewrite bool_decide_true by reflexivity. reflexivity.
  - apply NoDup_cons in Hnd. destruct Hnd as [Hx Hnd].
    rewrite list_elem_of_In in Hx.
    rewrite bool_decide_false; [apply IH; assumption|].
    intros Heq. apply Hx. rewrite Heq. apply in_map. exact Hin.
Qed.

Lemma NoDup_map_filter (P : SessionRow -> bool) rows :
  NoDup (map session_id rows) ->
  NoDup (map session_id (List.filter P rows)).
Proof.
  induction rows as [|x rows IH]; simpl; [auto|].
  intros Hnd. apply NoDup_cons in Hnd. destruct Hnd as [Hx Hnd].
    rewrite list_elem_of_In in Hx.
  destruct (P x); simpl; [|auto].
  apply NoDup_cons. split; [|auto]. rewrite list_elem_of_In.
  intros Hin. apply Hx. apply in_map_iff in Hin.
  destruct Hin as (y & Hy & Hin). apply filter_In in Hin.
  rewrite <- Hy. apply in_map. tauto.
Qed.

Lemma restore_one_spec (r : SessionRow) (s : State) :
  healthy (persistence s) = true ->
  sessions s !! session_id r = None ->
  find_session (session_id r) (persistence s) = Some r ->
  fst (restore_one lib now r s) = Normal tt
  /\ healthy (persistence (snd (restore_one lib now r s))) = true
  /\ (forall other, other <> session_id r ->
        sessions (snd (restore_one lib now r s)) !! other
        = sessions s !! other
        /\ find_session other (persistence (snd (restore_one lib now r s)))
           = find_session other (persistence s))
  /\ match lib (session_id r) with
     | Normal _ =>
         sessions (snd (restore_one lib now r s)) !! session_id r
         = Some (mkHandle connecting None now)
         /\ find_session (session_id r)
              (persistence (snd (restore_one lib now r s))) = Some r
     | Throw e =>
         sessions (snd (restore_one lib now r s)) !! session_id r = None
         /\ exists r',
              find_session (session_id r)
                (persistence (snd (restore_one lib now r s))) = Some r'
              /\ status r' = error
              /\ error_message r' = Some e
              /\ auth_state r' = auth_state r
     end.
Proof.
  intros Hh Hs Hfind. unfold restore_one, try_catch, createSession.
  rewrite Hs. destruct (lib (session_id r)) as [u|e]; cbn [fst snd].
  - split; [reflexivity|]. split; [exact Hh|]. split.
    + intros other Hne. simpl. split; [|reflexivity].
      apply lookup_insert_ne. congruence.
    + simpl. split; [apply lookup_insert_eq|exact Hfind].
  - unfold with_pool.
    rewrite updateSessionStatus_executed by (apply healthy_executes, Hh).
    cbn [fst snd persistence sessions].
    split; [reflexivity|]. split; [apply healthy_tail, Hh|]. split.
    + intros other Hne. split; [reflexivity|].
      unfold find_session. simpl.
      apply find_update_where_other; [reflexivity|exact Hne].
    + split; [exact Hs|].
      unfold find_session in *. simpl.
      rewrite find_update_where_same by reflexivity. rewrite Hfind. simpl.
      eexists. repeat split; reflexivity.
Qed.

Lemma restore_each_spec rows : forall s,
  NoDup (map session_id rows) ->
  healthy (persistence s) = true ->
  (forall r, In r rows ->
     sessions s !! session_id r = None
     /\ find_session (session_id r) (persistence s) = Some r) ->
  fst (restore_each lib now rows s) = Normal tt
  /\ healthy (persistence (snd (restore_each lib now rows s))) = true
  /\ (forall id, ~ In id (map session_id rows) ->
        sessions (snd (restore_each lib now rows s)) !! id = sessions s !! id
        /\ find_session id (persistence (snd (restore_each lib now rows s)))
           = find_session id (persistence s))
  /\ (forall r, In r rows ->
        match lib (session_id r) with
        | Normal _ =>
            sessions (snd (restore_each lib now rows s)) !! session_id r
            = Some (mkHandle connecting None now)
            /\ find_session (session_id r)
                 (persistence (snd (restore_each lib now rows s))) = Some r
        | Throw e =>
            sessions (snd (restore_each lib now rows s)) !! session_id r
            = None
            /\ exists r',
                 find_session (session_id r)
                   (persistence (snd (restore_each lib now rows s)))
                 = Some r'
                 /\ status r' = error
                 /\ error_message r' = Some e
                 /\ auth_state r' = auth_state r
        end).
Proof.
  induction rows as [|x rows IH]; intros s Hnd Hh Hrows.
  - simpl. repeat split; auto. intros r [].
  - apply NoDup_cons in Hnd. destruct Hnd as [Hx Hnd].
    rewrite list_elem_of_In in Hx.
    destruct (Hrows x (or_introl eq_refl)) as [Hsx Hfx].
    destruct (restore_one_spec x s Hh Hsx Hfx) as (H1 & Hh1 & Hother & Hmine).
    cbn [restore_each]. unfold bind.
    destruct (restore_one lib now x s) as [c s1]. cbn [fst snd] in *.
    subst c.
    assert (Hrows1 : forall r, In r rows ->
      sessions s1 !! session_id r = None
      /\ find_session (session_id r) (persistence s1) = Some r).
    { intros r Hin.
      assert (Hne : session_id r <> session_id x).
      { intros Heq. apply Hx. rewrite <- Heq. apply in_map. exact Hin. }
      destruct (Hother _ Hne) as [Ha Hb]. rewrite Ha, Hb.
      apply Hrows. right. exact Hin. }
    destruct (IH s1 Hnd Hh1 Hrows1) as (I1 & I2 & I3 & I4).
    split; [exact I1|]. split; [exact I2|]. split.
    + intros id Hid. simpl in Hid.
      assert (Hne : id <> session_id x) by (intros Heq; apply Hid; auto).
      assert (Hnin : ~ In id (map session_id rows)) by tauto.
      destruct (I3 id Hnin) as [Ha Hb]. destruct (Hother id Hne) as [Hc Hd].
      split; congruence.
    + intros r [Heq|Hin]; [|apply I4; exact Hin].
      subst r. destruct (I3 (session_id x) Hx) as [Ha Hb].
      rewrite Ha, Hb. exact Hmine.
Qed.

(** X26. At a start with an empty registry and a store that executes every
    query, [restoreAllSessions] fulfils, and for every row of the store:
    an active row whose session the client library can set up is
    registered as [connecting] and its row is left as it is; an active row
    for which the library fails is not registered and its row is marked
    [error] with the library's message, which does not keep the later rows
    from being restored; a row that is not active is neither registered nor
    changed. *)
Theorem X26_restoreAllSessions (s : State) :
  healthy (persistence s) = true ->
  sessions s = ∅ ->
  NoDup (map session_id (whatsapp_sessions (tables (persistence s)))) ->
  let s' := snd (restoreAllSessions lib now s) in
  fst (restoreAllSessions lib now s) = Normal tt
  /\ forall r, In r (whatsapp_sessions (tables (persistence s))) ->
       if is_active r then
         match lib (session_id r) with
         | Normal _ =>
             getSession (session_id r) s'
             = Some (mkHandle connecting None now)
             /\ find_session (session_id r) (persistence s') = Some r
         | Throw e =>
             getSession (session_id r) s' = None
             /\ exists r',
                  find_session (session_id r) (persistence s') = Some r'
                  /\ status r' = error
                  /\ error_message r' = Some e
                  /\ auth_state r' = auth_state r
         end
       else
         getSession (session_id r) s' = None
         /\ find_session (session_id r) (persistence s') = Some r.
Proof.
  intros Hh Hempty Hnd s'. subst s'.
  unfold restoreAllSessions, bind, with_pool, getSession.
  rewrite getActiveSessions_executed by (apply healthy_executes, Hh).
  set (rows := whatsapp_sessions (tables (persistence s))) in *.
  set (s0 := mkState (sessions s)
               (mkPool (tables (persistence s)) (Db.now (persistence s))
                  (tail (outcomes (persistence s))))
               (timers s) (fired s)).
  assert (Hfind0 : forall r, In r rows ->
    find_session (session_id r) (persistence s0) = Some r).
  { intros r Hin. unfold find_session. simpl. fold rows.
    apply NoDup_find_row; assumption. }
  assert (Hreg0 : forall id, sessions s0 !! id = None).
  { intros id. simpl. rewrite Hempty. apply lookup_empty. }
  destruct (restore_each_spec (List.filter is_active rows) s0
              (NoDup_map_filter is_active rows Hnd)
              (healthy_tail _ _ _ Hh)) as (I1 & _ & I3 & I4).
  { intros r Hin. apply filter_In in Hin. split; [apply Hreg0|].
    apply Hfind0. tauto. }
  split; [exact I1|]. intros r Hin.
  destruct (is_active r) eqn:Hact.
  - apply I4. apply filter_In. auto.
  - assert (Hnin : ~ In (session_id r)
                     (map session_id (List.filter is_active rows))).
    { intros Hm. apply in_map_iff in Hm. destruct Hm as (y & Hy & Hyin).
      apply filter_In in Hyin. destruct Hyin as [Hyin Hyact].
      pose proof (Hfind0 y Hyin) as F1. pose proof (Hfind0 r Hin) as F2.
      rewrite Hy in F1. rewrite F1 in F2. inversion F2. subst y.
      congruence. }
    destruct (I3 _ Hnin) as [Ha Hb]. rewrite Ha, Hb.
    split; [apply Hreg0|apply Hfind0; exact Hin].
Qed.

End RestoreAllFacts.

(** ** GHLWebhookService: timers against any endpoint *)

Section DeliveryFacts.
Import GHLWebhookService.

Variable endpoint : nat -> bool.
Variable org : OrgConfig.
Variable u : string.
Hypothesis has_url : webhook_url org = Some u.
Variable messageData : MessageData.

Lemma on_timer_answered r w :
  endpoint (length (posts w)) = true ->
  snd (on_timer endpoint org messageData r w)
  = mkWorld (clock w)
      (posts w ++ [mkPost (clock w) u
                     (formatPhoneNumber (from_number messageData))
                     (formatPhoneNumber (to_number messageData))])
      (webhook_logs w ++ [success]) (message_failed w)
      (match id messageData with Some _ => true | None => synced_to_ghl w end)
      (timers w).
Proof.
  intros H. unfold on_timer, sendMessageToGHL. rewrite has_url.
  unfold try_catch, bind, axios_post. rewrite H. reflexivity.
Qed.


Lemma same_timer_refl t : same_timer t t = true.
Proof.
  unfold same_timer. rewrite Z.eqb_refl, Nat.eqb_refl. reflexivity.
Qed.

Lemma earliest_In ts t : earliest ts = Some t -> In t ts.
Proof.
  revert t. induction ts as [|x ts IH]; simpl; intros t H; [discriminate|].
  destruct (earliest ts) as [v|].
  - destruct (fire_at v <? fire_at x); inversion H; subst; auto.
  - inversion H. auto.
Qed.

Lemma remove_first_length t ts :
  In t ts -> length (remove_first t ts) = pred (length ts).
Proof.
  induction ts as [|x ts IH]; simpl; [tauto|].
  intros Hin. destruct (same_timer t x) eqn:Hs; [reflexivity|].
  destruct Hin as [Heq|Hin].
  - subst x. rewrite same_timer_refl in Hs. discriminate.
  - simpl. rewrite IH by exact Hin. destruct ts; [destruct Hin|reflexivity].
Qed.


Lemma earliest_none ts : earliest ts = None -> ts = [].
Proof.
  destruct ts as [|x ts]; [reflexivity|]. simpl.
  destruct (earliest ts) as [v|]; [destruct (fire_at v <? fire_at x)|];
    discriminate.
Qed.


(** X28. Once the endpoint answers every POST, each pending timer still
    makes its POST when it fires and sets no new timer: [n] firings make
    [min n (length timers)] successful POSTs of the same message, after
    which that many timers are gone; the message is marked synced when it
    has a key, and is not marked failed by them. *)
Theorem X28_recovered_endpoint_gets_every_retry (n : nat) : forall w : World,
  (forall k, (length (posts w) <= k)%nat -> endpoint k = true) ->
  let w' := fire_many endpoint org messageData n w in
  let m := Nat.min n (length (timers w)) in
  length (posts w') = (length (posts w) + m)%nat
  /\ length (timers w') = (length (timers w) - m)%nat
  /\ webhook_logs w' = webhook_logs w ++ repeat success m
  /\ message_failed w' = message_failed w
  /\ ((0 < m)%nat -> id messageData <> None -> synced_to_ghl w' = true).
Proof.
  induction n as [|n IH]; intros w Hok; cbv zeta; cbn [fire_many].
  - simpl. rewrite app_nil_r, Nat.add_0_r, Nat.sub_0_r.
    repeat split; auto. lia.
  - unfold fire_next. destruct (earliest (timers w)) as [t|] eqn:Ht.
    2:{ apply earliest_none in Ht. rewrite Ht. simpl.
        rewrite app_nil_r, Nat.add_0_r. repeat split; auto. lia. }
    assert (He : endpoint (length (posts w)) = true) by (apply Hok; lia).
    pose proof (on_timer_answered (retryCount t)
      (mkWorld (fire_at t) (posts w) (webhook_logs w) (message_failed w)
         (synced_to_ghl w) (remove_first t (timers w))) He) as E.
    cbn [posts clock webhook_logs message_failed synced_to_ghl timers] in E.
    cbn [snd]. rewrite E.
    match goal with
    | |- context [fire_many _ _ _ n ?x] => set (w2 := x)
    end.
    destruct (IH w2) as (I1 & I2 & I3 & I4 & I5).
    { intros k Hk. apply Hok. subst w2. simpl in Hk.
      rewrite length_app in Hk. simpl in Hk. lia. }
    assert (Hlen : length (timers w2) = pred (length (timers w))).
    { subst w2. simpl. apply remove_first_length, earliest_In, Ht. }
    assert (Hpos : (0 < length (timers w))%nat).
    { apply earliest_In in Ht. destruct (timers w); [destruct Ht|simpl; lia]. }
    assert (Hmin : Nat.min (S n) (length (timers w))
                   = S (Nat.min n (length (timers w2)))) by lia.
    rewrite Hmin.
    split. { rewrite I1. subst w2. simpl. rewrite length_app. simpl. lia. }
    split. { rewrite I2. lia. }
    split. { rewrite I3. subst w2. simpl. rewrite <- app_assoc.
             reflexivity. }
    split. { rewrite I4. reflexivity. }
    intros _ Hid.
    destruct (Nat.min n (length (timers w2))) as [|m'] eqn:Hm.
    + assert (Hn : fire_many endpoint org messageData n w2 = w2).
      { destruct n as [|n']; [reflexivity|].
        assert (Hz : length (timers w2) = 0%nat) by lia.
        destruct (timers w2) eqn:Htw; [|discriminate].
        cbn [fire_many]. unfold fire_next. rewrite Htw. reflexivity. }
      rewrite Hn. subst w2. simpl.
      destruct (id messageData); [reflexivity|congruence].
    + apply I5; [lia|exact Hid].
Qed.

End DeliveryFacts.

(** ** Auth: what the middlewares let through *)

Section MiddlewareFacts.
Import Db Auth.

Lemma query_refused {A} (sql : Z -> Tables -> A * Tables) (p : Pool) :
  executes p = false ->
  exists e,
    query sql p = (Throw e, mkPool (tables p) (now p) (tail (outcomes p))).
Proof.
  unfold executes, query.
  destruct (outcomes p) as [|[e|] rest]; try discriminate.
  intros _. exists e. reflexivity.
Qed.

(** X29. The subscription guard never rejects and never changes a table.
    It calls [next()] exactly when both of its queries are executed, the
    count of sessions not in [error] is below [max_accounts], and the month
    has no usage row or the first such row has a total below
    [max_messages_per_month]; when its first query is rejected it answers
    500. *)
Theorem X29_guard_decision
    (organization : Organization) (currentMonth : string) (p : Pool) :
  let r := checkSubscriptionLimits organization currentMonth p in
  let current :=
    Z.of_nat
      (length
         (List.filter (counts_for (org_id organization))
            (whatsapp_sessions (tables p)))) in
  let usage :=
    List.filter
      (fun u => bool_decide (usage_organization_id u = org_id organization)
                && bool_decide (period_start u = currentMonth))
      (usage_tracking (tables p)) in
  tables (snd r) = tables p
  /\ (exists response, fst r = Normal response)
  /\ (fst r = Normal Next <->
        executes p = true
        /\ current < max_accounts organization
        /\ executes (mkPool (tables p) (now p) (tail (outcomes p))) = true
        /\ match usage with
           | [] => True
           | u :: _ =>
               default 0 (messages_sent u) + default 0 (messages_received u)
               < max_messages_per_month organization
           end)
  /\ (executes p = false ->
      fst r = Normal (Json 500 [("error", JString "Failed to check limits")])).
Proof.
  intros r current usage. subst r.
  unfold checkSubscriptionLimits, try_catch, bind.
  destruct (executes p) eqn:Hex.
  2:{ destruct (query_refused (count_sessions (org_id organization)) p Hex)
        as [e ->].
      unfold ret. cbn [fst snd tables].
      split; [reflexivity|]. split; [eexists; reflexivity|].
      split; [|reflexivity].
      split; [discriminate|]. intros (H & _). discriminate. }
  rewrite query_executes by exact Hex.
  cbn [fst snd count_sessions]. fold current.
  destruct (max_accounts organization <=? current) eqn:Hacc.
  { apply Z.leb_le in Hacc. unfold ret. cbn [fst snd tables].
    split; [reflexivity|]. split; [eexists; reflexivity|].
    split; [|discriminate].
    split; [discriminate|]. intros (_ & H & _). lia. }
  apply Z.leb_gt in Hacc.
  set (p1 := mkPool (tables p) (now p) (tail (outcomes p))).
  destruct (executes p1) eqn:Hex1.
  2:{ destruct (query_refused
                  (select_usage (org_id organization) currentMonth) p1 Hex1)
        as [e ->].
      unfold ret. cbn [fst snd tables p1].
      split; [reflexivity|]. split; [eexists; reflexivity|].
      split; [|discriminate].
      split; [discriminate|]. intros (_ & _ & H & _). discriminate. }
  rewrite query_executes by exact Hex1.
  cbn [fst snd select_usage p1 tables now]. fold usage.
  destruct usage as [|u0 us].
  { unfold ret. cbn [fst snd tables].
    split; [reflexivity|]. split; [eexists; reflexivity|].
    split; [|discriminate]. split; [auto|reflexivity]. }
  destruct (max_messages_per_month organization
            <=? default 0 (messages_sent u0)
                + default 0 (messages_received u0)) eqn:Hmsg.
  - apply Z.leb_le in Hmsg. unfold ret. cbn [fst snd tables].
    split; [reflexivity|]. split; [eexists; reflexivity|].
    split; [|discriminate].
    split; [discriminate|]. intros (_ & _ & _ & H). lia.
  - apply Z.leb_gt in Hmsg. unfold ret. cbn [fst snd tables].
    split; [reflexivity|]. split; [eexists; reflexivity|].
    split; [|discriminate]. split; [auto|reflexivity].
Qed.






End MiddlewareFacts.

(** ** Worked examples for the further properties *)

Section PhoneExamples.
Import GHLWebhookService Security Jid Scenarios.

Lemma X1_validated_phone_normal_form_witness :
  validatePhoneNumber (Some phone_typed) = true
  /\ norm phone_typed = plus ++ List.filter is_digit phone_typed
  /\ norm (norm phone_typed) = norm phone_typed.
Proof.
  split; [reflexivity|].
  split.
  - exact (proj1 (X1_validated_phone_normal_form phone_typed eq_refl)).
  - exact (proj2 (proj2 (proj2
      (X1_validated_phone_normal_form phone_typed eq_refl)))).
Defined.

Lemma X2_jid_round_trip_witness :
  bare phone_bare = true
  /\ toJid phone_bare = phone_bare ++ at_whatsapp
  /\ norm (toJid phone_bare)
     = (if startsWith plus phone_bare then phone_bare
        else plus ++ phone_bare).
Proof.
  split; [reflexivity|].
  split.
  - exact (proj1 (X2_jid_round_trip phone_bare eq_refl)).
  - exact (proj1 (proj2 (X2_jid_round_trip phone_bare eq_refl))).
Defined.

Lemma X7_valid_session_id_is_clean_witness :
  validateSessionId (Some session_name) = true
  /\ sanitizeInput session_name = session_name.
Proof.
  split; [reflexivity|].
  exact (proj2 (proj2 (X7_valid_session_id_is_clean session_name eq_refl))).
Defined.

End PhoneExamples.

Section StoreExamples.
Import Db Auth Examples Scenarios.


Lemma X10_restorable_after_status_witness :
  healthy pool3 = true
  /\ exists rows,
       fst (SessionPersistence.getActiveSessions
              (snd (SessionPersistence.updateSessionStatus "s1" disconnected
                      None None pool3))) = Normal rows
       /\ (In "s2" (map session_id rows)
           <-> In "s2"
                 (map session_id
                    (List.filter is_active
                       (whatsapp_sessions (tables pool3))))).
Proof.
  split; [reflexivity|].
  destruct (X10_restorable_after_status "s1" disconnected None None pool3
              eq_refl) as (rows & H1 & _ & H3).
  exists rows. split; [exact H1|].
  apply H3. discriminate.
Defined.

Lemma X11_created_session_restorable_after_save_witness :
  healthy pool1 = true
  /\ find_session "s2"
       (snd (SessionPersistence.createSessionRecord "s2" "org1" pool1))
     = Some (new_session "s2" "org1" (now pool1)).
Proof.
  split; [reflexivity|].
  exact (proj1 (proj2
    (X11_created_session_restorable_after_save "s2" "org1" "{}" pool1
       eq_refl))).
Defined.

Lemma X12_deleteSession_witness :
  healthy pool3 = true
  /\ find_session "s2" (snd (SessionPersistence.deleteSession "s2" pool3))
     = None
  /\ SessionPersistence.deleteSession "s2"
       (mkPool (tables pool3) 1000 [Some "connection terminated"])
     = (Normal tt, mkPool (tables pool3) 1000 []).
Proof.
  split; [reflexivity|].
  split.
  - exact (proj1 (proj2
      (X12_deleteSession "s2" pool3 (tables pool3) 1000
         "connection terminated" [] eq_refl))).
  - exact (proj2 (proj2 (proj2 (proj2
      (X12_deleteSession "s2" pool3 (tables pool3) 1000
         "connection terminated" [] eq_refl))))).
Defined.

Lemma X13_limit_checks_agree_witness :
  executes pool1 = true
  /\ exists r,
       fst (SessionPersistence.checkAccountLimit organizations
              (org_id free_org) pool1) = Normal r
       /\ SessionPersistence.limit r = max_accounts free_org.
Proof.
  split; [reflexivity|].
  destruct (X13_limit_checks_agree organizations free_org "2026-11-01" pool1
              eq_refl eq_refl) as (r & H1 & _ & H3 & _).
  exists r. split; [exact H1|exact H3].
Defined.


End StoreExamples.

Section ControllerExamples.
Import Db ReconnectionManager Examples.

Lemma X14_gives_up_after_five_failures_witness :
  healthy (persistence controller_fresh) = true
  /\ find_session "s1" (persistence controller_fresh) = Some row_s1
  /\ reconnectionAttempts controller_fresh !! "s1" = None
  /\ timers
       (replay
          (Disconnected "s1"
             :: repeat (TimerFired (Reconnect "s1") (Throw "timed out")) 5)
          controller_fresh)
     = timers controller_fresh
         ++ map (fun d => mkTimer d (Reconnect "s1"))
              [5000; 10000; 20000; 40000; 80000].
Proof.
  split; [reflexivity|]. split; [reflexivity|]. split; [reflexivity|].
  exact (proj1
    (X14_gives_up_after_five_failures "s1" "timed out" controller_fresh
       row_s1 eq_refl eq_refl eq_refl)).
Defined.

Lemma X15_success_starts_over_witness :
  healthy (persistence controller_exhausted) = true
  /\ find_session "s1" (persistence controller_exhausted) = Some row_s1
  /\ isReconnecting "s1"
       (snd (fire (Reconnect "s1") (Normal tt) controller_exhausted))
     = false.
Proof.
  split; [reflexivity|]. split; [reflexivity|].
  exact (proj1 (proj2
    (X15_success_starts_over "s1" controller_exhausted row_s1
       eq_refl eq_refl))).
Defined.

Lemma X16_counts_stay_in_range_witness :
  map_Forall (fun _ v => (1 <= v <= 5)%nat)
    (reconnectionAttempts controller_exhausted)
  /\ map_Forall (fun _ v => (1 <= v <= 5)%nat)
       (reconnectionAttempts
          (replay [Disconnected "s1"; Disconnected "s2"]
             controller_exhausted)).
Proof.
  assert (H : map_Forall (fun (_ : string) v => (1 <= v <= 5)%nat)
                (reconnectionAttempts controller_exhausted)).
  { apply map_Forall_singleton. lia. }
  split; [exact H|].
  exact (X16_counts_stay_in_range [Disconnected "s1"; Disconnected "s2"]
           controller_exhausted H).
Defined.

Lemma X17_rate_limit_then_backoff_witness :
  healthy (persistence controller_fresh) = true
  /\ find_session "s1" (persistence controller_fresh) = Some row_s1
  /\ timers (snd (handleRateLimit "s1" controller_fresh))
     = timers controller_fresh ++ [mkTimer 900000 (RateLimitRecovery "s1")].
Proof.
  split; [reflexivity|]. split; [reflexivity|].
  exact (proj1 (proj2
    (X17_rate_limit_then_backoff "s1" (Normal tt) controller_fresh row_s1
       eq_refl eq_refl))).
Defined.

End ControllerExamples.

Section WorkerExamples.
Import MessageQueue Examples.

Lemma X18_queue_drains_in_order_witness :
  (getQueueSize "s1" (queue_with [item_a; item_b] ∅) <= 2)%nat
  /\ attempted
       (since (length (effects (queue_with [item_a; item_b] ∅)))
          (processQueue "s1" [turn_ok 1000; turn_ok 4000]
             (queue_with [item_a; item_b] ∅)))
     = queue_of "s1" (queue_with [item_a; item_b] ∅).
Proof.
  split; [vm_compute; lia|].
  refine (proj1
    (X18_queue_drains_in_order "s1" [turn_ok 1000; turn_ok 4000]
       (queue_with [item_a; item_b] ∅) _ _ _ _ _)).
  - repeat constructor.
  - repeat constructor.
  - vm_compute. lia.
  - vm_compute. discriminate.
  - vm_compute. discriminate.
Defined.


Lemma X20_sessions_do_not_interfere_witness :
  "s2" <> "s1"
  /\ queues (step "s1" (Enqueue item_a) idle) !! "s2" = queues idle !! "s2".
Proof.
  split; [discriminate|].
  exact (proj1
    (X20_sessions_do_not_interfere "s1" "s2" (Enqueue item_a) idle
       ltac:(discriminate))).
Defined.

Lemma X21_queue_keeps_counter_within_limit_witness :
  counter "s1" full <= 20
  /\ counter "s1"
       (run "s1" [Enqueue item_b; Worker (turn_ok 1000);
                  Worker (turn_ok 61000)] full) <= 20.
Proof.
  split; [vm_compute; discriminate|].
  refine (X21_queue_keeps_counter_within_limit "s1"
            [Enqueue item_b; Worker (turn_ok 1000); Worker (turn_ok 61000)]
            full _ _).
  - repeat constructor.
  - vm_compute. discriminate.
Defined.

End WorkerExamples.

Section RegistryExamples.
Import Db SessionManager Examples Scenarios.

Lemma X23_reconnect_timer_is_rejected_witness :
  sessions manager1 !! "s1"
  = Some (mkHandle connected (Some "5551234567") 0)
  /\ shouldReconnect 401 connection_closed = true
  /\ forall lib now,
       createSession "s1" lib now closed_after
       = (Throw "Session s1 already exists", closed_after).
Proof.
  split; [reflexivity|]. split; [reflexivity|].
  exact (proj1 (proj2 (proj2
    (X23_reconnect_timer_is_rejected 401 "s1" bag connection_closed manager1
       (mkHandle connected (Some "5551234567") 0) eq_refl eq_refl)))).
Defined.

Lemma X24_destroySession_witness :
  sessions manager1 !! "s1"
  = Some (mkHandle connected (Some "5551234567") 0)
  /\ fst (destroySession "s1" (Throw "Connection Closed") manager1)
     = Normal tt
  /\ persistence
       (snd (destroySession "s1" (Throw "Connection Closed") manager1))
     = persistence manager1.
Proof.
  split; [reflexivity|].
  split.
  - exact (proj1
      (X24_destroySession "s1" (Throw "Connection Closed") manager1
         (mkHandle connected (Some "5551234567") 0) eq_refl)).
  - exact (proj1 (proj2 (proj2 (proj2
      (X24_destroySession "s1" (Throw "Connection Closed") manager1
         (mkHandle connected (Some "5551234567") 0) eq_refl))))).
Defined.

Lemma X25_connection_open_witness :
  healthy (persistence manager1) = true
  /\ find_session "s1" (persistence manager1) = Some row_s1
  /\ sessions manager1 !! "s1"
     = Some (mkHandle connected (Some "5551234567") 0)
  /\ getSession "s1"
       (snd (on_open "s1" bag "5559876543:7@s.whatsapp.net" manager1))
     = Some (mkHandle connected
               (Some (before_colon "5559876543:7@s.whatsapp.net")) 0).
Proof.
  split; [reflexivity|]. split; [reflexivity|]. split; [reflexivity|].
  exact (proj1 (proj2
    (X25_connection_open "s1" bag "5559876543:7@s.whatsapp.net" manager1
       row_s1 (mkHandle connected (Some "5551234567") 0)
       eq_refl eq_refl eq_refl))).
Defined.

Lemma X26_restoreAllSessions_witness :
  healthy (persistence starting) = true
  /\ sessions starting = ∅
  /\ fst (restoreAllSessions lib_without_s2 5000 starting) = Normal tt.
Proof.
  split; [reflexivity|]. split; [reflexivity|].
  refine (proj1
    (X26_restoreAllSessions lib_without_s2 5000 starting eq_refl eq_refl _)).
  apply (bool_decide_unpack _). vm_compute. exact I.
Defined.

End RegistryExamples.

Section DeliveryExamples.
Import GHLWebhookService Examples Scenarios.


Lemma X28_recovered_endpoint_gets_every_retry_witness :
  webhook_url hook = Some "https://hook.test/in"
  /\ (forall k, (length (posts twice_refused) <= k)%nat ->
        recovering k = true)
  /\ length (posts (fire_many recovering hook inbound 5 twice_refused))
     = (length (posts twice_refused)
        + Nat.min 5 (length (timers twice_refused)))%nat.
Proof.
  assert (H : forall k, (length (posts twice_refused) <= k)%nat ->
                recovering k = true).
  { intros k Hk. apply Nat.leb_le. exact Hk. }
  split; [reflexivity|]. split; [exact H|].
  exact (proj1
    (X28_recovered_endpoint_gets_every_retry recovering hook
       "https://hook.test/in" eq_refl inbound 5 twice_refused H)).
Defined.

End DeliveryExamples.
